(** * sasctl.pzmm.model_parameters: hyperparameter and KPI helpers

    A shallow embedding of [src/sasctl/pzmm/model_parameters.py] and the
    properties of its functions: [_find_file], and of [ModelParameters] the
    methods [_update_json], [generate_hyperparameters], [get_hyperparameters],
    [add_hyperparameters], [get_project_kpis] and the batch loop
    [update_kpis].

    Conventions of the embedding.
    - A Python [str] is a [string]; a character stands for a code point
      below 256, and [lower], [strip] and the JSON escapes follow Python on
      that range.
    - A Python value is a [pyval]; a [dict] (a [RestObj] is one) is an
      association list in insertion order, read with [dict_get] and written
      with [dict_set].
    - A function that may raise returns a [result]; a function that talks to
      the model repository or to the session returns an [M], the pair of the
      calls it made, in order, and its result.
    - The model repository ([mr]), the session and [is_uuid] are outside this
      file of the repository: they are the fields of a [client].
    - A pandas DataFrame is its column labels and its rows of cells; what
      pandas does is written out for the calls the source makes. *)

From Stdlib Require Import List String Ascii Bool ZArith Lia Arith.
From Stdlib Require Import DecimalString.
Import ListNotations.
Local Open Scope list_scope.
Local Open Scope string_scope.

Set Implicit Arguments.
Set Warnings "-register-all".

(** ** Strings *)

Definition chr (n : nat) : ascii := ascii_of_nat n.
Definition str1 (c : ascii) : string := String c EmptyString.
Definition dquote : string := str1 (chr 34).
Definition newline : string := str1 (chr 10).

Definition is_empty (s : string) : bool :=
  match s with EmptyString => true | String _ _ => false end.

Definition in_range (lo hi n : nat) : bool := Nat.leb lo n && Nat.leb n hi.

(** [str.lower] on one character: A-Z, and the upper-case letters of the
    Latin-1 block (all of 192..222 but the multiplication sign 215). *)
Definition lower_char (c : ascii) : ascii :=
  let n := nat_of_ascii c in
  if in_range 65 90 n || in_range 192 214 n || in_range 216 222 n
  then ascii_of_nat (n + 32) else c.

Fixpoint lower (s : string) : string :=
  match s with
  | EmptyString => EmptyString
  | String c s' => String (lower_char c) (lower s')
  end.

Fixpoint prefixb (p s : string) : bool :=
  match p, s with
  | EmptyString, _ => true
  | String _ _, EmptyString => false
  | String a p', String b s' => Ascii.eqb a b && prefixb p' s'
  end.

(** Python's [p in s] on strings. *)
Fixpoint containsb (p s : string) : bool :=
  prefixb p s ||
  match s with
  | EmptyString => false
  | String _ s' => containsb p s'
  end.

(** The characters [str.strip] removes: [str.isspace] below 256. *)
Definition is_space (c : ascii) : bool :=
  let n := nat_of_ascii c in
  in_range 9 13 n || in_range 28 32 n || Nat.eqb n 133 || Nat.eqb n 160.

Fixpoint lstrip (s : string) : string :=
  match s with
  | EmptyString => EmptyString
  | String c s' => if is_space c then lstrip s' else s
  end.

Fixpoint rstrip (s : string) : string :=
  match s with
  | EmptyString => EmptyString
  | String c s' =>
      let r := rstrip s' in
      if is_space c && is_empty r then EmptyString else String c r
  end.

Definition strip (s : string) : string := rstrip (lstrip s).

(** What the spec calls "contains the fragment": some substring. *)
Definition contains (p s : string) : Prop :=
  exists pre post, s = pre ++ p ++ post.

(** ... and "case-insensitively": some substring equal to the fragment up to
    the case of its letters. *)
Definition contains_ci (p s : string) : Prop :=
  exists pre mid post, s = pre ++ mid ++ post /\ lower mid = lower p.

(** ** Python values *)

Inductive pyval : Type :=
| PNone
| PBool (b : bool)
| PInt (z : Z)
| PFloat (repr : string)            (* a float, by the text of its repr *)
| PStr (s : string)
| PList (l : list pyval)
| PDict (d : list (string * pyval))
| PObject (type_name : string).     (* any other object *)

Definition dict : Type := list (string * pyval).

Fixpoint dict_get (k : string) (d : dict) : option pyval :=
  match d with
  | [] => None
  | (k', v) :: d' => if String.eqb k k' then Some v else dict_get k d'
  end.

Definition dict_has (k : string) (d : dict) : bool :=
  match dict_get k d with Some _ => true | None => false end.

(** [d[k] = v]: an existing key keeps its place, a new one goes last. *)
Fixpoint dict_set (k : string) (v : pyval) (d : dict) : dict :=
  match d with
  | [] => [(k, v)]
  | (k', v') :: d' =>
      if String.eqb k k' then (k', v) :: d' else (k', v') :: dict_set k v d'
  end.

Definition dict_keys (d : dict) : list string := map fst d.

(** ** Exceptions and results *)

(** The exceptions of the repository client and of the session are kept
    apart from the ones this module raises itself. *)
Definition client_error : Type := string.

Inductive exn : Type :=
| ValueError (msg : string)
| SystemError (msg : string)
| KeyError (key : string)
| TypeError
| AttributeError
| OSError
| ClientError (e : client_error).

Inductive result (A : Type) : Type :=
| Ok (a : A)
| Err (e : exn).
Arguments Err {A} e.

Definition rbind {A B} (r : result A) (f : A -> result B) : result B :=
  match r with Ok a => f a | Err e => Err e end.

(** [v[k]] on a Python value. *)
Definition subscript (v : pyval) (k : string) : result pyval :=
  match v with
  | PDict d =>
      match dict_get k d with Some x => Ok x | None => Err (KeyError k) end
  | _ => Err TypeError
  end.

(** [v.k] on a [RestObj]: the key of that name. *)
Definition getattr (v : pyval) (k : string) : result pyval :=
  match v with
  | PDict d =>
      match dict_get k d with Some x => Ok x | None => Err AttributeError end
  | _ => Err AttributeError
  end.

Notation "'let?' x ':=' r 'in' k" := (rbind r (fun x => k))
  (at level 10, x name, r at level 100, k at level 200).

(** ** json.dumps(obj, indent=n) *)

Definition Z_to_string (z : Z) : string := NilZero.string_of_int (Z.to_int z).

Definition hex_digit (n : nat) : ascii :=
  if Nat.ltb n 10 then chr (48 + n) else chr (87 + n).

Definition backslash : string := str1 (chr 92).

(** One character inside a JSON string, with [ensure_ascii] on: the
    printable ASCII characters stand for themselves but the quote and the
    backslash; the others are escaped. *)
Definition escape_char (c : ascii) : string :=
  let n := nat_of_ascii c in
  if Nat.eqb n 34 then backslash ++ dquote
  else if Nat.eqb n 92 then backslash ++ backslash
  else if Nat.eqb n 10 then backslash ++ "n"
  else if Nat.eqb n 13 then backslash ++ "r"
  else if Nat.eqb n 9 then backslash ++ "t"
  else if Nat.eqb n 8 then backslash ++ "b"
  else if Nat.eqb n 12 then backslash ++ "f"
  else if in_range 32 126 n then str1 c
  else backslash ++ "u00"
       ++ str1 (hex_digit (n / 16)) ++ str1 (hex_digit (n mod 16)).

Fixpoint escape (s : string) : string :=
  match s with
  | EmptyString => EmptyString
  | String c s' => escape_char c ++ escape s'
  end.

Definition json_string (s : string) : string := dquote ++ escape s ++ dquote.

Fixpoint spaces (n : nat) : string :=
  match n with O => EmptyString | S n' => String (chr 32) (spaces n') end.

Fixpoint join (sep : string) (l : list string) : string :=
  match l with
  | [] => EmptyString
  | [x] => x
  | x :: r => x ++ sep ++ join sep r
  end.

(** A container at nesting depth [level]: one member per line, [indent]
    spaces deeper than the bracket that closes it. *)
Definition json_block (indent level : nat) (open close : string)
    (members : list string) : string :=
  let newline_indent := newline ++ spaces (indent * S level) in
  open ++ newline_indent ++ join ("," ++ newline_indent) members
    ++ newline ++ spaces (indent * level) ++ close.

Fixpoint dumps_at (indent level : nat) (v : pyval) {struct v}
    : result string :=
  match v with
  | PNone => Ok "null"
  | PBool true => Ok "true"
  | PBool false => Ok "false"
  | PInt z => Ok (Z_to_string z)
  | PFloat repr => Ok repr
  | PStr s => Ok (json_string s)
  | PList [] => Ok "[]"
  | PList l =>
      let? members :=
        (fix items (l : list pyval) : result (list string) :=
           match l with
           | [] => Ok []
           | x :: r =>
               let? m := dumps_at indent (S level) x in
               let? ms := items r in
               Ok (m :: ms)
           end) l in
      Ok (json_block indent level "[" "]" members)
  | PDict [] => Ok "{}"
  | PDict d =>
      let? members :=
        (fix items (d : list (string * pyval)) : result (list string) :=
           match d with
           | [] => Ok []
           | (k, x) :: r =>
               let? m := dumps_at indent (S level) x in
               let? ms := items r in
               Ok ((json_string k ++ ": " ++ m) :: ms)
           end) d in
      Ok (json_block indent level "{" "}" members)
  | PObject _ => Err TypeError   (* not JSON serializable *)
  end.

Definition json_dumps (indent : nat) (v : pyval) : result string :=
  dumps_at indent 0 v.

(** ** The KPI table (a pandas DataFrame)

    A cell is a string, a missing value ([None] or NaN), or a number; the
    rows are kept in order and every row has one cell per column. *)

Inductive cell : Type :=
| CNull
| CStr (s : string)
| CNum (z : Z).

Definition cell_eqb (a b : cell) : bool :=
  match a, b with
  | CNull, CNull => true
  | CStr s, CStr t => String.eqb s t
  | CNum x, CNum y => Z.eqb x y
  | _, _ => false
  end.

Record DataFrame : Type := mk_frame {
  columns : list string;
  rows : list (list cell)
}.

Fixpoint index_of (label : string) (labels : list string) : option nat :=
  match labels with
  | [] => None
  | l :: rest =>
      if String.eqb label l then Some 0
      else match index_of label rest with Some i => Some (S i) | None => None end
  end.

(** The place of the one column with this label: [df[label]] raises
    [KeyError] when there is none, and what it answers when there are
    several makes the next step fail. *)
Definition label_index (label : string) (labels : list string) : result nat :=
  match index_of label labels with
  | None => Err (KeyError label)
  | Some i =>
      if existsb (String.eqb label) (skipn (S i) labels)
      then Err (ValueError "cannot index with a duplicated column label")
      else Ok i
  end.

Definition cell_at (i : nat) (row : list cell) : cell := nth i row CNull.

Definition remove_nth {A} (i : nat) (l : list A) : list A :=
  (firstn i l ++ skipn (S i) l)%list.

(** [df.loc[mask]], the mask given by a test on the row. *)
Definition select_rows (keep : list cell -> bool) (df : DataFrame)
    : DataFrame :=
  mk_frame (columns df) (filter keep (rows df)).

(** [df.empty]: no row, or no column. *)
Definition empty (df : DataFrame) : bool :=
  match rows df, columns df with
  | [], _ => true
  | _, [] => true
  | _, _ => false
  end.

(** [df.drop(columns=[label])], [i] the place of that column. *)
Definition drop_column (i : nat) (df : DataFrame) : DataFrame :=
  mk_frame (remove_nth i (columns df)) (map (remove_nth i) (rows df)).

(** [series == model] on one cell, [model] a [str]. *)
Definition cell_is (model : string) (v : cell) : bool :=
  match v with CStr s => String.eqb s model | _ => false end.

(** A frame after [set_index]: the remaining columns, and every row with
    its label. *)
Record IndexedFrame : Type := mk_indexed {
  icolumns : list string;
  irows : list (cell * list cell)
}.

Definition set_index (label : string) (df : DataFrame)
    : result IndexedFrame :=
  let? i := label_index label (columns df) in
  Ok (mk_indexed (remove_nth i (columns df))
        (map (fun row => (cell_at i row, remove_nth i row)) (rows df))).

Fixpoint nodupb {A} (eqb : A -> A -> bool) (l : list A) : bool :=
  match l with
  | [] => true
  | x :: r => negb (existsb (eqb x) r) && nodupb eqb r
  end.

(** The key [to_json] writes for a row label. *)
Definition label_key (v : cell) : string :=
  match v with
  | CStr s => s
  | CNull => "null"
  | CNum z => Z_to_string z
  end.

Definition cell_json (v : cell) : pyval :=
  match v with
  | CStr s => PStr s
  | CNull => PNone
  | CNum z => PInt z
  end.

Definition row_json (cols : list string) (row : list cell) : dict :=
  combine cols (map cell_json row).

(** [json.loads(df.to_json(orient="index"))]. [to_json] refuses labels or
    columns that repeat; [json.loads] reads the members in order into a
    dictionary. *)
Definition to_json_index (df : IndexedFrame) : result pyval :=
  if negb (nodupb cell_eqb (map fst (irows df))) then
    Err (ValueError "DataFrame index must be unique for orient='index'.")
  else if negb (nodupb String.eqb (icolumns df)) then
    Err (ValueError "DataFrame columns must be unique for orient='index'.")
  else
    Ok (PDict (fold_left
                 (fun acc r =>
                    dict_set (label_key (fst r))
                             (PDict (row_json (icolumns df) (snd r))) acc)
                 (irows df) [])).

(** ** The store of the objects

    [_update_json] changes the dictionary it is given and returns it: the
    document is a reference into a store. *)

Definition heap : Type := nat -> pyval.

Definition heap_set (h : heap) (r : nat) (v : pyval) : heap :=
  fun r' => if Nat.eqb r' r then v else h r'.

(** [obj[k] = v], [obj] the object at [r]. *)
Definition setitem (h : heap) (r : nat) (k : string) (v : pyval)
    : result heap :=
  match h r with
  | PDict d => Ok (heap_set h r (PDict (dict_set k v d)))
  | _ => Err TypeError
  end.

(** ** ModelParameters._update_json *)

Definition _update_json (model : string) (model_json : nat)
    (kpis : DataFrame) (h : heap) : result (nat * heap) :=
  let? uuid := label_index "ModelUUID" (columns kpis) in
  let model_rows :=
    select_rows (fun row => cell_is model (cell_at uuid row)) kpis in
  if negb (empty model_rows) then
    let model_rows := drop_column uuid model_rows in
    let? model_rows := set_index "TimeLabel" model_rows in
    let? parsed_json := to_json_index model_rows in
    let? h := setitem h model_json "kpis" parsed_json in
    Ok (model_json, h)
  else Ok (model_json, h).

(** ** ModelParameters.generate_hyperparameters *)















(** ** Calls to the service *)

Module ModelFile.
Record t : Type := mk { id : string; name : string }.
End ModelFile.

(** A [requests.Response]: its truth value is [ok]. *)
Record response : Type := mk_response { ok : bool; json : pyval }.

Inductive event : Type :=
| EGetModel (model : pyval)
| EGetProject (project : pyval)
| EGetModelContents (model : pyval)
| EGet (path : string)
| ESessGet (path : string)
| EAddModelContent (model : pyval) (content : string) (file_name : string).

Definition M (A : Type) : Type := (list event * result A)%type.

Definition ret {A} (a : A) : M A := ([], Ok a).
Definition raise {A} (e : exn) : M A := ([], Err e).
Definition lift {A} (r : result A) : M A := ([], r).

Definition bind {A B} (m : M A) (f : A -> M B) : M B :=
  match m with
  | (t, Ok a) => let (t', r) := f a in ((t ++ t')%list, r)
  | (t, Err e) => (t, Err e)
  end.

(** One call: the event, and what the service answered. *)
Definition call {A} (ev : event) (answer : client_error + A) : M A :=
  ([ev], match answer with inl e => Err (ClientError e) | inr a => Ok a end).

Notation "x <- m ;; k" := (bind m (fun x => k))
  (at level 61, m at next level, right associativity).
Notation "' pat <- m ;; k" := (bind m (fun x => match x with pat => k end))
  (at level 61, pat pattern, m at next level, right associativity).

Definition trace {A} (m : M A) : list event := fst m.
Definition outcome {A} (m : M A) : result A := snd m.

(** What this module imports from the rest of the package: [is_uuid], the
    model repository [mr] and the current session. [get_model] and
    [get_project] answer [None] for a name they do not find. [py_str] is
    [str(v)] as an f-string computes it. *)
Record client : Type := mk_client {
  is_uuid : pyval -> bool;
  py_str : pyval -> string;
  mr_get_model : pyval -> client_error + pyval;
  mr_get_project : pyval -> client_error + pyval;
  mr_get_model_contents : pyval -> client_error + list ModelFile.t;
  mr_get : string -> client_error + pyval;
  mr_add_model_content : pyval -> string -> string -> client_error + unit;
  sess_get : string -> client_error + response
}.

(** [str] of a [str] is that string. *)
Definition py_str_ok (c : client) : Prop := forall s, py_str c (PStr s) = s.

Section Client.

Variable c : client.

(** ** _find_file *)

Definition content_path (model : pyval) (file : ModelFile.t) : string :=
  "models/" ++ py_str c model ++ "/contents/" ++ ModelFile.id file ++ "/content".

Definition no_file_message (file_name : string) : string :=
  "No file containing " ++ dquote ++ file_name ++ dquote
    ++ " exists within model files.".

Fixpoint find_in (model : pyval) (file_name : string)
    (file_list : list ModelFile.t) : M (pyval * string) :=
  match file_list with
  | [] => raise (ValueError (no_file_message file_name))
  | file :: rest =>
      if containsb (lower file_name) (lower (ModelFile.name file)) then
        correct_file <- call (EGet (content_path model file))
                             (mr_get c (content_path model file)) ;;
        ret (correct_file, ModelFile.name file)
      else find_in model file_name rest
  end.

Definition _find_file (model : pyval) (file_name : string)
    : M (pyval * string) :=
  file_list <- call (EGetModelContents model) (mr_get_model_contents c model) ;;
  find_in model file_name file_list.

(** ** Resolving a model or a project to its id

    The if/elif/else at the head of [get_hyperparameters] and
    [add_hyperparameters] (with [mr.get_model]) and of [get_project_kpis]
    (with [mr.get_project]). The last branch binds the argument again, to
    what the lookup answered, so the block yields the pair of the argument as
    it is bound afterwards and of the id. *)

Definition has_id (ref : pyval) : bool :=
  match ref with PDict d => dict_has "id" d | _ => false end.

Definition resolve (lookup : pyval -> M pyval) (ref : pyval)
    : M (pyval * pyval) :=
  if is_uuid c ref then ret (ref, ref)
  else if has_id ref then
    id_ <- lift (subscript ref "id") ;;
    ret (ref, id_)
  else
    found <- lookup ref ;;
    id_ <- lift (subscript found "id") ;;
    ret (found, id_).

Definition get_model (model : pyval) : M pyval :=
  call (EGetModel model) (mr_get_model c model).

Definition get_project (project : pyval) : M pyval :=
  call (EGetProject project) (mr_get_project c project).

Definition resolve_model : pyval -> M (pyval * pyval) := resolve get_model.
Definition resolve_project : pyval -> M (pyval * pyval) := resolve get_project.

(** ** get_hyperparameters *)

Definition get_hyperparameters (model : pyval) : M (pyval * string) :=
  '(_, id_) <- resolve_model model ;;
  '(file_contents, file_name) <- _find_file id_ "hyperparameters" ;;
  ret (file_contents, file_name).

(** ** add_hyperparameters *)

(** [hyperparameters["hyperparameters"][key] = value]. The document was
    parsed from the file a moment ago, so no other name holds the inner
    dictionary and the update is the one of a value. *)
Definition set_hyperparameter (hyperparameters : pyval)
    (key : string) (value : pyval) : result pyval :=
  let? inner := subscript hyperparameters "hyperparameters" in
  match hyperparameters, inner with
  | PDict doc, PDict d =>
      Ok (PDict (dict_set "hyperparameters" (PDict (dict_set key value d)) doc))
  | _, _ => Err TypeError
  end.

Fixpoint set_hyperparameters (hyperparameters : pyval)
    (kwargs : list (string * pyval)) : result pyval :=
  match kwargs with
  | [] => Ok hyperparameters
  | (key, value) :: rest =>
      let? h := set_hyperparameter hyperparameters key value in
      set_hyperparameters h rest
  end.

Definition add_hyperparameters (model : pyval)
    (kwargs : list (string * pyval)) : M unit :=
  '(model, id_) <- resolve_model model ;;
  '(hyperparameters, file_name) <- get_hyperparameters id_ ;;
  hyperparameters <- lift (set_hyperparameters hyperparameters kwargs) ;;
  content <- lift (json_dumps 4 hyperparameters) ;;
  call (EAddModelContent model content file_name)
       (mr_add_model_content c model content file_name).

(** ** get_project_kpis *)

Definition table_path (service what server caslib : string)
    (project_id : pyval) : string :=
  service ++ "/servers/" ++ server ++ "/"
    ++ "caslibs/" ++ caslib ++ "/tables/"
    ++ py_str c project_id ++ ".MM_STD_KPI/" ++ what ++ "?limit=10000".

(** Truth of an optional string: neither [None] nor empty. *)
Definition truthy (o : option string) : bool :=
  match o with Some s => negb (is_empty s) | None => false end.

Definition text (o : option string) : string :=
  match o with Some s => s | None => "None" end.

Definition where_statement (filter_column filter_value : option string)
    : string :=
  if truthy filter_column && truthy filter_value
  then "&where=" ++ text filter_column ++ "='" ++ text filter_value ++ "'"
  else EmptyString.

Definition no_table_message (project_name : string) : string :=
  "No KPI table exists for project " ++ project_name ++ "."
    ++ " Please confirm that the performance definition completed"
    ++ " or custom KPIs have been uploaded successfully.".

(** The message of the filtered case, as the source has it: a plain string,
    with the braces in it. *)
Definition no_match_message : string :=
  "No KPIs were found when filtering with {filter_column}='{"
  ++ "filter_value}'.".

Definition no_kpis_message (project_name : string) : string :=
  "No KPIs were found for project " ++ project_name ++ ".".

(** The records of a JSON array of objects, as [json_normalize] reads it. *)
Fixpoint records (l : list pyval) : result (list dict) :=
  match l with
  | [] => Ok []
  | PDict d :: rest => let? ds := records rest in Ok (d :: ds)
  | _ :: _ => Err TypeError
  end.

Definition items_of (body : pyval) : result (list dict) :=
  let? items := subscript body "items" in
  match items with
  | PList l => records l
  | _ => Err TypeError
  end.

Fixpoint strings (l : list (option pyval)) : result (list string) :=
  match l with
  | [] => Ok []
  | Some (PStr s) :: rest => let? ss := strings rest in Ok (s :: ss)
  | _ :: _ => Err TypeError
  end.

(** [json_normalize(body, "items")["name"].to_list()]: there is a column
    [name] when some record has that key. A record without a string for its
    name is not what the service sends, and is refused here. *)
Definition column_names (body : pyval) : result (list string) :=
  let? cols := items_of body in
  if existsb (dict_has "name") cols
  then strings (map (dict_get "name") cols)
  else Err (KeyError "name").

Definition cell_of (v : pyval) : result cell :=
  match v with
  | PNone => Ok CNull
  | PStr s => Ok (CStr s)
  | PInt z => Ok (CNum z)
  | _ => Err TypeError
  end.

Fixpoint cells_of (l : list pyval) : result (list cell) :=
  match l with
  | [] => Ok []
  | v :: rest =>
      let? x := cell_of v in
      let? xs := cells_of rest in
      Ok (x :: xs)
  end.

Fixpoint cell_rows (l : list (option pyval)) : result (list (list cell)) :=
  match l with
  | [] => Ok []
  | Some (PList cs) :: rest =>
      let? row := cells_of cs in
      let? more := cell_rows rest in
      Ok (row :: more)
  | _ :: _ => Err TypeError
  end.

Definition pad (width : nat) (row : list cell) : list cell :=
  (row ++ repeat CNull (width - List.length row))%list.

(** [pd.DataFrame(data, columns=cols)] for a list of rows: short rows are
    filled with missing values, and the widest has as many cells as there
    are columns. *)
Definition new_frame (data : list (list cell)) (cols : list string)
    : result DataFrame :=
  let width := fold_right Nat.max 0 (map (@List.length cell) data) in
  if Nat.eqb width (List.length cols)
  then Ok (mk_frame cols (map (pad width) data))
  else Err (ValueError "the data do not have as many columns as were passed").

(** [pd.DataFrame(json_normalize(body["items"])["cells"].to_list(),
    columns=col_names)]: [KeyError] when the body has no [items], or no item
    has [cells]. Cells that are not arrays of strings, numbers and nulls are
    not what the service sends, and are refused here. *)
Definition frame_of_rows (body : pyval) (col_names : list string)
    : result DataFrame :=
  let? its := items_of body in
  if existsb (dict_has "cells") its then
    let? data := cell_rows (map (dict_get "cells") its) in
    new_frame data col_names
  else Err (KeyError "cells").

Definition is_str (v : cell) : bool :=
  match v with CStr _ => true | _ => false end.

Definition is_null (v : cell) : bool :=
  match v with CNull => true | _ => false end.

Definition column (j : nat) (df : DataFrame) : list cell :=
  map (cell_at j) (rows df).

(** [x.str] is there for a column of strings, also mixed with other values,
    and for a column of missing values only; not for a column of numbers. *)
Definition has_str_accessor (col : list cell) : bool :=
  existsb is_str col || forallb is_null col.

(** [x.str.strip()] on one cell: what is not a string becomes NaN. *)
Definition strip_cell (v : cell) : cell :=
  match v with CStr s => CStr (strip s) | _ => CNull end.

(** [df.apply(lambda x: x.str.strip())]. *)
Definition apply_strip (df : DataFrame) : result DataFrame :=
  if forallb (fun j => has_str_accessor (column j df))
             (seq 0 (List.length (columns df)))
  then Ok (mk_frame (columns df) (map (map strip_cell) (rows df)))
  else Err AttributeError.

Definition replace_cell (v : cell) : cell :=
  match v with
  | CStr s =>
      if String.eqb s "." || String.eqb s EmptyString then CNull else CStr s
  | _ => v
  end.

(** [df.replace] of the strings [.] and empty by [None]. *)
Definition replace_missing (df : DataFrame) : DataFrame :=
  mk_frame (columns df) (map (map replace_cell) (rows df)).

Definition postprocess (df : DataFrame) : result DataFrame :=
  let? stripped := apply_strip df in
  Ok (replace_missing stripped).

Definition get_project_kpis (project : pyval) (server caslib : string)
    (filter_column filter_value : option string) : M DataFrame :=
  '(project, project_id) <- resolve_project project ;;
  let columns_path :=
    table_path "casManagement" "columns" server caslib project_id in
  kpi_table_columns <- call (ESessGet columns_path) (sess_get c columns_path) ;;
  if negb (ok kpi_table_columns) then
    project <- get_project project ;;
    project_name <- lift (getattr project "name") ;;
    raise (SystemError (no_table_message (py_str c project_name)))
  else
    col_names <- lift (column_names (json kpi_table_columns)) ;;
    let rows_path :=
      table_path "casRowSets" "rows" server caslib project_id
        ++ where_statement filter_column filter_value in
    kpi_table_rows <- call (ESessGet rows_path) (sess_get c rows_path) ;;
    match frame_of_rows (json kpi_table_rows) col_names with
    | Err (KeyError _) =>
        if truthy filter_column && truthy filter_value then
          raise (SystemError no_match_message)
        else
          found <- get_project project ;;
          project_name <- lift (subscript found "name") ;;
          raise (SystemError (no_kpis_message (py_str c project_name)))
    | Err e => raise e
    | Ok kpi_table_df => lift (postprocess kpi_table_df)
    end.

End Client.

(** ** ModelParameters.update_kpis

    The loop reads the files of one model after it has uploaded the file of
    another, so the service is taken with its history: the client that
    answers after the upload calls made so far, oldest first. *)

Definition service : Type := list event -> client.

(** What the batch leaves behind: its calls, and the lines it prints. *)
Inductive output : Type :=
| Called (e : event)
| Printed (line : string).

(** How the batch ends. The handler of a model without a file can raise
    [IndexError], which the other functions never do. *)
Inductive batch_outcome : Type :=
| Completed
| Raised (e : exn)
| RaisedIndexError.

(** [series == model] on one cell, for a model of any kind, as the loop has
    it from the column: a missing value equals nothing. *)
Definition same_value (model v : cell) : bool :=
  match model with
  | CStr s => cell_is s v
  | CNum x => match v with CNum y => Z.eqb y x | _ => false end
  | CNull => false
  end.

(** [series.unique().tolist()]: the values in the order in which they come
    first. *)
Fixpoint uniq (l : list cell) : list cell :=
  match l with
  | [] => []
  | x :: rest => x :: filter (fun y => negb (cell_eqb x y)) (uniq rest)
  end.

(** [kpis["ModelUUID"].unique().tolist()]: with two columns of that label
    the selection is a frame, which has no [unique]. *)
Definition unique_models (kpis : DataFrame) : result (list cell) :=
  match index_of "ModelUUID" (columns kpis) with
  | None => Err (KeyError "ModelUUID")
  | Some i =>
      if existsb (String.eqb "ModelUUID") (skipn (S i) (columns kpis))
      then Err AttributeError
      else Ok (uniq (column i kpis))
  end.

(** [_update_json] for a model of any kind; for a string it is
    [_update_json]. *)
Definition update_json_of (model : cell) (model_json : nat)
    (kpis : DataFrame) (h : heap) : result (nat * heap) :=
  let? uuid := label_index "ModelUUID" (columns kpis) in
  let model_rows :=
    select_rows (fun row => same_value model (cell_at uuid row)) kpis in
  if negb (empty model_rows) then
    let model_rows := drop_column uuid model_rows in
    let? model_rows := set_index "TimeLabel" model_rows in
    let? parsed_json := to_json_index model_rows in
    let? h := setitem h model_json "kpis" parsed_json in
    Ok (model_json, h)
  else Ok (model_json, h).

(** A cell in an f-string. *)
Definition cell_text (v : cell) : string :=
  match v with
  | CStr s => s
  | CNull => "None"
  | CNum z => Z_to_string z
  end.

(** [kpis.loc[kpis["ModelUUID"]==model, "ModelName"].iloc[0]], written into
    the line. A table with two columns [ModelName] is not what the service
    sends, and is refused here. *)
Definition model_name (kpis : DataFrame) (model : cell)
    : batch_outcome + string :=
  match label_index "ModelUUID" (columns kpis) with
  | Err e => inl (Raised e)
  | Ok uuid =>
      match label_index "ModelName" (columns kpis) with
      | Err e => inl (Raised e)
      | Ok name =>
          match filter (fun row => same_value model (cell_at uuid row))
                       (rows kpis) with
          | [] => inl RaisedIndexError
          | row :: _ => inr (cell_text (cell_at name row))
          end
      end
  end.

Definition skip_notice (model_name : string) : string :=
  "No hyperparamter file for current model " ++ model_name
    ++ ". Attempting for next model...".

(** The store with the document that was fetched, at reference 0. *)
Definition store_of (current_params : pyval) : heap :=
  heap_set (fun _ => PNone) 0 current_params.

(** [json.dumps(cls._update_json(model, current_params, kpis), indent=4)]. *)
Definition merged_text (model : cell) (current_params : pyval)
    (kpis : DataFrame) : result string :=
  let? updated := update_json_of model 0 kpis (store_of current_params) in
  json_dumps 4 (snd updated (fst updated)).

(** The loop of [update_kpis]; [uploads] are the upload calls made so far. *)
Fixpoint update_models (svc : service) (kpis : DataFrame)
    (models : list cell) (uploads : list event)
    : list output * batch_outcome :=
  match models with
  | [] => ([], Completed)
  | model :: rest =>
      let c := svc uploads in
      let (t, found) := _find_file c (cell_json model) "hyperparameters" in
      match found with
      | Err _ =>
          match model_name kpis model with
          | inl e => (map Called t, e)
          | inr name =>
              let (log, out) := update_models svc kpis rest uploads in
              ((map Called t ++ Printed (skip_notice name) :: log)%list, out)
          end
      | Ok (current_params, file_name) =>
          match merged_text model current_params kpis with
          | Err e => (map Called t, Raised e)
          | Ok content =>
              let up := EAddModelContent (cell_json model) content file_name in
              match mr_add_model_content c (cell_json model) content
                      file_name with
              | inl e =>
                  ((map Called t ++ [Called up])%list,
                   Raised (ClientError e))
              | inr _ =>
                  let (log, out) :=
                    update_models svc kpis rest (uploads ++ [up])%list in
                  ((map Called t ++ Called up :: log)%list, out)
              end
          end
      end
  end.

Definition update_kpis (svc : service) (project : pyval)
    (server caslib : string) : list output * batch_outcome :=
  let (t, fetched) :=
    get_project_kpis (svc []) project server caslib None None in
  match fetched with
  | Err e => (map Called t, Raised e)
  | Ok kpis =>
      match unique_models kpis with
      | Err e => (map Called t, Raised e)
      | Ok models_to_update =>
          let (log, out) := update_models svc kpis models_to_update [] in
          ((map Called t ++ log)%list, out)
      end
  end.

(** ** Vocabulary of the properties *)

(** The name of [file] contains the fragment, up to case. *)
Definition matches (fragment : string) (file : ModelFile.t) : Prop :=
  contains_ci fragment (ModelFile.name file).

(** What fetching the content of [file] gives. *)
Definition fetched (c : client) (model : pyval) (file : ModelFile.t)
    : result (pyval * string) :=
  match mr_get c (content_path c model file) with
  | inr content => Ok (content, ModelFile.name file)
  | inl e => Err (ClientError e)
  end.

(** The lookups by name among the calls of a trace. *)
Definition is_lookup (e : event) : bool :=
  match e with
  | EGetModel _ | EGetProject _ => true
  | _ => false
  end.

Definition lookups (t : list event) : list event := filter is_lookup t.

(** What a lookup that answered [answer] leaves for the id. *)
Definition looked_up (answer : client_error + pyval)
    : result (pyval * pyval) :=
  match answer with
  | inl e => Err (ClientError e)
  | inr found => let? id_ := subscript found "id" in Ok (found, id_)
  end.

(** The cell of a row under a column label. *)
Definition value_of (cols : list string) (label : string) (row : list cell)
    : cell :=
  match index_of label cols with
  | Some i => cell_at i row
  | None => CNull
  end.

(** The row is one of model [model]. *)
Definition row_of_model (cols : list string) (model : string)
    (row : list cell) : bool :=
  cell_is model (value_of cols "ModelUUID" row).

(** The rows of [model] alone. *)
Definition rows_of_model (model : string) (kpis : DataFrame) : DataFrame :=
  select_rows (row_of_model (columns kpis) model) kpis.

(** [d.update(kwargs)], key by key. *)
Fixpoint update (d : dict) (kwargs : list (string * pyval)) : dict :=
  match kwargs with
  | [] => d
  | (key, value) :: rest => update (dict_set key value d) rest
  end.

(** What the upload call answers. *)
Definition uploaded (c : client) (model : pyval) (content file_name : string)
    : result unit :=
  match mr_add_model_content c model content file_name with
  | inl e => Err (ClientError e)
  | inr u => Ok u
  end.

(** The place of a column once the column at [i] is gone. *)
Definition shifted (i j : nat) : nat := if Nat.ltb j i then j else pred j.

(** Every character of the string is white space. *)
Fixpoint all_space (s : string) : bool :=
  match s with
  | EmptyString => true
  | String c s' => is_space c && all_space s'
  end.

Definition starts_with_space (s : string) : bool :=
  match s with EmptyString => false | String c _ => is_space c end.

Fixpoint ends_with_space (s : string) : bool :=
  match s with
  | EmptyString => false
  | String c EmptyString => is_space c
  | String _ s' => ends_with_space s'
  end.

(** What the spec says of a cell after the post-processing: a string is
    stripped, and is null when what is left is [.] or nothing. *)
Definition normalized (v : cell) : cell :=
  match v with
  | CStr s =>
      if String.eqb (strip s) "." || String.eqb (strip s) EmptyString
      then CNull else CStr (strip s)
  | _ => CNull
  end.

(** The two requests of [get_project_kpis]. *)
Definition columns_path (c : client) (server caslib : string)
    (project_id : pyval) : string :=
  table_path c "casManagement" "columns" server caslib project_id.

Definition rows_path (c : client) (server caslib : string)
    (project_id : pyval) (filter_column filter_value : option string)
    : string :=
  table_path c "casRowSets" "rows" server caslib project_id
    ++ where_statement filter_column filter_value.


(** The upload calls, and the requests of the session, among the calls of
    a trace. *)
Definition is_upload (e : event) : bool :=
  match e with EAddModelContent _ _ _ => true | _ => false end.

Definition upload_calls (t : list event) : list event := filter is_upload t.

Definition is_request (e : event) : bool :=
  match e with ESessGet _ => true | _ => false end.

Definition session_requests (t : list event) : list event :=
  filter is_request t.

(** The operation makes no upload call. *)
Definition quiet {A} (m : M A) : Prop := upload_calls (trace m) = [].

(** The operation makes at most [n] calls of the kind [p]. *)
Definition at_most {A} (p : event -> bool) (n : nat) (m : M A) : Prop :=
  List.length (filter p (trace m)) <= n.

(** A cell as the post-processing leaves it: missing, or a string that is
    not a mark of a missing value and has no white space at its ends. *)
Definition clean_cell (v : cell) : Prop :=
  match v with
  | CNull => True
  | CStr s =>
      s <> "." /\ s <> EmptyString
      /\ starts_with_space s = false /\ ends_with_space s = false
  | CNum _ => False
  end.

(** What the table gives for a model, apart from any document: nothing
    when no row is one of the model, and else the object to put under
    [kpis]. *)
Definition merged_kpis (model : string) (kpis : DataFrame)
    : result (option pyval) :=
  let? uuid := label_index "ModelUUID" (columns kpis) in
  let model_rows :=
    select_rows (fun row => cell_is model (cell_at uuid row)) kpis in
  if negb (empty model_rows) then
    let? ix := set_index "TimeLabel" (drop_column uuid model_rows) in
    let? parsed := to_json_index ix in
    Ok (Some parsed)
  else Ok None.


(** In the log of a batch: the models of the upload calls, the models whose
    files were listed, and the lines printed, each in order. *)
Definition upload_of (o : output) : list pyval :=
  match o with Called (EAddModelContent m _ _) => [m] | _ => [] end.

Definition listing_of (o : output) : list pyval :=
  match o with Called (EGetModelContents m) => [m] | _ => [] end.

Definition notice_of (o : output) : list string :=
  match o with Printed line => [line] | _ => [] end.

Definition uploaded_models (log : list output) : list pyval :=
  flat_map upload_of log.

Definition listed_models (log : list output) : list pyval :=
  flat_map listing_of log.

Definition notices (log : list output) : list string :=
  flat_map notice_of log.

(** [l] is [m] with some members left out. *)
Inductive subseq {A : Type} : list A -> list A -> Prop :=
| subseq_nil : subseq [] []
| subseq_skip : forall x l m, subseq l m -> subseq l (x :: m)
| subseq_take : forall x l m, subseq l m -> subseq (x :: l) (x :: m).

Definition is_listing (e : event) : bool :=
  match e with EGetModelContents _ => true | _ => false end.

(** The upload calls of a log, and the name that the table has for a model,
    in the first of its rows. *)
Definition upload_event_of (o : output) : list event :=
  match o with
  | Called (EAddModelContent m content file_name) =>
      [EAddModelContent m content file_name]
  | _ => []
  end.

Definition upload_events (log : list output) : list event :=
  flat_map upload_event_of log.

Definition first_name (kpis : DataFrame) (model : cell) : string :=
  match filter (fun row =>
                  cell_eqb (value_of (columns kpis) "ModelUUID" row) model)
               (rows kpis) with
  | row :: _ => cell_text (value_of (columns kpis) "ModelName" row)
  | [] => EmptyString
  end.

(** ** A small service, for the examples *)

Definition demo_uuid : string := "123e4567-e89b-12d3-a456-426614174000".

Definition demo_document : pyval :=
  PDict [("hyperparameters", PDict [("C", PFloat "1.0")])].

Definition demo_files : list ModelFile.t :=
  [ ModelFile.mk "f1" "dmcas_fitstat.json";
    ModelFile.mk "f2" "ModelHyperparameters.json";
    ModelFile.mk "f3" "hyperparameters_old.json" ].

Definition demo_model : pyval :=
  PDict [("id", PStr demo_uuid); ("name", PStr "MyModel")].

Definition demo_project : pyval :=
  PDict [("id", PStr demo_uuid); ("name", PStr "Churn")].

Definition demo_str (v : pyval) : string :=
  match v with
  | PStr s => s
  | PInt z => Z_to_string z
  | PNone => "None"
  | PBool true => "True"
  | PBool false => "False"
  | _ => "<object>"
  end.

Definition is_str_of_length (n : nat) (v : pyval) : bool :=
  match v with PStr s => Nat.eqb (String.length s) n | _ => false end.

(** A lookup by the name, or by the id. *)
Definition by_name (name : string) (found : pyval) (ref : pyval)
    : client_error + pyval :=
  match ref with
  | PStr s =>
      inr (if String.eqb s name || String.eqb s demo_uuid then found
           else PNone)
  | PDict _ => inr ref
  | _ => inr PNone
  end.

(** A service with one model, one project, three files, and the answers of
    the session given by [session]. *)
Definition demo_client (files : list ModelFile.t)
    (session : string -> client_error + response) : client :=
  mk_client (is_str_of_length 36) demo_str
    (by_name "MyModel" demo_model) (by_name "Churn" demo_project)
    (fun _ => inr files)
    (fun _ => inr demo_document)
    (fun _ _ _ => inr tt)
    session.

Definition no_session : string -> client_error + response :=
  fun _ => inl "no session".

(** The scenario of the spec: two models, one period each. *)
Definition demo_kpis : DataFrame :=
  mk_frame ["ModelUUID"; "TimeLabel"; "AUC"]
    [ [CStr "m1"; CStr "2023-01"; CStr "0.9"];
      [CStr "m2"; CStr "2023-01"; CStr "0.7"] ].

Definition demo_heap : heap :=
  fun r => if Nat.eqb r 7 then demo_document else PNone.

(** The document of the example with [max_depth] added, as it is uploaded. *)
Definition demo_updated_text : string :=
  "{" ++ newline
  ++ "    " ++ dquote ++ "hyperparameters" ++ dquote ++ ": {" ++ newline
  ++ "        " ++ dquote ++ "C" ++ dquote ++ ": 1.0," ++ newline
  ++ "        " ++ dquote ++ "max_depth" ++ dquote ++ ": 5" ++ newline
  ++ "    }" ++ newline
  ++ "}".

(** The answers of the session: the schema of a table of three columns, and
    [rows_body] for the rows. *)
Definition demo_schema : pyval :=
  PDict [("items", PList [PDict [("name", PStr "ModelUUID")];
                          PDict [("name", PStr "TimeLabel")];
                          PDict [("name", PStr "AUC")]])].

Definition demo_session (schema_ok : bool) (rows_body : pyval)
    : string -> client_error + response :=
  fun path =>
    if containsb "/columns?" path
    then inr (mk_response schema_ok demo_schema)
    else inr (mk_response true rows_body).

(** The cells of the spec's example of the missing values. *)
Definition demo_rows_body : pyval :=
  PDict [("items",
          PList [PDict [("cells", PList [PStr "."; PStr EmptyString;
                                         PStr " 7 "])];
                 PDict [("cells", PList [PStr "abc"; PStr " m1"; PNone])]])].

Definition demo_no_rows_body : pyval := PDict [("count", PInt 0)].





(** A project with three models in its table; the first has a
    hyperparameter file, the others have no file. *)
Definition batch_schema : pyval :=
  PDict [("items", PList [PDict [("name", PStr "ModelUUID")];
                          PDict [("name", PStr "ModelName")];
                          PDict [("name", PStr "TimeLabel")];
                          PDict [("name", PStr "AUC")]])].

Definition batch_rows : pyval :=
  PDict [("items",
          PList [PDict [("cells", PList [PStr "m1"; PStr "reg";
                                         PStr "2023-01"; PStr " 0.9"])];
                 PDict [("cells", PList [PStr "m2"; PStr "tree";
                                         PStr "2023-01"; PStr " 0.7"])];
                 PDict [("cells", PList [PStr "m1"; PStr "reg";
                                         PStr "2023-02"; PStr "."])];
                 PDict [("cells", PList [PStr "m3"; PStr "net";
                                         PStr "2023-01"; PStr " 0.8"])]])].

Definition batch_session : string -> client_error + response :=
  fun path =>
    if containsb "/columns?" path
    then inr (mk_response true batch_schema)
    else inr (mk_response true batch_rows).

Definition batch_files (model : pyval) : client_error + list ModelFile.t :=
  match model with
  | PStr "m1" => inr demo_files
  | PStr "m3" => inl "503 Service Unavailable"
  | _ => inr []
  end.

Definition batch_service_with
    (files : pyval -> client_error + list ModelFile.t) : service :=
  fun _ =>
    mk_client (is_str_of_length 36) demo_str
      (by_name "MyModel" demo_model) (by_name "Churn" demo_project)
      files
      (fun _ => inr demo_document)
      (fun _ _ _ => inr tt)
      batch_session.

Definition batch_service : service := batch_service_with batch_files.

Definition batch_table : DataFrame :=
  mk_frame ["ModelUUID"; "ModelName"; "TimeLabel"; "AUC"]
    [[CStr "m1"; CStr "reg"; CStr "2023-01"; CStr "0.9"];
     [CStr "m2"; CStr "tree"; CStr "2023-01"; CStr "0.7"];
     [CStr "m1"; CStr "reg"; CStr "2023-02"; CNull];
     [CStr "m3"; CStr "net"; CStr "2023-01"; CStr "0.8"]].

(** Two periods for one model, and the same table with the second period
    under the label of the first. *)
Definition two_periods : DataFrame :=
  mk_frame ["ModelUUID"; "ModelName"; "TimeLabel"; "AUC"]
    [ [CStr "m1"; CStr "reg"; CStr "2023-01"; CStr "0.9"];
      [CStr "m2"; CStr "tree"; CStr "2023-01"; CStr "0.7"];
      [CStr "m1"; CStr "reg"; CStr "2023-02"; CNull] ].

Definition same_period_twice : DataFrame :=
  mk_frame ["ModelUUID"; "ModelName"; "TimeLabel"; "AUC"]
    [ [CStr "m1"; CStr "reg"; CStr "2023-01"; CStr "0.9"];
      [CStr "m1"; CStr "reg"; CStr "2023-01"; CStr "0.8"] ].

(** The same project when the second model has two rows for one period;
    every model has its files. *)
Definition twice_rows : pyval :=
  PDict [("items",
          PList [PDict [("cells", PList [PStr "m1"; PStr "reg";
                                         PStr "2023-01"; PStr " 0.9"])];
                 PDict [("cells", PList [PStr "m2"; PStr "tree";
                                         PStr "2023-01"; PStr " 0.7"])];
                 PDict [("cells", PList [PStr "m2"; PStr "tree";
                                         PStr "2023-01"; PStr " 0.6"])];
                 PDict [("cells", PList [PStr "m3"; PStr "net";
                                         PStr "2023-01"; PStr " 0.8"])]])].

Definition twice_table : DataFrame :=
  mk_frame ["ModelUUID"; "ModelName"; "TimeLabel"; "AUC"]
    [[CStr "m1"; CStr "reg"; CStr "2023-01"; CStr "0.9"];
     [CStr "m2"; CStr "tree"; CStr "2023-01"; CStr "0.7"];
     [CStr "m2"; CStr "tree"; CStr "2023-01"; CStr "0.6"];
     [CStr "m3"; CStr "net"; CStr "2023-01"; CStr "0.8"]].

Definition twice_service : service :=
  fun _ =>
    mk_client (is_str_of_length 36) demo_str
      (by_name "MyModel" demo_model) (by_name "Churn" demo_project)
      (fun _ => inr demo_files)
      (fun _ => inr demo_document)
      (fun _ _ _ => inr tt)
      (fun path =>
         if containsb "/columns?" path
         then inr (mk_response true batch_schema)
         else inr (mk_response true twice_rows)).

(** The text that is uploaded for a model of a table, when its document is
    the one of the examples. *)
Definition demo_content (kpis : DataFrame) (m : cell) : string :=
  match merged_text m demo_document kpis with
  | Ok content => content
  | Err _ => EmptyString
  end.

(** * Properties *)

Unset Implicit Arguments.

(** ** Strings *)

Lemma prefixb_spec (p s : string) :
  prefixb p s = true <-> exists post, s = p ++ post.
Proof.
  revert s; induction p as [|a p IH]; intros s; simpl.
  - split; [intros _; now exists s | reflexivity].
  - destruct s as [|b s].
    + split; [discriminate | intros [post H]; discriminate].
    + rewrite andb_true_iff, Ascii.eqb_eq, IH. split.
      * intros [-> [post ->]]. now exists post.
      * intros [post H]. injection H as -> ->. split; [reflexivity | now exists post].
Qed.

Lemma containsb_spec (p s : string) : containsb p s = true <-> contains p s.
Proof.
  unfold contains. induction s as [|b s IH]; simpl.
  - rewrite orb_false_r, prefixb_spec. split.
    + intros [post H]. now exists EmptyString, post.
    + intros [pre [post H]]. destruct pre; simpl in H.
      * now exists post.
      * discriminate.
  - rewrite orb_true_iff, prefixb_spec, IH. split.
    + intros [[post H] | [pre [post H]]].
      * now exists EmptyString, post.
      * exists (String b pre), post. simpl. now rewrite H.
    + intros [pre [post H]]. destruct pre as [|a pre]; simpl in H.
      * left. now exists post.
      * right. injection H as _ H. now exists pre, post.
Qed.

Lemma str_app_assoc (a b d : string) : (a ++ b) ++ d = a ++ (b ++ d).
Proof. induction a as [|x a IH]; simpl; [reflexivity | now rewrite IH]. Qed.

Lemma lower_app (a b : string) : lower (a ++ b) = lower a ++ lower b.
Proof. induction a as [|x a IH]; simpl; [reflexivity | now rewrite IH]. Qed.

Lemma lower_split (s a b : string) :
  lower s = a ++ b ->
  exists s1 s2, s = s1 ++ s2 /\ lower s1 = a /\ lower s2 = b.
Proof.
  revert s; induction a as [|x a IH]; intros s H; simpl in H.
  - now exists EmptyString, s.
  - destruct s as [|y s]; simpl in H; [discriminate|].
    injection H as Hx H. destruct (IH _ H) as [s1 [s2 [-> [H1 H2]]]].
    exists (String y s1), s2. simpl. now rewrite Hx, H1.
Qed.

(** The test of the source, [file_name.lower() in file.name.lower()], is
    containment up to case. *)
Lemma contains_ci_spec (p s : string) :
  containsb (lower p) (lower s) = true <-> contains_ci p s.
Proof.
  rewrite containsb_spec. unfold contains, contains_ci. split.
  - intros [a [b H]].
    destruct (lower_split _ _ _ H) as [pre [rest [-> [Hpre Hrest]]]].
    destruct (lower_split _ _ _ Hrest) as [mid [post [-> [Hmid Hpost]]]].
    now exists pre, mid, post.
  - intros [pre [mid [post [-> H]]]].
    exists (lower pre), (lower post). now rewrite !lower_app, H.
Qed.

Lemma contains_ci_dec (p s : string) :
  containsb (lower p) (lower s) = false <-> ~ contains_ci p s.
Proof.
  rewrite <- contains_ci_spec. destruct (containsb _ _); split; auto.
  - intros H; discriminate.
  - intros H; exfalso; auto.
Qed.

(** ** The file locator *)

Section FileLocator.

Variable c : client.

Lemma find_in_none (model : pyval) (fragment : string)
    (files : list ModelFile.t) :
  (forall file, In file files -> ~ matches fragment file) ->
  find_in c model fragment files
  = ([], Err (ValueError (no_file_message fragment))).
Proof.
  induction files as [|file rest IH]; intros H; simpl.
  - reflexivity.
  - assert (Hf : ~ matches fragment file) by (apply H; now left).
    apply contains_ci_dec in Hf. rewrite Hf.
    apply IH. intros g Hg. apply H. now right.
Qed.

Lemma find_in_first (model : pyval) (fragment : string)
    (pre post : list ModelFile.t) (file : ModelFile.t) :
  (forall g, In g pre -> ~ matches fragment g) ->
  matches fragment file ->
  find_in c model fragment (pre ++ file :: post)%list
  = ([EGet (content_path c model file)], fetched c model file).
Proof.
  intros Hpre Hfile. induction pre as [|g pre IH]; simpl.
  - apply contains_ci_spec in Hfile. rewrite Hfile.
    unfold fetched, bind, call, ret.
    destruct (mr_get c (content_path c model file)); reflexivity.
  - assert (Hg : ~ matches fragment g) by (apply Hpre; now left).
    apply contains_ci_dec in Hg. rewrite Hg.
    apply IH. intros g' Hg'. apply Hpre. now right.
Qed.

Lemma matches_dec (fragment : string) (file : ModelFile.t) :
  {matches fragment file} + {~ matches fragment file}.
Proof.
  unfold matches.
  destruct (containsb (lower fragment) (lower (ModelFile.name file))) eqn:E.
  - left. now apply contains_ci_spec.
  - right. now apply contains_ci_dec.
Qed.

(** Either no file matches, or the list splits at the first one that does. *)
Lemma first_match (fragment : string) (files : list ModelFile.t) :
  (forall file, In file files -> ~ matches fragment file)
  \/ exists pre file post,
       files = (pre ++ file :: post)%list
       /\ (forall g, In g pre -> ~ matches fragment g)
       /\ matches fragment file.
Proof.
  induction files as [|f rest IH].
  - left. intros file [].
  - destruct (matches_dec fragment f) as [Hf | Hf].
    + right. exists [], f, rest. repeat split; [intros g [] | exact Hf].
    + destruct IH as [IH | [pre [file [post [-> [Hpre Hfile]]]]]].
      * left. intros file [<- | Hin]; [exact Hf | now apply IH].
      * right. exists (f :: pre), file, post. repeat split; [|exact Hfile].
        intros g [<- | Hg]; [exact Hf | now apply Hpre].
Qed.

(** C3. When the listing of the model's files answers [files]: the locator
    fetches the first file of the listing whose name contains the fragment
    up to case, and returns that content with the name as it is stored; and
    it fails with the "no file" error if and only if no name in the listing
    contains the fragment up to case. *)
Theorem find_file_first_match (model : pyval) (fragment : string)
    (files : list ModelFile.t) :
  mr_get_model_contents c model = inr files ->
  (forall pre file post,
      files = (pre ++ file :: post)%list ->
      (forall g, In g pre -> ~ matches fragment g) ->
      matches fragment file ->
      _find_file c model fragment
      = ([EGetModelContents model; EGet (content_path c model file)],
         fetched c model file))
  /\ ((exists msg,
          outcome (_find_file c model fragment) = Err (ValueError msg))
      <-> forall file, In file files -> ~ matches fragment file).
Proof.
  intros Hlist. unfold _find_file, bind, call. rewrite Hlist. split.
  - intros pre file post -> Hpre Hfile.
    now rewrite (find_in_first model fragment pre post file Hpre Hfile).
  - destruct (first_match fragment files)
      as [Hnone | [pre [file [post [-> [Hpre Hfile]]]]]].
    + rewrite (find_in_none model fragment files Hnone). simpl. split; [auto|].
      intros _. now exists (no_file_message fragment).
    + rewrite (find_in_first model fragment pre post file Hpre Hfile). simpl. split.
      * intros [msg H]. unfold fetched in H.
        destruct (mr_get c (content_path c model file)); discriminate.
      * intros H. exfalso. apply (H file); [|exact Hfile].
        apply in_or_app. right. now left.
Qed.

(** C4, as amended. When no stored name contains the fragment, the locator
    fails, after the listing call alone, with a [ValueError] whose message
    is the "no file" message of the fragment; the message contains the
    fragment. *)
Theorem find_file_not_found (model : pyval) (fragment : string)
    (files : list ModelFile.t) :
  mr_get_model_contents c model = inr files ->
  (forall file, In file files -> ~ matches fragment file) ->
  _find_file c model fragment
  = ([EGetModelContents model], Err (ValueError (no_file_message fragment)))
  /\ contains fragment (no_file_message fragment).
Proof.
  intros Hlist Hnone. split.
  - unfold _find_file, bind, call. rewrite Hlist.
    now rewrite (find_in_none model fragment files Hnone).
  - exists ("No file containing " ++ dquote),
           (dquote ++ " exists within model files.").
    unfold no_file_message.
    now rewrite str_app_assoc.
Qed.

End FileLocator.

(** The first of the two files with "hyperparameters" in their names, in the
    order of the listing. *)
Lemma find_file_first_match_witness :
  _find_file (demo_client demo_files no_session) (PStr demo_uuid)
    "hyperparameters"
  = ([EGetModelContents (PStr demo_uuid);
      EGet ("models/" ++ demo_uuid ++ "/contents/f2/content")],
     Ok (demo_document, "ModelHyperparameters.json")).
Proof.
  set (c := demo_client demo_files no_session).
  destruct (find_file_first_match c (PStr demo_uuid) "hyperparameters"
              demo_files eq_refl) as [H _].
  apply (H [ModelFile.mk "f1" "dmcas_fitstat.json"]
           (ModelFile.mk "f2" "ModelHyperparameters.json")
           [ModelFile.mk "f3" "hyperparameters_old.json"] eq_refl).
  - intros g [<- | []]. apply contains_ci_dec. reflexivity.
  - apply contains_ci_spec. reflexivity.
Defined.

Lemma find_file_not_found_witness :
  _find_file (demo_client demo_files no_session) (PStr "m1") "score"
  = ([EGetModelContents (PStr "m1")],
     Err (ValueError (no_file_message "score"))).
Proof.
  apply (find_file_not_found (demo_client demo_files no_session)
           (PStr "m1") "score" demo_files eq_refl).
  intros file Hin. apply contains_ci_dec.
  destruct Hin as [<- | [<- | [<- | []]]]; reflexivity.
Defined.

(** C4 as it is stated fails: the message of the error names the fragment,
    not the model. *)
Lemma find_file_error_lacks_model_id :
  ~ (exists msg,
        outcome (_find_file (demo_client demo_files no_session)
                   (PStr "m1") "score")
        = Err (ValueError msg)
        /\ contains "score" msg /\ contains "m1" msg).
Proof.
  intros [msg [H [_ Hid]]]. vm_compute in H. injection H as <-.
  apply containsb_spec in Hid. vm_compute in Hid. discriminate.
Qed.

(** ** Resolving a reference *)

Section Resolver.

Variable c : client.

Lemma bind_trace {A B} (m : M A) (f : A -> M B) :
  exists rest,
    trace (bind m f) = (trace m ++ rest)%list
    /\ forall a, outcome m = Ok a -> rest = trace (f a).
Proof.
  destruct m as [t [a | e]]; simpl.
  - destruct (f a) as [t' r] eqn:E. exists t'. split; [reflexivity|].
    intros a' H. injection H as <-. now rewrite E.
  - exists []. split; [now rewrite app_nil_r | discriminate].
Qed.

Lemma resolve_uuid (lookup : pyval -> M pyval) (ref : pyval) :
  is_uuid c ref = true -> resolve c lookup ref = ([], Ok (ref, ref)).
Proof. intros H. unfold resolve. now rewrite H. Qed.

Lemma resolve_mapping (lookup : pyval -> M pyval) (d : dict) (v : pyval) :
  is_uuid c (PDict d) = false ->
  dict_get "id" d = Some v ->
  resolve c lookup (PDict d) = ([], Ok (PDict d, v)).
Proof.
  intros H Hid. unfold resolve. rewrite H.
  unfold has_id, dict_has. rewrite Hid. simpl. now rewrite Hid.
Qed.

Lemma resolve_name (ev : pyval -> event) (answer : pyval -> client_error + pyval)
    (ref : pyval) :
  is_uuid c ref = false ->
  has_id ref = false ->
  resolve c (fun r => call (ev r) (answer r)) ref
  = ([ev ref], looked_up (answer ref)).
Proof.
  intros H Hid. unfold resolve. rewrite H, Hid.
  unfold bind, call, lift, ret, looked_up.
  destruct (answer ref) as [e | found]; [reflexivity|].
  destruct (subscript found "id"); reflexivity.
Qed.

Lemma find_in_lookups (model : pyval) (fragment : string)
    (files : list ModelFile.t) :
  lookups (trace (find_in c model fragment files)) = [].
Proof.
  induction files as [|file rest IH]; simpl; [reflexivity|].
  destruct (containsb _ _); [|exact IH].
  unfold bind, call, ret.
  destruct (mr_get c (content_path c model file)); reflexivity.
Qed.

Lemma find_file_lookups (model : pyval) (fragment : string) :
  lookups (trace (_find_file c model fragment)) = [].
Proof.
  unfold _find_file, bind, call.
  destruct (mr_get_model_contents c model) as [e | files]; [reflexivity|].
  pose proof (find_in_lookups model fragment files) as H.
  destruct (find_in c model fragment files) as [t r]. exact H.
Qed.

Lemma get_hyperparameters_lookups (model : pyval) :
  lookups (trace (get_hyperparameters c model))
  = lookups (trace (resolve_model c model)).
Proof.
  unfold get_hyperparameters.
  destruct (resolve_model c model) as [t [[m id_] | e]]; simpl; [|reflexivity].
  pose proof (find_file_lookups id_ "hyperparameters") as H.
  unfold bind.
  destruct (_find_file c id_ "hyperparameters") as [t' [[content name] | e]];
    simpl in *; unfold lookups in *; rewrite ?app_nil_r, filter_app, H;
    now rewrite app_nil_r.
Qed.

Lemma get_project_kpis_starts (project : pyval) (server caslib : string)
    (filter_column filter_value : option string) :
  exists rest,
    trace (get_project_kpis c project server caslib filter_column filter_value)
    = (trace (resolve_project c project) ++ rest)%list
    /\ forall found project_id,
         outcome (resolve_project c project) = Ok (found, project_id) ->
         exists rest',
           rest = ESessGet (table_path c "casManagement" "columns" server
                              caslib project_id) :: rest'.
Proof.
  unfold get_project_kpis.
  match goal with |- context [bind ?m ?f] =>
    destruct (bind_trace m f) as [rest [Ht Hrest]] end.
  exists rest. split; [exact Ht|].
  intros found project_id Hok. rewrite (Hrest _ Hok).
  match goal with |- context [bind ?m ?f] =>
    destruct (bind_trace m f) as [rest' [Ht' _]] end.
  exists rest'. exact Ht'.
Qed.

(** C5. A reference in the format of an id is the id, and no call is made;
    otherwise a mapping with an [id] gives the value of that field, and no
    call is made; otherwise one call, [get_model] for a model and
    [get_project] for a project, is made with the reference, and the id is
    the [id] of what it answers. [get_hyperparameters] makes no other lookup
    by name, and [get_project_kpis] resolves the project before its first
    request, which is made with the id. *)
Theorem resolve_id_lookups (ref : pyval) :
  (is_uuid c ref = true ->
     resolve_model c ref = ([], Ok (ref, ref))
     /\ resolve_project c ref = ([], Ok (ref, ref)))
  /\ (forall d v,
        is_uuid c ref = false -> ref = PDict d -> dict_get "id" d = Some v ->
        resolve_model c ref = ([], Ok (ref, v))
        /\ resolve_project c ref = ([], Ok (ref, v)))
  /\ (is_uuid c ref = false -> has_id ref = false ->
        resolve_model c ref = ([EGetModel ref], looked_up (mr_get_model c ref))
        /\ resolve_project c ref
           = ([EGetProject ref], looked_up (mr_get_project c ref)))
  /\ lookups (trace (get_hyperparameters c ref))
     = lookups (trace (resolve_model c ref))
  /\ (forall server caslib filter_column filter_value,
        exists rest,
          trace (get_project_kpis c ref server caslib
                   filter_column filter_value)
          = (trace (resolve_project c ref) ++ rest)%list
          /\ forall found project_id,
               outcome (resolve_project c ref) = Ok (found, project_id) ->
               exists rest',
                 rest = ESessGet (table_path c "casManagement" "columns"
                                    server caslib project_id) :: rest').
Proof.
  repeat split.
  - now apply resolve_uuid.
  - now apply resolve_uuid.
  - subst ref. now apply resolve_mapping.
  - subst ref. now apply resolve_mapping.
  - now apply (resolve_name EGetModel (mr_get_model c)).
  - now apply (resolve_name EGetProject (mr_get_project c)).
  - apply get_hyperparameters_lookups.
  - apply get_project_kpis_starts.
Qed.

End Resolver.

(** An id, a record and a name: no lookup, no lookup, one lookup. *)
Lemma resolve_id_lookups_witness :
  let c := demo_client demo_files no_session in
  resolve_model c (PStr demo_uuid) = ([], Ok (PStr demo_uuid, PStr demo_uuid))
  /\ resolve_model c demo_model = ([], Ok (demo_model, PStr demo_uuid))
  /\ resolve_model c (PStr "MyModel")
     = ([EGetModel (PStr "MyModel")], Ok (demo_model, PStr demo_uuid)).
Proof.
  intros c.
  split; [|split].
  - destruct (resolve_id_lookups c (PStr demo_uuid)) as [H _].
    apply (H eq_refl).
  - destruct (resolve_id_lookups c demo_model) as [_ [H _]].
    apply (H _ (PStr demo_uuid) eq_refl eq_refl eq_refl).
  - destruct (resolve_id_lookups c (PStr "MyModel")) as [_ [_ [H _]]].
    apply (H eq_refl eq_refl).
Defined.

(** ** Dictionaries *)

Lemma dict_get_set_same (k : string) (v : pyval) (d : dict) :
  dict_get k (dict_set k v d) = Some v.
Proof.
  induction d as [|[k' v'] d IH]; simpl.
  - now rewrite String.eqb_refl.
  - destruct (String.eqb k k') eqn:E; simpl; rewrite E; [reflexivity | exact IH].
Qed.

Lemma dict_get_set_other (k k' : string) (v : pyval) (d : dict) :
  k <> k' -> dict_get k (dict_set k' v d) = dict_get k d.
Proof.
  intros Hne. induction d as [|[k0 v0] d IH]; simpl.
  - apply String.eqb_neq in Hne. now rewrite Hne.
  - destruct (String.eqb k' k0) eqn:E; simpl.
    + apply String.eqb_eq in E. subst k0.
      apply String.eqb_neq in Hne. now rewrite Hne.
    + now rewrite IH.
Qed.

(** Writing a key keeps the order of the keys; a new key goes last. *)
Lemma dict_keys_set (k : string) (v : pyval) (d : dict) :
  dict_keys (dict_set k v d)
  = if dict_has k d then dict_keys d else (dict_keys d ++ [k])%list.
Proof.
  unfold dict_has. induction d as [|[k0 v0] d IH]; simpl; [reflexivity|].
  destruct (String.eqb k k0) eqn:E; simpl; [reflexivity|].
  rewrite IH. now destruct (dict_get k d).
Qed.

(** ** The store *)

Lemma heap_set_same (h : heap) (r : nat) (v : pyval) : heap_set h r v r = v.
Proof. unfold heap_set. now rewrite Nat.eqb_refl. Qed.

Lemma heap_set_other (h : heap) (r r' : nat) (v : pyval) :
  r' <> r -> heap_set h r v r' = h r'.
Proof. intros H. unfold heap_set. apply Nat.eqb_neq in H. now rewrite H. Qed.

(** ** The KPI merge *)

(** What [_update_json] returns is the reference it was given, and the store
    is the one it was given, or that one with [kpis] written in the
    document. *)
Lemma update_json_cases (model : string) (model_json : nat)
    (kpis : DataFrame) (h : heap) (r : nat) (h' : heap) :
  _update_json model model_json kpis h = Ok (r, h') ->
  r = model_json
  /\ (h' = h
      \/ exists d parsed,
           h model_json = PDict d
           /\ h' = heap_set h model_json (PDict (dict_set "kpis" parsed d))).
Proof.
  unfold _update_json, rbind, setitem.
  destruct (label_index "ModelUUID" (columns kpis)) as [uuid|]; [|discriminate].
  destruct (negb (empty _)).
  - destruct (set_index _ _) as [ix|]; [|discriminate].
    destruct (to_json_index ix) as [parsed|]; [|discriminate].
    destruct (h model_json) as [ | | | | | |d| ] eqn:Hd; try discriminate.
    intros H. injection H as <- <-. split; [reflexivity|].
    right. now exists d, parsed.
  - intros H. injection H as <- <-. split; [reflexivity | now left].
Qed.

(** C10. When [_update_json] returns, it returns the reference of the
    document it was given; no other object of the store has changed; and the
    document has the value it had under every key but [kpis], its keys in the
    order they were in, with [kpis] last when it is new. *)
Theorem update_json_frame (model : string) (model_json : nat)
    (kpis : DataFrame) (h : heap) (r : nat) (h' : heap) :
  _update_json model model_json kpis h = Ok (r, h') ->
  r = model_json
  /\ (forall other, other <> model_json -> h' other = h other)
  /\ (forall d, h model_json = PDict d ->
        exists d',
          h' model_json = PDict d'
          /\ (forall k, k <> "kpis" -> dict_get k d' = dict_get k d)
          /\ (dict_keys d' = dict_keys d
              \/ (dict_has "kpis" d = false
                  /\ dict_keys d' = (dict_keys d ++ ["kpis"])%list))).
Proof.
  intros H. apply update_json_cases in H.
  destruct H as [-> [-> | [d [parsed [Hd ->]]]]].
  - split; [reflexivity|]. split; [reflexivity|].
    intros d Hd. exists d. repeat split; auto.
  - split; [reflexivity|]. split.
    + intros other Hne. now apply heap_set_other.
    + intros d0 Hd0. rewrite Hd in Hd0. injection Hd0 as <-.
      exists (dict_set "kpis" parsed d). rewrite heap_set_same.
      split; [reflexivity|]. split.
      * intros k Hk. now apply dict_get_set_other.
      * rewrite dict_keys_set. destruct (dict_has "kpis" d); auto.
Qed.

Lemma update_json_frame_witness :
  exists h',
    _update_json "m1" 7 demo_kpis demo_heap = Ok (7, h')
    /\ (forall other, other <> 7 -> h' other = demo_heap other)
    /\ h' 7 = PDict [("hyperparameters", PDict [("C", PFloat "1.0")]);
                     ("kpis",
                      PDict [("2023-01", PDict [("AUC", PStr "0.9")])])].
Proof.
  eexists. split; [reflexivity|]. split.
  - apply (update_json_frame "m1" 7 demo_kpis demo_heap 7 _ eq_refl).
  - reflexivity.
Defined.

(** *** Columns and rows *)

Lemma remove_nth_cons {A} (i : nat) (a : A) (l : list A) :
  remove_nth (S i) (a :: l) = a :: remove_nth i l.
Proof. reflexivity. Qed.

Lemma index_of_spec (label : string) (labels : list string) (i : nat) :
  index_of label labels = Some i ->
  nth_error labels i = Some label /\ ~ In label (firstn i labels).
Proof.
  revert i; induction labels as [|l rest IH]; intros i; simpl; [discriminate|].
  destruct (String.eqb label l) eqn:E.
  - intros H. injection H as <-. apply String.eqb_eq in E. subst l.
    split; [reflexivity | intros []].
  - destruct (index_of label rest) as [j|]; [|discriminate].
    intros H. injection H as <-. destruct (IH j eq_refl) as [Hn Hf].
    split; [exact Hn|]. simpl. intros [Hl | Hin]; [|auto].
    apply String.eqb_neq in E. congruence.
Qed.

Lemma existsb_eqb_false (label : string) (l : list string) :
  existsb (String.eqb label) l = false -> ~ In label l.
Proof.
  intros H Hin.
  assert (existsb (String.eqb label) l = true); [|congruence].
  apply existsb_exists. exists label. split; [exact Hin | apply String.eqb_refl].
Qed.

Lemma label_index_spec (label : string) (labels : list string) (i : nat) :
  label_index label labels = Ok i ->
  index_of label labels = Some i /\ ~ In label (remove_nth i labels).
Proof.
  unfold label_index.
  destruct (index_of label labels) as [j|] eqn:E; [|discriminate].
  destruct (existsb _ _) eqn:Ex; [discriminate|].
  intros H. injection H as <-. split; [reflexivity|].
  unfold remove_nth. intros Hin. apply in_app_or in Hin.
  destruct Hin as [Hin | Hin].
  - now apply (index_of_spec _ _ _ E).
  - now apply (existsb_eqb_false _ _ Ex).
Qed.

Lemma in_remove_nth {A} (i : nat) (x : A) (l : list A) :
  In x (remove_nth i l) -> In x l.
Proof.
  revert i; induction l as [|a l IH]; intros i H.
  - destruct i; exact H.
  - destruct i as [|i].
    + right. exact H.
    + rewrite remove_nth_cons in H.
      destruct H as [<- | H]; [now left | right; now apply (IH i)].
Qed.

Lemma combine_get_none (k : string) (cols : list string) (vs : list pyval) :
  ~ In k cols -> dict_get k (combine cols vs) = None.
Proof.
  revert vs; induction cols as [|col cols IH]; intros vs H; [reflexivity|].
  destruct vs as [|v vs]; [reflexivity|]. simpl.
  destruct (String.eqb k col) eqn:E.
  - apply String.eqb_eq in E. subst col. exfalso. apply H. now left.
  - apply IH. intros Hin. apply H. now right.
Qed.

Lemma filter_none {A} (f : A -> bool) (l : list A) :
  (forall a, In a l -> f a = false) -> filter f l = [].
Proof.
  induction l as [|a l IH]; intros H; simpl; [reflexivity|].
  rewrite (H a (or_introl eq_refl)). apply IH. intros b Hb. apply H. now right.
Qed.

(** Every member of the object that [json.loads] builds comes from one of
    the entries. *)
Lemma loads_members {E} (key : E -> string) (value : E -> pyval)
    (entries : list E) (acc : dict) (k : string) (v : pyval) :
  dict_get k (fold_left (fun acc r => dict_set (key r) (value r) acc)
                entries acc) = Some v ->
  dict_get k acc = Some v
  \/ exists r, In r entries /\ key r = k /\ value r = v.
Proof.
  revert acc; induction entries as [|e entries IH]; intros acc; simpl.
  - now left.
  - intros H. destruct (IH _ H) as [Hacc | [r [Hin [Hk Hv]]]].
    + destruct (string_dec k (key e)) as [-> | Hne].
      * rewrite dict_get_set_same in Hacc. injection Hacc as <-.
        right. exists e. auto.
      * rewrite dict_get_set_other in Hacc by exact Hne. now left.
    + right. exists r. auto.
Qed.

Lemma remove_nth_nil {A} (i : nat) : remove_nth i (@nil A) = [].
Proof. now destruct i. Qed.

Lemma nth_remove_nth {A} (i j : nat) (l : list A) (d : A) :
  nth j (remove_nth i l) d = nth (if Nat.ltb j i then j else S j) l d.
Proof.
  revert i j; induction l as [|a l IH]; intros i j.
  - rewrite remove_nth_nil. destruct (Nat.ltb j i); now destruct j.
  - destruct i as [|i]; [reflexivity|].
    rewrite remove_nth_cons. destruct j as [|j]; [reflexivity|].
    simpl nth at 1. rewrite IH.
    change (Nat.ltb (S j) (S i)) with (Nat.ltb j i).
    now destruct (Nat.ltb j i).
Qed.

Lemma cell_at_remove_nth (i j : nat) (row : list cell) :
  j <> i -> cell_at (shifted i j) (remove_nth i row) = cell_at j row.
Proof.
  intros Hne. unfold cell_at, shifted. rewrite nth_remove_nth.
  destruct (Nat.ltb j i) eqn:E.
  - now rewrite E.
  - apply Nat.ltb_ge in E.
    assert (Hlt : Nat.ltb (pred j) i = false) by (apply Nat.ltb_ge; lia).
    rewrite Hlt. f_equal. lia.
Qed.

Lemma index_of_remove_nth (label : string) (labels : list string)
    (i j : nat) :
  index_of label labels = Some j -> j <> i ->
  index_of label (remove_nth i labels) = Some (shifted i j).
Proof.
  revert i j; induction labels as [|l rest IH]; intros i j; [discriminate|].
  simpl. destruct (String.eqb label l) eqn:E.
  - intros H Hne. injection H as <-. destruct i as [|i]; [congruence|].
    rewrite remove_nth_cons. simpl. now rewrite E.
  - destruct (index_of label rest) as [k|] eqn:Ek; [|discriminate].
    intros H Hne. injection H as <-. destruct i as [|i]; [exact Ek|].
    rewrite remove_nth_cons. simpl. rewrite E.
    rewrite (IH i k eq_refl) by congruence.
    unfold shifted. change (Nat.ltb (S k) (S i)) with (Nat.ltb k i).
    destruct (Nat.ltb k i) eqn:Eki; [reflexivity|].
    apply Nat.ltb_ge in Eki. f_equal. simpl. lia.
Qed.

(** The cell under a label is the same once another column is gone. *)
Lemma value_of_remove_nth (cols : list string) (label : string)
    (i j : nat) (row : list cell) :
  index_of label cols = Some j -> j <> i ->
  value_of (remove_nth i cols) label (remove_nth i row)
  = value_of cols label row.
Proof.
  intros Hj Hne. unfold value_of.
  rewrite (index_of_remove_nth _ _ _ _ Hj Hne), Hj.
  now apply cell_at_remove_nth.
Qed.

Lemma index_of_in (label : string) (labels : list string) :
  In label labels -> exists i, index_of label labels = Some i.
Proof.
  induction labels as [|l rest IH]; intros H; [destruct H|]. simpl.
  destruct (String.eqb label l) eqn:E; [now exists 0|].
  destruct H as [-> | H]; [now rewrite String.eqb_refl in E|].
  destruct (IH H) as [i ->]. now exists (S i).
Qed.

Lemma nth_error_split_skipn {A} (l : list A) (i : nat) (x : A) :
  nth_error l i = Some x -> l = (firstn i l ++ x :: skipn (S i) l)%list.
Proof.
  revert i; induction l as [|a l IH]; intros [|i] H; try discriminate.
  - now injection H as ->.
  - simpl. f_equal. now apply IH.
Qed.

Lemma label_index_total (label : string) (labels : list string) :
  NoDup labels -> In label labels -> exists i, label_index label labels = Ok i.
Proof.
  intros Hnd Hin. destruct (index_of_in _ _ Hin) as [i Hi].
  exists i. unfold label_index. rewrite Hi.
  destruct (existsb _ _) eqn:E; [|reflexivity]. exfalso.
  apply existsb_exists in E. destruct E as [x [Hx Heq]].
  apply String.eqb_eq in Heq. subst x.
  destruct (index_of_spec _ _ _ Hi) as [Hn _].
  rewrite (nth_error_split_skipn _ _ _ Hn) in Hnd.
  apply NoDup_remove_2 in Hnd. apply Hnd. apply in_or_app. now right.
Qed.

Lemma NoDup_remove_nth {A} (i : nat) (l : list A) :
  NoDup l -> NoDup (remove_nth i l).
Proof.
  revert i; induction l as [|a l IH]; intros i H.
  - now rewrite remove_nth_nil.
  - inversion H as [|? ? Hnotin Hl]; subst. destruct i as [|i]; [exact Hl|].
    rewrite remove_nth_cons. constructor; [|now apply IH].
    intros Hin. apply Hnotin. now apply (in_remove_nth i).
Qed.

Lemma in_remove_nth_other {A} (i : nat) (x y : A) (l : list A) :
  In x l -> nth_error l i = Some y -> x <> y -> In x (remove_nth i l).
Proof.
  revert i; induction l as [|a l IH]; intros i Hin Hn Hne; [destruct Hin|].
  destruct i as [|i].
  - injection Hn as ->. destruct Hin as [-> | Hin]; [congruence | exact Hin].
  - rewrite remove_nth_cons. destruct Hin as [-> | Hin]; [now left|].
    right. now apply IH.
Qed.

Lemma nodupb_spec {A} (eqb : A -> A -> bool)
    (eqb_eq : forall x y, eqb x y = true <-> x = y) (l : list A) :
  nodupb eqb l = true <-> NoDup l.
Proof.
  induction l as [|a l IH]; simpl.
  - split; [constructor | reflexivity].
  - rewrite andb_true_iff, negb_true_iff, IH. split.
    + intros [Hex Hl]. constructor; [|exact Hl]. intros Hin.
      assert (existsb (eqb a) l = true); [|congruence].
      apply existsb_exists. exists a. split; [exact Hin | now apply eqb_eq].
    + intros H. inversion H as [|? ? Hnotin Hl]; subst. split; [|exact Hl].
      destruct (existsb (eqb a) l) eqn:E; [|reflexivity]. exfalso.
      apply existsb_exists in E. destruct E as [x [Hx Heq]].
      apply eqb_eq in Heq. now subst x.
Qed.

Lemma cell_eqb_eq (a b : cell) : cell_eqb a b = true <-> a = b.
Proof.
  destruct a, b; simpl; split; intros H; try discriminate; try reflexivity.
  - apply String.eqb_eq in H. now subst.
  - injection H as ->. apply String.eqb_refl.
  - apply Z.eqb_eq in H. now subst.
  - injection H as ->. apply Z.eqb_refl.
Qed.

Lemma cell_is_spec (model : string) (v : cell) :
  cell_is model v = true <-> v = CStr model.
Proof.
  destruct v; simpl; split; intros H; try discriminate.
  - apply String.eqb_eq in H. now subst.
  - injection H as ->. apply String.eqb_refl.
Qed.

(** *** The merge, by the rows of the model *)

Section Merge.

Variables (model : string) (model_json : nat) (kpis : DataFrame) (h : heap).
Variable uuid : nat.

(** The table has one column [ModelUUID], at place [uuid]. *)
Hypothesis Huuid : label_index "ModelUUID" (columns kpis) = Ok uuid.

Let cols := columns kpis.
Let mine := filter (row_of_model cols model) (rows kpis).

Lemma row_of_model_at (row : list cell) :
  row_of_model cols model row = cell_is model (cell_at uuid row).
Proof.
  unfold row_of_model, value_of, cols.
  now rewrite (proj1 (label_index_spec _ _ _ Huuid)).
Qed.

Lemma update_json_eq :
  _update_json model model_json kpis h
  = match mine with
    | [] => Ok (model_json, h)
    | _ =>
        let? ix := set_index "TimeLabel"
                     (drop_column uuid (mk_frame cols mine)) in
        let? parsed := to_json_index ix in
        let? h' := setitem h model_json "kpis" parsed in
        Ok (model_json, h')
    end.
Proof.
  unfold _update_json. rewrite Huuid. simpl rbind.
  assert (Hf : select_rows (fun row => cell_is model (cell_at uuid row)) kpis
               = mk_frame cols mine).
  { unfold select_rows, mine. f_equal. apply filter_ext.
    intros row. symmetry. apply row_of_model_at. }
  rewrite Hf. unfold empty. simpl.
  destruct mine as [|row rest]; [reflexivity|].
  destruct (label_index_spec _ _ _ Huuid) as [Hi _]. fold cols in Hi.
  destruct cols as [|col rest']; [discriminate | reflexivity].
Qed.

Lemma update_json_noop :
  (forall row, In row (rows kpis) -> cell_at uuid row <> CStr model) ->
  _update_json model model_json kpis h = Ok (model_json, h).
Proof.
  intros Hnone. rewrite update_json_eq.
  assert (Hm : mine = []); [|now rewrite Hm].
  apply filter_none. intros row Hin. rewrite row_of_model_at.
  destruct (cell_is model (cell_at uuid row)) eqn:E; [|reflexivity].
  apply cell_is_spec in E. now apply Hnone in Hin.
Qed.

Lemma time_label_shift (tl : nat) (row : list cell) :
  label_index "TimeLabel" (remove_nth uuid cols) = Ok tl ->
  cell_at tl (remove_nth uuid row) = value_of cols "TimeLabel" row.
Proof.
  intros Htl. destruct (label_index_spec _ _ _ Htl) as [Hi _].
  destruct (label_index_spec _ _ _ Huuid) as [Hu _]. fold cols in Hu.
  assert (Hin : In "TimeLabel" cols).
  { apply (in_remove_nth uuid).
    destruct (index_of_spec _ _ _ Hi) as [Hn _].
    now apply nth_error_In in Hn. }
  destruct (index_of_in _ _ Hin) as [j Hj].
  assert (Hne : j <> uuid).
  { intros ->. destruct (index_of_spec _ _ _ Hj) as [Hn1 _].
    destruct (index_of_spec _ _ _ Hu) as [Hn2 _]. congruence. }
  rewrite <- (value_of_remove_nth cols "TimeLabel" uuid j row Hj Hne).
  unfold value_of. now rewrite Hi.
Qed.

Lemma update_json_members (r : nat) (h' : heap) :
  _update_json model model_json kpis h = Ok (r, h') ->
  (exists row, In row (rows kpis) /\ cell_at uuid row = CStr model) ->
  exists d merged tl,
    h model_json = PDict d
    /\ h' model_json = PDict (dict_set "kpis" (PDict merged) d)
    /\ label_index "TimeLabel" (remove_nth uuid cols) = Ok tl
    /\ forall label v,
         dict_get label merged = Some v ->
         exists row,
           In row (rows kpis)
           /\ cell_at uuid row = CStr model
           /\ label = label_key (value_of cols "TimeLabel" row)
           /\ v = PDict (row_json (remove_nth tl (remove_nth uuid cols))
                           (remove_nth tl (remove_nth uuid row)))
           /\ dict_get "ModelUUID"
                (row_json (remove_nth tl (remove_nth uuid cols))
                   (remove_nth tl (remove_nth uuid row))) = None.
Proof.
  rewrite update_json_eq. intros H [row0 [Hin0 Hrow0]].
  assert (Hmine : In row0 mine).
  { apply filter_In. split; [exact Hin0|].
    rewrite row_of_model_at. now apply cell_is_spec. }
  destruct mine as [|m0 rest] eqn:Em; [destruct Hmine|]. rewrite <- Em in *.
  clear Hmine. unfold set_index, drop_column in H. simpl columns in H.
  simpl rows in H.
  destruct (label_index "TimeLabel" (remove_nth uuid cols)) as [tl|] eqn:Htl;
    [|discriminate].
  simpl rbind in H. unfold to_json_index in H. simpl icolumns in H.
  simpl irows in H.
  destruct (negb (nodupb cell_eqb _)); [discriminate|].
  destruct (negb (nodupb String.eqb _)); [discriminate|].
  simpl rbind in H. unfold setitem in H.
  destruct (h model_json) as [ | | | | | |d| ] eqn:Hd; try discriminate.
  simpl in H. injection H as <- <-.
  eexists d, _, tl. split; [reflexivity|]. split.
  { rewrite heap_set_same. reflexivity. }
  split; [reflexivity|].
  intros label v Hget. apply loads_members in Hget.
  destruct Hget as [Hget | [e [Hin [Hk Hv]]]]; [discriminate|].
  apply in_map_iff in Hin. destruct Hin as [row' [<- Hin]].
  apply in_map_iff in Hin. destruct Hin as [row [<- Hin]].
  unfold mine in Hin. apply filter_In in Hin. destruct Hin as [Hin Hrow].
  rewrite row_of_model_at in Hrow. apply cell_is_spec in Hrow.
  exists row. simpl in Hk, Hv.
  split; [exact Hin|]. split; [exact Hrow|]. split.
  { rewrite <- Hk. f_equal. now apply time_label_shift. }
  split; [now rewrite <- Hv|].
  apply combine_get_none. intros Hc. apply in_remove_nth in Hc.
  now apply (proj2 (label_index_spec _ _ _ Huuid)).
Qed.

Lemma update_json_returns (d : dict) :
  h model_json = PDict d ->
  NoDup cols ->
  In "TimeLabel" cols ->
  NoDup (map (value_of cols "TimeLabel") mine) ->
  exists h', _update_json model model_json kpis h = Ok (model_json, h').
Proof.
  intros Hd Hnd Htime Hlabels. rewrite update_json_eq.
  destruct mine as [|m0 rest] eqn:Em; [now exists h|]. rewrite <- Em in *.
  destruct (label_index_spec _ _ _ Huuid) as [Hu _]. fold cols in Hu.
  destruct (index_of_spec _ _ _ Hu) as [Hnu _].
  assert (Hin : In "TimeLabel" (remove_nth uuid cols)).
  { apply (in_remove_nth_other uuid _ "ModelUUID"); auto. discriminate. }
  destruct (label_index_total _ _ (NoDup_remove_nth uuid _ Hnd) Hin)
    as [tl Htl].
  unfold set_index, drop_column. simpl columns. simpl rows. rewrite Htl.
  simpl rbind. unfold to_json_index. simpl icolumns. simpl irows.
  assert (H1 : nodupb cell_eqb
                 (map fst (map (fun row => (cell_at tl row, remove_nth tl row))
                             (map (remove_nth uuid) mine))) = true).
  { apply (nodupb_spec cell_eqb cell_eqb_eq).
    rewrite !map_map. simpl.
    erewrite map_ext; [exact Hlabels|].
    intros row. now apply time_label_shift. }
  rewrite H1. simpl negb.
  assert (H2 : nodupb String.eqb (remove_nth tl (remove_nth uuid cols)) = true).
  { apply (nodupb_spec String.eqb String.eqb_eq).
    now apply NoDup_remove_nth, NoDup_remove_nth. }
  rewrite H2. simpl negb. cbv iota. simpl rbind.
  unfold setitem. rewrite Hd. simpl. eexists. reflexivity.
Qed.

End Merge.

(** C1. For a table with one column [ModelUUID]: the merge gives the same
    for two tables with the same columns and the same rows of the model, so
    the rows of other models contribute nothing; when it returns and the
    model has rows, the document has under [kpis] an object whose every
    member is made from a row of the model, under the time label of that
    row, and has no key [ModelUUID]; when no row is one of the model, the
    merge returns the document and the store as they were; and it does
    return when the document is a dictionary, the table has a column
    [TimeLabel], no column label twice, and the rows of the model have
    distinct time labels. *)
Theorem update_json_merge (model : string) (model_json : nat)
    (kpis : DataFrame) (h : heap) (uuid : nat) :
  label_index "ModelUUID" (columns kpis) = Ok uuid ->
  (forall kpis',
      columns kpis' = columns kpis ->
      rows (rows_of_model model kpis') = rows (rows_of_model model kpis) ->
      _update_json model model_json kpis' h
      = _update_json model model_json kpis h)
  /\ (forall r h',
        _update_json model model_json kpis h = Ok (r, h') ->
        (exists row,
            In row (rows kpis)
            /\ value_of (columns kpis) "ModelUUID" row = CStr model) ->
        exists d merged tl,
          h model_json = PDict d
          /\ h' model_json = PDict (dict_set "kpis" (PDict merged) d)
          /\ label_index "TimeLabel" (remove_nth uuid (columns kpis)) = Ok tl
          /\ forall label v,
               dict_get label merged = Some v ->
               exists row,
                 In row (rows kpis)
                 /\ value_of (columns kpis) "ModelUUID" row = CStr model
                 /\ label
                    = label_key (value_of (columns kpis) "TimeLabel" row)
                 /\ v = PDict
                          (row_json
                             (remove_nth tl (remove_nth uuid (columns kpis)))
                             (remove_nth tl (remove_nth uuid row)))
                 /\ dict_get "ModelUUID"
                      (row_json
                         (remove_nth tl (remove_nth uuid (columns kpis)))
                         (remove_nth tl (remove_nth uuid row))) = None)
  /\ ((forall row,
          In row (rows kpis) ->
          value_of (columns kpis) "ModelUUID" row <> CStr model) ->
      _update_json model model_json kpis h = Ok (model_json, h))
  /\ (forall d,
        h model_json = PDict d ->
        NoDup (columns kpis) ->
        In "TimeLabel" (columns kpis) ->
        NoDup (map (value_of (columns kpis) "TimeLabel")
                 (rows (rows_of_model model kpis))) ->
        exists h', _update_json model model_json kpis h = Ok (model_json, h')).
Proof.
  intros Huuid.
  assert (Hval : forall row,
             value_of (columns kpis) "ModelUUID" row = cell_at uuid row).
  { intros row. unfold value_of.
    now rewrite (proj1 (label_index_spec _ _ _ Huuid)). }
  split; [|split; [|split]].
  - intros kpis' Hcols Hrows.
    assert (Huuid' : label_index "ModelUUID" (columns kpis') = Ok uuid)
      by now rewrite Hcols.
    rewrite (update_json_eq model model_json kpis' h uuid Huuid').
    rewrite (update_json_eq model model_json kpis h uuid Huuid).
    unfold rows_of_model, select_rows in Hrows. simpl in Hrows.
    now rewrite Hrows, Hcols.
  - intros r h' Hret [row0 [Hin0 Hrow0]].
    rewrite Hval in Hrow0.
    destruct (update_json_members model model_json kpis h uuid Huuid r h' Hret
                (ex_intro _ row0 (conj Hin0 Hrow0)))
      as [d [merged [tl [Hd [Hd' [Htl Hmem]]]]]].
    exists d, merged, tl. repeat split; try assumption.
    intros label v Hget.
    destruct (Hmem label v Hget) as [row [Hin [Hrow [Hl [Hv Hno]]]]].
    exists row. rewrite Hval. auto.
  - intros Hnone. apply (update_json_noop model model_json kpis h uuid Huuid).
    intros row Hin. rewrite <- Hval. now apply Hnone.
  - intros d Hd Hnd Htime Hlabels.
    now apply (update_json_returns model model_json kpis h uuid Huuid d).
Qed.

(** The scenario of the spec: the row of [m1] is merged, the row of [m2] is
    not; and for a model without rows the store is left as it is. *)
Lemma update_json_merge_witness :
  (exists h',
      _update_json "m1" 7 demo_kpis demo_heap = Ok (7, h')
      /\ h' 7 = PDict [("hyperparameters", PDict [("C", PFloat "1.0")]);
                       ("kpis",
                        PDict [("2023-01", PDict [("AUC", PStr "0.9")])])])
  /\ _update_json "m3" 7 demo_kpis demo_heap = Ok (7, demo_heap).
Proof.
  split.
  - destruct (update_json_merge "m1" 7 demo_kpis demo_heap 0 eq_refl)
      as [_ [_ [_ H]]].
    destruct (H _ eq_refl) as [h' Hret].
    + repeat constructor; simpl; intuition discriminate.
    + simpl. auto.
    + repeat constructor. simpl. intuition.
    + exists h'. split; [exact Hret|].
      vm_compute in Hret. injection Hret as <-. reflexivity.
  - destruct (update_json_merge "m3" 7 demo_kpis demo_heap 0 eq_refl)
      as [_ [_ [H _]]].
    apply H. intros row [<- | [<- | []]]; discriminate.
Defined.

(** ** Adding hyperparameters *)

Lemma dict_set_set (k : string) (v w : pyval) (d : dict) :
  dict_set k w (dict_set k v d) = dict_set k w d.
Proof.
  induction d as [|[k' v'] d IH]; simpl.
  - now rewrite String.eqb_refl.
  - destruct (String.eqb k k') eqn:E; simpl; rewrite E; [reflexivity|].
    now rewrite IH.
Qed.

Lemma dict_set_same_value (k : string) (v : pyval) (d : dict) :
  dict_get k d = Some v -> dict_set k v d = d.
Proof.
  induction d as [|[k' v'] d IH]; simpl; [discriminate|].
  destruct (String.eqb k k') eqn:E.
  - intros H. now injection H as ->.
  - intros H. now rewrite IH.
Qed.

Lemma set_hyperparameters_eq (doc d : dict) (kwargs : list (string * pyval)) :
  dict_get "hyperparameters" doc = Some (PDict d) ->
  set_hyperparameters (PDict doc) kwargs
  = Ok (PDict (dict_set "hyperparameters" (PDict (update d kwargs)) doc)).
Proof.
  revert doc d; induction kwargs as [|[key value] rest IH]; intros doc d Hd.
  - simpl. now rewrite (dict_set_same_value _ _ _ Hd).
  - simpl. unfold set_hyperparameter. simpl. rewrite Hd. simpl.
    rewrite (IH _ (dict_set key value d)) by apply dict_get_set_same.
    now rewrite dict_set_set.
Qed.

Lemma update_get_other (k : string) (kwargs : list (string * pyval))
    (d : dict) :
  ~ In k (map fst kwargs) -> dict_get k (update d kwargs) = dict_get k d.
Proof.
  revert d; induction kwargs as [|[key value] rest IH]; intros d H; simpl.
  - reflexivity.
  - rewrite IH by (intros Hin; apply H; now right).
    apply dict_get_set_other. intros ->. apply H. now left.
Qed.

Lemma update_get_in (k : string) (v : pyval) (kwargs : list (string * pyval))
    (d : dict) :
  NoDup (map fst kwargs) -> In (k, v) kwargs ->
  dict_get k (update d kwargs) = Some v.
Proof.
  revert d; induction kwargs as [|[key value] rest IH]; intros d Hnd Hin.
  - destruct Hin.
  - simpl in Hnd. inversion Hnd as [|? ? Hnotin Hrest]; subst. simpl.
    destruct Hin as [Heq | Hin].
    + injection Heq as -> ->.
      rewrite update_get_other by exact Hnotin. apply dict_get_set_same.
    + now apply IH.
Qed.

(** The text of a dictionary with a member starts on a line of its own for
    the first member, [indent] spaces in. *)
Lemma json_dumps_indent (indent : nat) (k : string) (v : pyval) (d : dict)
    (text : string) :
  json_dumps indent (PDict ((k, v) :: d)) = Ok text ->
  exists rest, text = "{" ++ newline ++ spaces indent ++ dquote ++ rest.
Proof.
  unfold json_dumps. simpl.
  destruct (dumps_at indent 1 v) as [m|]; [|discriminate]. simpl.
  match goal with |- context [rbind (?f d) _] => destruct (f d) as [ms|] end;
    [|discriminate].
  simpl. intros H. injection H as <-. unfold json_block.
  rewrite Nat.mul_1_r. unfold json_string. simpl.
  destruct ms; simpl; eexists;
    rewrite ?str_app_assoc; simpl; rewrite ?str_app_assoc; reflexivity.
Qed.

Lemma dict_set_cons (k : string) (v : pyval) (d : dict) :
  exists e rest, dict_set k v d = e :: rest.
Proof.
  destruct d as [|[k' v'] d]; simpl; [now eexists _, _|].
  destruct (String.eqb k k'); now eexists _, _.
Qed.

(** C6. When the model resolves to [id_] and the hyperparameter file of
    [id_] is the dictionary [doc], fetched under [file_name], with the
    dictionary [d] under [hyperparameters]: the document that is written back
    is [doc] with [d] updated by the pairs under [hyperparameters]; every
    pair given is in it, whatever the key had before, and the other keys
    have what they had; its text is [json.dumps] with an indent of 4, the
    first member four spaces in; and the one call after the fetch uploads
    that text for the model under [file_name]. *)
Theorem add_hyperparameters_upsert (c : client) (model : pyval)
    (kwargs : list (string * pyval)) (t1 t2 : list event)
    (model' id_ : pyval) (doc d : dict) (file_name : string) :
  resolve_model c model = (t1, Ok (model', id_)) ->
  get_hyperparameters c id_ = (t2, Ok (PDict doc, file_name)) ->
  dict_get "hyperparameters" doc = Some (PDict d) ->
  NoDup (map fst kwargs) ->
  let updated :=
    PDict (dict_set "hyperparameters" (PDict (update d kwargs)) doc) in
  (forall k v, In (k, v) kwargs -> dict_get k (update d kwargs) = Some v)
  /\ (forall k, ~ In k (map fst kwargs) ->
        dict_get k (update d kwargs) = dict_get k d)
  /\ (forall content,
        json_dumps 4 updated = Ok content ->
        add_hyperparameters c model kwargs
        = ((t1 ++ t2 ++ [EAddModelContent model' content file_name])%list,
           uploaded c model' content file_name)
        /\ exists rest,
             content = "{" ++ newline ++ spaces 4 ++ dquote ++ rest).
Proof.
  intros Hres Hget Hd Hnd updated. split; [|split].
  - intros k v Hin. now apply update_get_in.
  - intros k Hk. now apply update_get_other.
  - intros content Hdumps. split.
    + unfold add_hyperparameters, bind. rewrite Hres, Hget.
      rewrite (set_hyperparameters_eq doc d kwargs Hd). simpl.
      fold updated. rewrite Hdumps. simpl. unfold uploaded.
      rewrite ?app_nil_r. reflexivity.
    + unfold updated in Hdumps.
      destruct (dict_set_cons "hyperparameters" (PDict (update d kwargs)) doc)
        as [[k v] [rest E]].
      rewrite E in Hdumps. now apply json_dumps_indent in Hdumps.
Qed.

(** The scenario of the spec: [max_depth=5] added to [{"C": 1.0}]. *)
Lemma add_hyperparameters_upsert_witness :
  add_hyperparameters (demo_client demo_files no_session) (PStr demo_uuid)
    [("max_depth", PInt 5)]
  = ([EGetModelContents (PStr demo_uuid);
      EGet ("models/" ++ demo_uuid ++ "/contents/f2/content");
      EAddModelContent (PStr demo_uuid) demo_updated_text
        "ModelHyperparameters.json"],
     Ok tt).
Proof.
  set (c := demo_client demo_files no_session).
  destruct (add_hyperparameters_upsert c (PStr demo_uuid)
              [("max_depth", PInt 5)] []
              [EGetModelContents (PStr demo_uuid);
               EGet ("models/" ++ demo_uuid ++ "/contents/f2/content")]
              (PStr demo_uuid) (PStr demo_uuid)
              [("hyperparameters", PDict [("C", PFloat "1.0")])]
              [("C", PFloat "1.0")] "ModelHyperparameters.json"
              eq_refl eq_refl eq_refl)
    as [_ [_ H]].
  - repeat constructor. simpl. intuition.
  - destruct (H demo_updated_text eq_refl) as [Heq _]. exact Heq.
Defined.

(** ** The table of a project *)

(** *** Stripping *)

Lemma lstrip_spec (s : string) :
  exists pre,
    s = pre ++ lstrip s
    /\ all_space pre = true
    /\ starts_with_space (lstrip s) = false.
Proof.
  induction s as [|c s [pre [Hs [Hpre Hstart]]]]; simpl.
  - now exists EmptyString.
  - destruct (is_space c) eqn:E.
    + exists (String c pre). simpl. rewrite E, Hpre, <- Hs. auto.
    + exists EmptyString. simpl. auto.
Qed.

Lemma rstrip_empty (s : string) :
  is_empty (rstrip s) = true -> all_space s = true.
Proof.
  induction s as [|c s IH]; simpl; [reflexivity|].
  destruct (is_space c); simpl; [|discriminate].
  destruct (is_empty (rstrip s)); [auto | discriminate].
Qed.

Lemma rstrip_spec (s : string) :
  exists post,
    s = rstrip s ++ post
    /\ all_space post = true
    /\ ends_with_space (rstrip s) = false.
Proof.
  induction s as [|c s [post [Hs [Hpost Hend]]]]; simpl.
  - now exists EmptyString.
  - destruct (is_space c && is_empty (rstrip s)) eqn:E.
    + apply andb_true_iff in E. destruct E as [Hc He].
      exists (String c s). simpl. rewrite Hc, (rstrip_empty s He). auto.
    + exists post. simpl. rewrite <- Hs. repeat split; [exact Hpost|].
      destruct (rstrip s) as [|c' r] eqn:Er; [|exact Hend].
      simpl in E. now rewrite andb_true_r in E.
Qed.

Lemma rstrip_start (s : string) :
  starts_with_space s = false -> starts_with_space (rstrip s) = false.
Proof.
  destruct s as [|c s]; simpl; [reflexivity|].
  intros H. now rewrite H.
Qed.

(** [strip] takes the white space off both ends, and nothing else. *)
Lemma strip_spec (s : string) :
  exists pre post,
    s = pre ++ strip s ++ post
    /\ all_space pre = true /\ all_space post = true
    /\ starts_with_space (strip s) = false
    /\ ends_with_space (strip s) = false.
Proof.
  destruct (lstrip_spec s) as [pre [Hs [Hpre Hstart]]].
  destruct (rstrip_spec (lstrip s)) as [post [Hl [Hpost Hend]]].
  exists pre, post. unfold strip. rewrite <- Hl.
  repeat split; auto using rstrip_start.
Qed.

(** *** The missing values *)

Lemma normalized_eq (v : cell) : replace_cell (strip_cell v) = normalized v.
Proof. destruct v; reflexivity. Qed.

Lemma has_str_accessor_no_number (col : list cell) :
  (forall v, In v col -> forall z, v <> CNum z) ->
  has_str_accessor col = true.
Proof.
  unfold has_str_accessor. induction col as [|v col IH]; intros H.
  - reflexivity.
  - simpl. destruct v as [ | s | z ]; simpl.
    + apply IH. intros w Hw. apply H. now right.
    + reflexivity.
    + exfalso. now apply (H (CNum z) (or_introl eq_refl) z).
Qed.

Lemma postprocess_ok (df df' : DataFrame) :
  postprocess df = Ok df' ->
  columns df' = columns df /\ rows df' = map (map normalized) (rows df).
Proof.
  unfold postprocess, apply_strip.
  destruct (forallb _ _); [|discriminate]. simpl.
  intros H. injection H as <-. split; [reflexivity|].
  unfold replace_missing. simpl. rewrite map_map.
  apply map_ext. intros row. rewrite map_map.
  apply map_ext. apply normalized_eq.
Qed.

Lemma postprocess_returns (df : DataFrame) :
  (forall row v, In row (rows df) -> In v row -> forall z, v <> CNum z) ->
  exists df', postprocess df = Ok df'.
Proof.
  intros H. unfold postprocess, apply_strip.
  assert (Hall : forallb (fun j => has_str_accessor (column j df))
                   (seq 0 (List.length (columns df))) = true).
  { apply forallb_forall. intros j _. apply has_str_accessor_no_number.
    intros v Hv. unfold column in Hv. apply in_map_iff in Hv.
    destruct Hv as [row [<- Hrow]]. unfold cell_at.
    destruct (nth_in_or_default j row CNull) as [Hin | ->].
    - now apply (H row).
    - discriminate. }
  rewrite Hall. simpl. eexists. reflexivity.
Qed.

Lemma get_project_kpis_table (c : client) (project : pyval)
    (server caslib : string) (filter_column filter_value : option string)
    (t : list event) (found project_id : pyval) (schema answer : response)
    (col_names : list string) (df : DataFrame) :
  resolve_project c project = (t, Ok (found, project_id)) ->
  sess_get c (columns_path c server caslib project_id) = inr schema ->
  ok schema = true ->
  column_names (json schema) = Ok col_names ->
  sess_get c (rows_path c server caslib project_id filter_column filter_value)
  = inr answer ->
  frame_of_rows (json answer) col_names = Ok df ->
  get_project_kpis c project server caslib filter_column filter_value
  = ((t ++ [ESessGet (columns_path c server caslib project_id);
            ESessGet (rows_path c server caslib project_id
                        filter_column filter_value)])%list,
     postprocess df).
Proof.
  intros Hres Hschema Hok Hnames Hanswer Hdf.
  unfold get_project_kpis, bind, call. rewrite Hres.
  fold (columns_path c server caslib project_id). rewrite Hschema, Hok.
  simpl negb. cbv iota. unfold lift at 1. rewrite Hnames.
  fold (rows_path c server caslib project_id filter_column filter_value).
  rewrite Hanswer, Hdf. unfold lift. simpl.
  now rewrite ?app_nil_r.
Qed.

(** C7. When the schema and the rows of the table are fetched, what
    [get_project_kpis] gives is the post-processing of the table; when that
    returns, the columns are the same and every cell is the normalized one:
    a string is stripped of the white space at its two ends, and is null when
    what is left is [.] or nothing; it does return for a table without
    numbers; and [.], the empty string, [ 7 ] and [abc] become null, null,
    [7] and [abc]. *)
Theorem kpi_table_postprocess (c : client) (project : pyval)
    (server caslib : string) (filter_column filter_value : option string)
    (t : list event) (found project_id : pyval) (schema answer : response)
    (col_names : list string) (df : DataFrame) :
  resolve_project c project = (t, Ok (found, project_id)) ->
  sess_get c (columns_path c server caslib project_id) = inr schema ->
  ok schema = true ->
  column_names (json schema) = Ok col_names ->
  sess_get c (rows_path c server caslib project_id filter_column filter_value)
  = inr answer ->
  frame_of_rows (json answer) col_names = Ok df ->
  outcome (get_project_kpis c project server caslib
             filter_column filter_value) = postprocess df
  /\ (forall df',
        postprocess df = Ok df' ->
        columns df' = columns df
        /\ rows df' = map (map normalized) (rows df))
  /\ ((forall row v, In row (rows df) -> In v row -> forall z, v <> CNum z) ->
      exists df', postprocess df = Ok df')
  /\ (forall s,
        exists pre post,
          s = pre ++ strip s ++ post
          /\ all_space pre = true /\ all_space post = true
          /\ starts_with_space (strip s) = false
          /\ ends_with_space (strip s) = false)
  /\ map normalized [CStr "."; CStr EmptyString; CStr " 7 "; CStr "abc"]
     = [CNull; CNull; CStr "7"; CStr "abc"].
Proof.
  intros Hres Hschema Hok Hnames Hanswer Hdf.
  split; [|split; [|split; [|split]]].
  - now rewrite (get_project_kpis_table c project server caslib filter_column
                   filter_value t found project_id schema answer col_names df).
  - apply postprocess_ok.
  - apply postprocess_returns.
  - apply strip_spec.
  - reflexivity.
Qed.

(** The cells of the spec's example, in a table of two rows. *)
Lemma kpi_table_postprocess_witness :
  outcome (get_project_kpis
             (demo_client demo_files (demo_session true demo_rows_body))
             (PStr demo_uuid) "cas-shared-default" "ModelPerformanceData"
             None None)
  = Ok (mk_frame ["ModelUUID"; "TimeLabel"; "AUC"]
          [[CNull; CNull; CStr "7"]; [CStr "abc"; CStr "m1"; CNull]]).
Proof.
  set (c := demo_client demo_files (demo_session true demo_rows_body)).
  destruct (kpi_table_postprocess c (PStr demo_uuid) "cas-shared-default"
              "ModelPerformanceData" None None []
              (PStr demo_uuid) (PStr demo_uuid)
              (mk_response true demo_schema) (mk_response true demo_rows_body)
              ["ModelUUID"; "TimeLabel"; "AUC"]
              (mk_frame ["ModelUUID"; "TimeLabel"; "AUC"]
                 [[CStr "."; CStr EmptyString; CStr " 7 "];
                  [CStr "abc"; CStr " m1"; CNull]])
              eq_refl eq_refl eq_refl eq_refl eq_refl eq_refl)
    as [H _].
  rewrite H. reflexivity.
Defined.

(** *** No table, no rows *)



(** With a filter and no rows, the message is the one of the filtered case,
    whatever the column and the value of the filter are. *)
Lemma kpis_no_match (c : client) (project : pyval)
    (server caslib : string) (filter_column filter_value : option string)
    (t : list event) (found project_id : pyval) (schema answer : response)
    (col_names : list string) (key : string) :
  resolve_project c project = (t, Ok (found, project_id)) ->
  sess_get c (columns_path c server caslib project_id) = inr schema ->
  ok schema = true ->
  column_names (json schema) = Ok col_names ->
  sess_get c (rows_path c server caslib project_id filter_column filter_value)
  = inr answer ->
  frame_of_rows (json answer) col_names = Err (KeyError key) ->
  truthy filter_column = true ->
  truthy filter_value = true ->
  get_project_kpis c project server caslib filter_column filter_value
  = ((t ++ [ESessGet (columns_path c server caslib project_id);
            ESessGet (rows_path c server caslib project_id
                        filter_column filter_value)])%list,
     Err (SystemError no_match_message)).
Proof.
  intros Hres Hschema Hok Hnames Hanswer Hdf Hcol Hval.
  unfold get_project_kpis, bind, call. rewrite Hres.
  fold (columns_path c server caslib project_id). rewrite Hschema, Hok.
  simpl negb. cbv iota. unfold lift at 1. rewrite Hnames.
  fold (rows_path c server caslib project_id filter_column filter_value).
  rewrite Hanswer, Hdf, Hcol, Hval. unfold raise. simpl.
  now rewrite ?app_nil_r.
Qed.

(** A body without [items], or with no item that has [cells], has no rows. *)
Lemma frame_of_rows_no_items (d : dict) (col_names : list string) :
  dict_get "items" d = None ->
  frame_of_rows (PDict d) col_names = Err (KeyError "items").
Proof.
  intros H. unfold frame_of_rows, items_of, subscript. now rewrite H.
Qed.

Lemma frame_of_rows_no_cells (body : pyval) (its : list dict)
    (col_names : list string) :
  items_of body = Ok its ->
  existsb (dict_has "cells") its = false ->
  frame_of_rows body col_names = Err (KeyError "cells").
Proof.
  intros H He. unfold frame_of_rows. rewrite H. simpl. now rewrite He.
Qed.

(** C2, on the code: the filter [Region = 'US'] and an answer without rows.
    The error is the one of the filtered case, and its message has neither
    the column nor the value of the filter in it. *)
Theorem filtered_no_rows_message :
  get_project_kpis
    (demo_client demo_files (demo_session true demo_no_rows_body))
    (PStr demo_uuid) "cas-shared-default" "ModelPerformanceData"
    (Some "Region") (Some "US")
  = ([ESessGet ("casManagement/servers/cas-shared-default/"
                ++ "caslibs/ModelPerformanceData/tables/"
                ++ demo_uuid ++ ".MM_STD_KPI/columns?limit=10000");
      ESessGet ("casRowSets/servers/cas-shared-default/"
                ++ "caslibs/ModelPerformanceData/tables/"
                ++ demo_uuid ++ ".MM_STD_KPI/rows?limit=10000"
                ++ "&where=Region='US'")],
     Err (SystemError no_match_message))
  /\ ~ contains "Region" no_match_message
  /\ ~ contains "US" no_match_message.
Proof.
  split; [reflexivity|].
  split; intros H; apply containsb_spec in H; vm_compute in H; discriminate.
Qed.

(** ** Generating the hyperparameter file *)







(** * Further properties of the module *)

(** ** What the operations call *)

Lemma quiet_bind {A B} (m : M A) (f : A -> M B) :
  quiet m -> (forall a, quiet (f a)) -> quiet (bind m f).
Proof.
  unfold quiet, upload_calls. destruct m as [t [a | e]]; simpl; intros Hm Hf.
  - specialize (Hf a). destruct (f a) as [t' r]. simpl in *.
    now rewrite filter_app, Hm, Hf.
  - exact Hm.
Qed.

Lemma quiet_call {A} (ev : event) (answer : client_error + A) :
  is_upload ev = false -> quiet (call ev answer).
Proof. intros H. unfold quiet, upload_calls, call. simpl. now rewrite H. Qed.

Lemma quiet_lift {A} (r : result A) : quiet (lift r).
Proof. reflexivity. Qed.

Lemma quiet_find_in (c : client) (model : pyval) (fragment : string)
    (files : list ModelFile.t) :
  quiet (find_in c model fragment files).
Proof.
  induction files as [|file rest IH]; cbn [find_in]; [reflexivity|].
  destruct (containsb _ _); [|exact IH].
  apply quiet_bind; [now apply quiet_call | reflexivity].
Qed.

Lemma quiet_find_file (c : client) (model : pyval) (fragment : string) :
  quiet (_find_file c model fragment).
Proof.
  unfold _find_file. apply quiet_bind; [now apply quiet_call|].
  intros files. apply quiet_find_in.
Qed.

Lemma quiet_resolve (c : client) (lookup : pyval -> M pyval) (ref : pyval) :
  (forall r, quiet (lookup r)) -> quiet (resolve c lookup ref).
Proof.
  intros H. unfold resolve. destruct (is_uuid c ref); [reflexivity|].
  destruct (has_id ref).
  - apply quiet_bind; [apply quiet_lift | reflexivity].
  - apply quiet_bind; [apply H|]. intros found.
    apply quiet_bind; [apply quiet_lift | reflexivity].
Qed.

Lemma quiet_get_hyperparameters (c : client) (model : pyval) :
  quiet (get_hyperparameters c model).
Proof.
  unfold get_hyperparameters. apply quiet_bind.
  - apply quiet_resolve. intros r. now apply quiet_call.
  - intros [m id_]. apply quiet_bind; [apply quiet_find_file|].
    intros [contents name]. reflexivity.
Qed.

Lemma quiet_get_project_kpis (c : client) (project : pyval)
    (server caslib : string) (filter_column filter_value : option string) :
  quiet (get_project_kpis c project server caslib filter_column filter_value).
Proof.
  unfold get_project_kpis. apply quiet_bind.
  - apply quiet_resolve. intros r. now apply quiet_call.
  - intros [found project_id]. apply quiet_bind; [now apply quiet_call|].
    intros schema. destruct (negb (ok schema)).
    + apply quiet_bind; [now apply quiet_call|]. intros p.
      apply quiet_bind; [apply quiet_lift | reflexivity].
    + apply quiet_bind; [apply quiet_lift|]. intros col_names.
      apply quiet_bind; [now apply quiet_call|]. intros answer.
      destruct (frame_of_rows (json answer) col_names) as [df | e].
      * apply quiet_lift.
      * destruct e; try reflexivity.
        destruct (truthy filter_column && truthy filter_value);
          [reflexivity|].
        apply quiet_bind; [now apply quiet_call|]. intros p.
        apply quiet_bind; [apply quiet_lift | reflexivity].
Qed.

(** X1. The file locator, [get_hyperparameters] and [get_project_kpis] only
    read: none of their calls is an upload. *)
Theorem reads_never_upload (c : client) :
  (forall model fragment,
      upload_calls (trace (_find_file c model fragment)) = [])
  /\ (forall model, upload_calls (trace (get_hyperparameters c model)) = [])
  /\ (forall project server caslib filter_column filter_value,
        upload_calls
          (trace (get_project_kpis c project server caslib
                    filter_column filter_value)) = []).
Proof.
  split; [|split].
  - intros. apply quiet_find_file.
  - intros. apply quiet_get_hyperparameters.
  - intros. apply quiet_get_project_kpis.
Qed.

(** ** add_hyperparameters, at its edges *)

(** X2. [add_hyperparameters] makes at most one upload call, and it is its
    last call: either some step before the upload fails, and then no upload
    is made and the operation fails, or the calls are reads followed by the
    one upload, whose answer is the result. *)
Theorem add_hyperparameters_uploads_last (c : client) (model : pyval)
    (kwargs : list (string * pyval)) :
  exists reads,
    upload_calls reads = []
    /\ ((trace (add_hyperparameters c model kwargs) = reads
         /\ exists e, outcome (add_hyperparameters c model kwargs) = Err e)
        \/ exists model' content file_name,
             add_hyperparameters c model kwargs
             = ((reads ++ [EAddModelContent model' content file_name])%list,
                uploaded c model' content file_name)).
Proof.
  unfold add_hyperparameters.
  pose proof (quiet_resolve c (get_model c) model
                (fun r => quiet_call (EGetModel r) (mr_get_model c r) eq_refl))
    as Hq1.
  fold (resolve_model c) in Hq1.
  destruct (resolve_model c model) as [t1 [[model' id_] | e1]];
    unfold quiet in Hq1; simpl in Hq1.
  2:{ exists t1. split; [exact Hq1|]. left. split; [reflexivity|]. exists e1; reflexivity. }
  pose proof (quiet_get_hyperparameters c id_) as Hq2.
  cbn [bind].
  destruct (get_hyperparameters c id_) as [t2 [[doc file_name] | e2]];
    unfold quiet in Hq2; simpl in Hq2.
  2:{ exists (t1 ++ t2)%list. split.
      - unfold upload_calls in *. now rewrite filter_app, Hq1, Hq2.
      - left. simpl. split; [reflexivity|]. exists e2; reflexivity. }
  exists (t1 ++ t2)%list. split.
  { unfold upload_calls in *. now rewrite filter_app, Hq1, Hq2. }
  unfold bind, lift, call.
  destruct (set_hyperparameters doc kwargs) as [doc' | e3].
  2:{ left. simpl. rewrite ?app_nil_r. split; [reflexivity|]. exists e3; reflexivity. }
  destruct (json_dumps 4 doc') as [content | e4].
  2:{ left. simpl. rewrite ?app_nil_r. split; [reflexivity|]. exists e4; reflexivity. }
  right. exists model', content, file_name. simpl. rewrite ?app_nil_r.
  rewrite <- ?app_assoc. reflexivity.
Qed.

(** X3. With pairs to add, a document that has no [hyperparameters] makes
    the operation fail with [KeyError], and one whose [hyperparameters] is
    not a dictionary with [TypeError]; the calls are those of the fetch, and
    nothing is uploaded. *)
Theorem add_hyperparameters_bad_document (c : client) (model : pyval)
    (key : string) (value : pyval) (rest : list (string * pyval))
    (t1 t2 : list event) (model' id_ : pyval) (doc : dict)
    (file_name : string) :
  resolve_model c model = (t1, Ok (model', id_)) ->
  get_hyperparameters c id_ = (t2, Ok (PDict doc, file_name)) ->
  (dict_get "hyperparameters" doc = None ->
     add_hyperparameters c model ((key, value) :: rest)
     = ((t1 ++ t2)%list, Err (KeyError "hyperparameters")))
  /\ (forall inner,
        dict_get "hyperparameters" doc = Some inner ->
        (forall d, inner <> PDict d) ->
        add_hyperparameters c model ((key, value) :: rest)
        = ((t1 ++ t2)%list, Err TypeError)).
Proof.
  intros Hres Hget. split.
  - intros Hnone. unfold add_hyperparameters, bind. rewrite Hres, Hget.
    simpl. unfold set_hyperparameter. simpl. rewrite Hnone. simpl.
    rewrite ?app_nil_r; reflexivity.
  - intros inner Hinner Hnot. unfold add_hyperparameters, bind.
    rewrite Hres, Hget. simpl. unfold set_hyperparameter. simpl.
    rewrite Hinner. simpl.
    destruct inner; try (simpl; rewrite ?app_nil_r; reflexivity).
    now destruct (Hnot d).
Qed.

Lemma add_hyperparameters_bad_document_witness :
  add_hyperparameters
    (mk_client (is_str_of_length 36) demo_str
       (by_name "MyModel" demo_model) (by_name "Churn" demo_project)
       (fun _ => inr demo_files)
       (fun _ => inr (PDict [("kpis", PDict [])]))
       (fun _ _ _ => inr tt) no_session)
    (PStr demo_uuid) [("max_depth", PInt 5)]
  = ([EGetModelContents (PStr demo_uuid);
      EGet ("models/" ++ demo_uuid ++ "/contents/f2/content")],
     Err (KeyError "hyperparameters")).
Proof.
  match goal with |- add_hyperparameters ?c _ _ = _ => set (cl := c) end.
  destruct (add_hyperparameters_bad_document cl (PStr demo_uuid)
              "max_depth" (PInt 5) [] []
              [EGetModelContents (PStr demo_uuid);
               EGet ("models/" ++ demo_uuid ++ "/contents/f2/content")]
              (PStr demo_uuid) (PStr demo_uuid) [("kpis", PDict [])]
              "ModelHyperparameters.json" eq_refl eq_refl) as [H _].
  exact (H eq_refl).
Defined.

(** X4. Without pairs the file is uploaded all the same: whatever the
    document is, its text with an indent of 4 is written back under the name
    it was fetched under. *)
Theorem add_hyperparameters_no_pairs (c : client) (model : pyval)
    (t1 t2 : list event) (model' id_ doc : pyval)
    (file_name content : string) :
  resolve_model c model = (t1, Ok (model', id_)) ->
  get_hyperparameters c id_ = (t2, Ok (doc, file_name)) ->
  json_dumps 4 doc = Ok content ->
  add_hyperparameters c model []
  = ((t1 ++ t2 ++ [EAddModelContent model' content file_name])%list,
     uploaded c model' content file_name).
Proof.
  intros Hres Hget Hdumps. unfold add_hyperparameters, bind.
  rewrite Hres, Hget. simpl. rewrite Hdumps. simpl.
  rewrite ?app_nil_r; reflexivity.
Qed.

Lemma add_hyperparameters_no_pairs_witness :
  exists content,
    add_hyperparameters (demo_client demo_files no_session)
      (PStr demo_uuid) []
    = ([EGetModelContents (PStr demo_uuid);
        EGet ("models/" ++ demo_uuid ++ "/contents/f2/content");
        EAddModelContent (PStr demo_uuid) content
          "ModelHyperparameters.json"],
       Ok tt)
    /\ json_dumps 4 demo_document = Ok content.
Proof.
  eexists. split; [|reflexivity].
  apply (add_hyperparameters_no_pairs (demo_client demo_files no_session)
           (PStr demo_uuid) []
           [EGetModelContents (PStr demo_uuid);
            EGet ("models/" ++ demo_uuid ++ "/contents/f2/content")]
           (PStr demo_uuid) (PStr demo_uuid) demo_document
           "ModelHyperparameters.json" _ eq_refl eq_refl eq_refl).
Defined.

(** ** A name that is not found *)

(** X5. When the reference is neither an id nor a mapping with an id and
    the lookup answers [None], the operations fail with [TypeError], after
    the lookup and before any other call: [get_hyperparameters] and
    [add_hyperparameters] for a model, [get_project_kpis] for a project. *)
Theorem unknown_name_type_error (c : client) (ref : pyval) :
  is_uuid c ref = false ->
  has_id ref = false ->
  (mr_get_model c ref = inr PNone ->
     get_hyperparameters c ref = ([EGetModel ref], Err TypeError)
     /\ forall kwargs,
          add_hyperparameters c ref kwargs = ([EGetModel ref], Err TypeError))
  /\ (mr_get_project c ref = inr PNone ->
      forall server caslib filter_column filter_value,
        get_project_kpis c ref server caslib filter_column filter_value
        = ([EGetProject ref], Err TypeError)).
Proof.
  intros Hid Hmap. split.
  - intros Hnone.
    assert (Hres : resolve_model c ref = ([EGetModel ref], Err TypeError)).
    { unfold resolve_model, resolve, get_model, bind, call.
      now rewrite Hid, Hmap, Hnone. }
    split.
    + unfold get_hyperparameters, bind. now rewrite Hres.
    + intros kwargs. unfold add_hyperparameters, bind. now rewrite Hres.
  - intros Hnone server caslib filter_column filter_value.
    assert (Hres : resolve_project c ref = ([EGetProject ref], Err TypeError)).
    { unfold resolve_project, resolve, get_project, bind, call.
      now rewrite Hid, Hmap, Hnone. }
    unfold get_project_kpis, bind. now rewrite Hres.
Qed.

Lemma unknown_name_type_error_witness :
  get_hyperparameters (demo_client demo_files no_session) (PStr "NoSuchModel")
  = ([EGetModel (PStr "NoSuchModel")], Err TypeError).
Proof.
  destruct (unknown_name_type_error (demo_client demo_files no_session)
              (PStr "NoSuchModel") eq_refl eq_refl) as [H _].
  destruct (H eq_refl) as [Hget _]. exact Hget.
Defined.

(** ** get_project_kpis, at its edges *)

(** X6. A filter is applied only when its column and its value are both
    given and not empty: with one of them missing or empty the call is the
    call without a filter, request for request. *)
Theorem filter_needs_both (c : client) (project : pyval)
    (server caslib : string) (filter_column filter_value : option string) :
  truthy filter_column && truthy filter_value = false ->
  get_project_kpis c project server caslib filter_column filter_value
  = get_project_kpis c project server caslib None None.
Proof.
  intros H. unfold get_project_kpis, where_statement. now rewrite H.
Qed.

Lemma filter_needs_both_witness :
  let c := demo_client demo_files (demo_session true demo_rows_body) in
  get_project_kpis c (PStr demo_uuid) "cas-shared-default"
    "ModelPerformanceData" (Some "Region") None
  = get_project_kpis c (PStr demo_uuid) "cas-shared-default"
      "ModelPerformanceData" None None.
Proof.
  intros c.
  apply (filter_needs_both c (PStr demo_uuid) "cas-shared-default"
           "ModelPerformanceData" (Some "Region") None).
  reflexivity.
Defined.

(** X7. Without a filter, an answer without rows costs one more lookup of
    the project, and the operation fails with a [SystemError] whose message
    is [No KPIs were found for project <name>.], with the name that the
    lookup answered. *)
Theorem kpis_no_rows_unfiltered (c : client) (project : pyval)
    (server caslib : string) (filter_column filter_value : option string)
    (t : list event) (found project_id : pyval) (schema answer : response)
    (col_names : list string) (key : string) (named : pyval)
    (name : string) :
  py_str_ok c ->
  resolve_project c project = (t, Ok (found, project_id)) ->
  sess_get c (columns_path c server caslib project_id) = inr schema ->
  ok schema = true ->
  column_names (json schema) = Ok col_names ->
  sess_get c (rows_path c server caslib project_id filter_column filter_value)
  = inr answer ->
  frame_of_rows (json answer) col_names = Err (KeyError key) ->
  truthy filter_column && truthy filter_value = false ->
  mr_get_project c found = inr named ->
  subscript named "name" = Ok (PStr name) ->
  get_project_kpis c project server caslib filter_column filter_value
  = ((t ++ [ESessGet (columns_path c server caslib project_id);
            ESessGet (rows_path c server caslib project_id
                        filter_column filter_value);
            EGetProject found])%list,
     Err (SystemError (no_kpis_message name)))
  /\ no_kpis_message name = "No KPIs were found for project " ++ name ++ ".".
Proof.
  intros Hstr Hres Hschema Hok Hnames Hanswer Hdf Hfilter Hfound Hname.
  split; [|reflexivity].
  unfold get_project_kpis, bind, call. rewrite Hres.
  fold (columns_path c server caslib project_id). rewrite Hschema, Hok.
  simpl negb. cbv iota. unfold lift at 1. rewrite Hnames.
  fold (rows_path c server caslib project_id filter_column filter_value).
  rewrite Hanswer, Hdf, Hfilter. unfold get_project, call. rewrite Hfound.
  unfold lift. rewrite Hname. unfold raise. rewrite Hstr. simpl.
  rewrite ?app_nil_r. reflexivity.
Qed.

Lemma kpis_no_rows_unfiltered_witness :
  get_project_kpis
    (demo_client demo_files (demo_session true demo_no_rows_body))
    (PStr "Churn") "cas-shared-default" "ModelPerformanceData" None None
  = ([EGetProject (PStr "Churn");
      ESessGet ("casManagement/servers/cas-shared-default/"
                ++ "caslibs/ModelPerformanceData/tables/"
                ++ demo_uuid ++ ".MM_STD_KPI/columns?limit=10000");
      ESessGet ("casRowSets/servers/cas-shared-default/"
                ++ "caslibs/ModelPerformanceData/tables/"
                ++ demo_uuid ++ ".MM_STD_KPI/rows?limit=10000");
      EGetProject demo_project],
     Err (SystemError "No KPIs were found for project Churn.")).
Proof.
  set (c := demo_client demo_files (demo_session true demo_no_rows_body)).
  destruct (kpis_no_rows_unfiltered c (PStr "Churn") "cas-shared-default"
              "ModelPerformanceData" None None
              [EGetProject (PStr "Churn")] demo_project (PStr demo_uuid)
              (mk_response true demo_schema)
              (mk_response true demo_no_rows_body)
              ["ModelUUID"; "TimeLabel"; "AUC"] "items" demo_project "Churn"
              (fun s => eq_refl) eq_refl eq_refl eq_refl eq_refl eq_refl
              eq_refl eq_refl eq_refl eq_refl) as [H _].
  exact H.
Defined.

(** X8. The schema is read outside the handler of the rows: when the answer
    to the columns request is a true value whose body has no [items], or
    whose items have no [name], a [KeyError] leaves the operation as it is,
    and the rows are not requested. *)
Theorem kpis_schema_key_error (c : client) (project : pyval)
    (server caslib : string) (filter_column filter_value : option string)
    (t : list event) (found project_id : pyval) (schema : response)
    (body : dict) :
  resolve_project c project = (t, Ok (found, project_id)) ->
  sess_get c (columns_path c server caslib project_id) = inr schema ->
  ok schema = true ->
  json schema = PDict body ->
  (dict_get "items" body = None ->
     get_project_kpis c project server caslib filter_column filter_value
     = ((t ++ [ESessGet (columns_path c server caslib project_id)])%list,
        Err (KeyError "items")))
  /\ (forall its,
        items_of (PDict body) = Ok its ->
        existsb (dict_has "name") its = false ->
        get_project_kpis c project server caslib filter_column filter_value
        = ((t ++ [ESessGet (columns_path c server caslib project_id)])%list,
           Err (KeyError "name"))).
Proof.
  intros Hres Hschema Hok Hbody. split.
  - intros Hnone. unfold get_project_kpis, bind, call. rewrite Hres.
    fold (columns_path c server caslib project_id). rewrite Hschema, Hok.
    simpl negb. cbv iota. unfold lift at 1. rewrite Hbody.
    unfold column_names, items_of, subscript. rewrite Hnone. simpl.
    rewrite ?app_nil_r. reflexivity.
  - intros its Hits Hnames. unfold get_project_kpis, bind, call.
    rewrite Hres.
    fold (columns_path c server caslib project_id). rewrite Hschema, Hok.
    simpl negb. cbv iota. unfold lift at 1. rewrite Hbody.
    unfold column_names. rewrite Hits. simpl rbind. rewrite Hnames. simpl.
    rewrite ?app_nil_r. reflexivity.
Qed.

Lemma kpis_schema_key_error_witness :
  get_project_kpis
    (demo_client demo_files
       (fun _ => inr (mk_response true (PDict [("items", PList [])]))))
    (PStr demo_uuid) "cas-shared-default" "ModelPerformanceData" None None
  = ([ESessGet ("casManagement/servers/cas-shared-default/"
                ++ "caslibs/ModelPerformanceData/tables/"
                ++ demo_uuid ++ ".MM_STD_KPI/columns?limit=10000")],
     Err (KeyError "name")).
Proof.
  match goal with |- get_project_kpis ?c _ _ _ _ _ = _ => set (cl := c) end.
  destruct (kpis_schema_key_error cl (PStr demo_uuid) "cas-shared-default"
              "ModelPerformanceData" None None [] (PStr demo_uuid)
              (PStr demo_uuid)
              (mk_response true (PDict [("items", PList [])]))
              [("items", PList [])] eq_refl eq_refl eq_refl eq_refl)
    as [_ H].
  exact (H [] eq_refl eq_refl).
Defined.

(** *** The number of calls *)

Lemma at_most_bind {A B} (p : event -> bool) (n1 n2 : nat)
    (m : M A) (f : A -> M B) :
  at_most p n1 m -> (forall a, at_most p n2 (f a)) ->
  at_most p (n1 + n2) (bind m f).
Proof.
  unfold at_most. destruct m as [t [a | e]]; simpl; intros Hm Hf.
  - specialize (Hf a). destruct (f a) as [t' r]. simpl in *.
    rewrite filter_app, length_app. lia.
  - lia.
Qed.

Lemma at_most_call {A} (p : event -> bool) (ev : event)
    (answer : client_error + A) :
  at_most p 1 (call ev answer).
Proof. unfold at_most, call. simpl. destruct (p ev); simpl; lia. Qed.

Lemma at_most_call_other {A} (p : event -> bool) (ev : event)
    (answer : client_error + A) :
  p ev = false -> at_most p 0 (call ev answer).
Proof. intros H. unfold at_most, call. simpl. now rewrite H. Qed.

Lemma at_most_lift {A} (p : event -> bool) (r : result A) :
  at_most p 0 (lift r).
Proof. unfold at_most. simpl. lia. Qed.

Lemma at_most_more {A} (p : event -> bool) (n n' : nat) (m : M A) :
  at_most p n m -> n <= n' -> at_most p n' m.
Proof. unfold at_most. lia. Qed.

Lemma at_most_resolve (c : client) (p : event -> bool) (n : nat)
    (lookup : pyval -> M pyval) (ref : pyval) :
  (forall r, at_most p n (lookup r)) -> at_most p n (resolve c lookup ref).
Proof.
  intros H. unfold resolve. destruct (is_uuid c ref).
  { unfold at_most. simpl. lia. }
  destruct (has_id ref).
  - apply (at_most_more p 0); [|lia].
    apply (at_most_bind p 0 0); [apply at_most_lift|].
    intros id_. unfold at_most. simpl. lia.
  - replace n with (n + (0 + 0)) by lia.
    apply at_most_bind; [apply H|]. intros found.
    apply at_most_bind; [apply at_most_lift|].
    intros id_. unfold at_most. simpl. lia.
Qed.

Lemma after_rows_at_most (c : client) (p : event -> bool)
    (filter_column filter_value : option string) (found : pyval)
    (r : result DataFrame) :
  at_most p 1
    (match r with
     | Err (KeyError _) =>
         if truthy filter_column && truthy filter_value then
           raise (SystemError no_match_message)
         else
           bind (get_project c found)
             (fun named =>
                bind (lift (subscript named "name"))
                  (fun project_name =>
                     raise (SystemError
                              (no_kpis_message (py_str c project_name)))))
     | Err e => raise e
     | Ok kpi_table_df => lift (postprocess kpi_table_df)
     end).
Proof.
  assert (H0 : forall A (m : M A), at_most p 0 m -> at_most p 1 m).
  { intros A m H. apply (at_most_more p 0); [exact H | lia]. }
  destruct r as [df | e]; [apply H0, at_most_lift|].
  destruct e; try (apply H0; unfold at_most; simpl; lia).
  destruct (truthy filter_column && truthy filter_value).
  { apply H0. unfold at_most. simpl. lia. }
  apply (at_most_bind p 1 0); [apply at_most_call|]. intros named.
  apply (at_most_bind p 0 0); [apply at_most_lift|]. intros name.
  unfold at_most. simpl. lia.
Qed.

(** X9. [get_project_kpis] makes at most two requests to the session and at
    most two lookups of the project, whatever the answers are. *)
Theorem kpis_call_budget (c : client) (project : pyval)
    (server caslib : string) (filter_column filter_value : option string) :
  List.length
    (session_requests
       (trace (get_project_kpis c project server caslib
                 filter_column filter_value))) <= 2
  /\ List.length
       (lookups
          (trace (get_project_kpis c project server caslib
                    filter_column filter_value))) <= 2.
Proof.
  split.
  - change (at_most is_request 2
              (get_project_kpis c project server caslib
                 filter_column filter_value)).
    unfold get_project_kpis.
    apply (at_most_bind is_request 0 2).
    { apply at_most_resolve. intros r. now apply at_most_call_other. }
    intros [found project_id].
    apply (at_most_bind is_request 1 1); [apply at_most_call|].
    intros schema. destruct (negb (ok schema)).
    + apply (at_most_more is_request 0); [|lia].
      apply (at_most_bind is_request 0 0);
        [now apply at_most_call_other|]. intros named.
      apply (at_most_bind is_request 0 0); [apply at_most_lift|].
      intros name. unfold at_most. simpl. lia.
    + apply (at_most_bind is_request 0 1); [apply at_most_lift|].
      intros col_names.
      apply (at_most_bind is_request 1 0); [apply at_most_call|].
      intros answer.
      destruct (frame_of_rows (json answer) col_names) as [df | e];
        [apply at_most_lift|].
      destruct e; try (unfold at_most; simpl; lia).
      destruct (truthy filter_column && truthy filter_value);
        [unfold at_most; simpl; lia|].
      apply (at_most_bind is_request 0 0);
        [now apply at_most_call_other|]. intros named.
      apply (at_most_bind is_request 0 0); [apply at_most_lift|].
      intros name. unfold at_most. simpl. lia.
  - change (at_most is_lookup 2
              (get_project_kpis c project server caslib
                 filter_column filter_value)).
    unfold get_project_kpis.
    apply (at_most_bind is_lookup 1 1).
    { apply at_most_resolve. intros r. apply at_most_call. }
    intros [found project_id].
    apply (at_most_bind is_lookup 0 1); [now apply at_most_call_other|].
    intros schema. destruct (negb (ok schema)).
    + apply (at_most_bind is_lookup 1 0); [apply at_most_call|].
      intros named.
      apply (at_most_bind is_lookup 0 0); [apply at_most_lift|].
      intros name. unfold at_most. simpl. lia.
    + apply (at_most_bind is_lookup 0 1); [apply at_most_lift|].
      intros col_names.
      apply (at_most_bind is_lookup 0 1); [now apply at_most_call_other|].
      intros answer. apply after_rows_at_most.
Qed.

(** ** The table that get_project_kpis returns *)

Lemma lstrip_fixed (s : string) :
  starts_with_space s = false -> lstrip s = s.
Proof. destruct s as [|c s]; simpl; [reflexivity|]. now intros ->. Qed.

Lemma rstrip_fixed (s : string) :
  ends_with_space s = false -> rstrip s = s.
Proof.
  induction s as [|c s IH]; [reflexivity|]. intros H.
  destruct s as [|c' s'].
  - simpl in *. now rewrite H.
  - change (ends_with_space (String c' s') = false) in H.
    specialize (IH H).
    change (rstrip (String c (String c' s')))
      with (if is_space c && is_empty (rstrip (String c' s'))
            then EmptyString else String c (rstrip (String c' s'))).
    rewrite IH. simpl. now rewrite andb_false_r.
Qed.

Lemma strip_strip (s : string) : strip (strip s) = strip s.
Proof.
  destruct (strip_spec s) as [pre [post [_ [_ [_ [Hstart Hend]]]]]].
  unfold strip at 1. now rewrite (lstrip_fixed _ Hstart), (rstrip_fixed _ Hend).
Qed.

Lemma normalized_clean (v : cell) : clean_cell (normalized v).
Proof.
  destruct v as [ | s | z ]; simpl; auto.
  destruct (String.eqb (strip s) ".") eqn:E1; simpl; auto.
  destruct (String.eqb (strip s) EmptyString) eqn:E2; simpl; auto.
  apply String.eqb_neq in E1. apply String.eqb_neq in E2.
  destruct (strip_spec s) as [pre [post [_ [_ [_ [Hstart Hend]]]]]].
  auto.
Qed.

Lemma clean_normalized (v : cell) : clean_cell v -> normalized v = v.
Proof.
  destruct v as [ | s | z ]; simpl; [reflexivity | | intros []].
  intros [Hdot [Hempty [Hstart Hend]]].
  assert (Hs : strip s = s).
  { unfold strip. now rewrite (lstrip_fixed _ Hstart), (rstrip_fixed _ Hend). }
  rewrite Hs. apply String.eqb_neq in Hdot. apply String.eqb_neq in Hempty.
  now rewrite Hdot, Hempty.
Qed.

Lemma map_fixed {A} (f : A -> A) (l : list A) :
  (forall a, In a l -> f a = a) -> map f l = l.
Proof.
  induction l as [|a l IH]; intros H; simpl; [reflexivity|].
  rewrite (H a (or_introl eq_refl)), IH; [reflexivity|].
  intros b Hb. apply H. now right.
Qed.

Lemma postprocess_cells (df df' : DataFrame) :
  postprocess df = Ok df' ->
  forall row v, In row (rows df') -> In v row -> clean_cell v.
Proof.
  intros H row v Hrow Hv.
  destruct (postprocess_ok df df' H) as [_ Hrows]. rewrite Hrows in Hrow.
  apply in_map_iff in Hrow. destruct Hrow as [row0 [<- _]].
  apply in_map_iff in Hv. destruct Hv as [v0 [<- _]].
  apply normalized_clean.
Qed.

(** X10. The post-processing leaves a table with the same columns and the
    same number of cells in every row, in which every cell is missing or a
    string that is neither [.] nor empty and has no white space at its ends;
    and post-processing that table again gives the table itself. *)
Theorem postprocess_clean (df df' : DataFrame) :
  postprocess df = Ok df' ->
  columns df' = columns df
  /\ map (@List.length cell) (rows df') = map (@List.length cell) (rows df)
  /\ (forall row v, In row (rows df') -> In v row -> clean_cell v)
  /\ postprocess df' = Ok df'.
Proof.
  intros H. destruct (postprocess_ok df df' H) as [Hcols Hrows].
  assert (Hclean : forall row v,
             In row (rows df') -> In v row -> clean_cell v).
  { intros row v Hrow Hv. rewrite Hrows in Hrow.
    apply in_map_iff in Hrow. destruct Hrow as [row0 [<- _]].
    apply in_map_iff in Hv. destruct Hv as [v0 [<- _]].
    apply normalized_clean. }
  split; [exact Hcols|]. split; [|split; [exact Hclean|]].
  - rewrite Hrows, map_map. apply map_ext. intros row. apply length_map.
  - destruct (postprocess_returns df') as [df'' H''].
    { intros row v Hrow Hv z ->. exact (Hclean row (CNum z) Hrow Hv). }
    rewrite H''. f_equal.
    destruct (postprocess_ok df' df'' H'') as [Hcols' Hrows'].
    destruct df' as [cols' rows'], df'' as [cols'' rows'']. simpl in *.
    subst cols''. f_equal. rewrite Hrows'.
    apply map_fixed. intros row Hrow. apply map_fixed. intros v Hv.
    apply clean_normalized. now apply (Hclean row).
Qed.

Lemma postprocess_clean_witness :
  postprocess
    (mk_frame ["ModelUUID"; "AUC"]
       [[CStr " m1 "; CStr "."]; [CStr "m2"; CStr " 0.7"]])
  = Ok (mk_frame ["ModelUUID"; "AUC"]
          [[CStr "m1"; CNull]; [CStr "m2"; CStr "0.7"]])
  /\ postprocess
       (mk_frame ["ModelUUID"; "AUC"]
          [[CStr "m1"; CNull]; [CStr "m2"; CStr "0.7"]])
     = Ok (mk_frame ["ModelUUID"; "AUC"]
             [[CStr "m1"; CNull]; [CStr "m2"; CStr "0.7"]]).
Proof.
  split; [reflexivity|].
  apply (postprocess_clean
           (mk_frame ["ModelUUID"; "AUC"]
              [[CStr " m1 "; CStr "."]; [CStr "m2"; CStr " 0.7"]])
           (mk_frame ["ModelUUID"; "AUC"]
              [[CStr "m1"; CNull]; [CStr "m2"; CStr "0.7"]])
           eq_refl).
Defined.

Lemma cell_rows_length (l : list (option pyval)) (data : list (list cell)) :
  cell_rows l = Ok data -> List.length data = List.length l.
Proof.
  revert data; induction l as [|o l IH]; intros data; simpl.
  - intros H. now injection H as <-.
  - destruct o as [[ | | | | |cs| | ]|]; try discriminate.
    destruct (cells_of cs) as [row|]; [|discriminate]. simpl.
    destruct (cell_rows l) as [more|]; [|discriminate]. simpl.
    intros H. injection H as <-. simpl. now rewrite (IH more eq_refl).
Qed.

Lemma max_length_bound {A} (data : list (list A)) (row : list A) :
  In row data ->
  List.length row <= fold_right Nat.max 0 (map (@List.length A) data).
Proof.
  induction data as [|r data IH]; intros H; [destruct H|].
  simpl. destruct H as [-> | H]; [lia|]. specialize (IH H). lia.
Qed.

Lemma new_frame_ok (data : list (list cell)) (cols : list string)
    (df : DataFrame) :
  new_frame data cols = Ok df ->
  columns df = cols
  /\ List.length (rows df) = List.length data
  /\ forall row, In row (rows df) -> List.length row = List.length cols.
Proof.
  unfold new_frame.
  destruct (Nat.eqb _ _) eqn:E; [|discriminate].
  apply Nat.eqb_eq in E. intros H. injection H as <-. simpl.
  split; [reflexivity|]. split; [apply length_map|].
  intros row Hrow. apply in_map_iff in Hrow. destruct Hrow as [r [<- Hr]].
  unfold pad. rewrite length_app, repeat_length.
  pose proof (max_length_bound data r Hr). lia.
Qed.

Lemma frame_of_rows_ok (body : pyval) (col_names : list string)
    (df : DataFrame) :
  frame_of_rows body col_names = Ok df ->
  columns df = col_names
  /\ rows df <> []
  /\ forall row, In row (rows df) -> List.length row = List.length col_names.
Proof.
  unfold frame_of_rows.
  destruct (items_of body) as [its|]; [|discriminate]. simpl.
  destruct (existsb (dict_has "cells") its) eqn:E; [|discriminate].
  destruct (cell_rows (map (dict_get "cells") its)) as [data|] eqn:Ed;
    [|discriminate].
  simpl. intros H. destruct (new_frame_ok _ _ _ H) as [Hc [Hl Hw]].
  split; [exact Hc|]. split; [|exact Hw].
  apply cell_rows_length in Ed. rewrite length_map in Ed.
  destruct its as [|it its]; [discriminate|].
  intros Hnil. rewrite Hnil in Hl. simpl in *. lia.
Qed.

Lemma get_project_kpis_ok (c : client) (project : pyval)
    (server caslib : string) (filter_column filter_value : option string)
    (df' : DataFrame) :
  outcome (get_project_kpis c project server caslib
             filter_column filter_value) = Ok df' ->
  exists body col_names df,
    frame_of_rows body col_names = Ok df /\ postprocess df = Ok df'.
Proof.
  unfold get_project_kpis.
  destruct (resolve_project c project) as [t [[found project_id] | e]];
    [|discriminate].
  cbn [bind]. unfold call.
  destruct (sess_get c _) as [e | schema]; [discriminate|].
  cbn [bind]. destruct (negb (ok schema)).
  { unfold get_project, call.
    destruct (mr_get_project c found) as [e | named]; [discriminate|].
    cbn [bind]. unfold lift.
    destruct (getattr named "name"); discriminate. }
  unfold lift at 1.
  destruct (column_names (json schema)) as [col_names|]; [|discriminate].
  cbn [bind].
  destruct (sess_get c _) as [e | answer]; [discriminate|].
  cbn [bind].
  destruct (frame_of_rows (json answer) col_names) as [df | e] eqn:Edf.
  - unfold lift. simpl. rewrite ?app_nil_r. intros H.
    exists (json answer), col_names, df. split; [exact Edf|].
    destruct (postprocess df); simpl in H; congruence.
  - destruct e; try discriminate.
    destruct (truthy filter_column && truthy filter_value); [discriminate|].
    unfold get_project, call.
    destruct (mr_get_project c found) as [e | named]; [discriminate|].
    cbn [bind]. unfold lift.
    destruct (subscript named "name"); discriminate.
Qed.

(** X11. A table that [get_project_kpis] returns has at least one row, one
    cell for every column in every row, and only clean cells: missing, or a
    string that is neither [.] nor empty and has no white space at its
    ends. *)
Theorem kpis_table_invariant (c : client) (project : pyval)
    (server caslib : string) (filter_column filter_value : option string)
    (df : DataFrame) :
  outcome (get_project_kpis c project server caslib
             filter_column filter_value) = Ok df ->
  rows df <> []
  /\ (forall row, In row (rows df) ->
        List.length row = List.length (columns df))
  /\ (forall row v, In row (rows df) -> In v row -> clean_cell v).
Proof.
  intros H.
  destruct (get_project_kpis_ok c project server caslib filter_column
              filter_value df H) as [body [col_names [df0 [Hf Hp]]]].
  destruct (frame_of_rows_ok body col_names df0 Hf) as [Hc [Hne Hw]].
  pose proof (postprocess_cells df0 df Hp) as Hclean.
  destruct (postprocess_ok df0 df Hp) as [Hcols Hrows].
  split; [|split; [|exact Hclean]].
  - rewrite Hrows. destruct (rows df0); [congruence | discriminate].
  - intros row Hrow. rewrite Hrows in Hrow.
    apply in_map_iff in Hrow. destruct Hrow as [row0 [<- Hrow0]].
    rewrite length_map, Hcols, Hc. now apply Hw.
Qed.

Lemma kpis_table_invariant_witness :
  let df := mk_frame ["ModelUUID"; "TimeLabel"; "AUC"]
              [[CNull; CNull; CStr "7"]; [CStr "abc"; CStr "m1"; CNull]] in
  rows df <> []
  /\ (forall row, In row (rows df) ->
        List.length row = List.length (columns df))
  /\ (forall row v, In row (rows df) -> In v row -> clean_cell v).
Proof.
  intros df.
  apply (kpis_table_invariant
           (demo_client demo_files (demo_session true demo_rows_body))
           (PStr demo_uuid) "cas-shared-default" "ModelPerformanceData"
           None None df).
  reflexivity.
Defined.

(** ** More on the KPI merge *)

Lemma update_json_split (model : string) (model_json : nat)
    (kpis : DataFrame) (h : heap) :
  _update_json model model_json kpis h
  = let? merged := merged_kpis model kpis in
    match merged with
    | None => Ok (model_json, h)
    | Some parsed =>
        let? h' := setitem h model_json "kpis" parsed in
        Ok (model_json, h')
    end.
Proof.
  unfold _update_json, merged_kpis.
  destruct (label_index "ModelUUID" (columns kpis)) as [uuid|]; [|reflexivity].
  simpl rbind. destruct (negb (empty _)); [|reflexivity].
  destruct (set_index _ _) as [ix|]; [|reflexivity]. simpl rbind.
  destruct (to_json_index ix); reflexivity.
Qed.

Lemma merged_kpis_some (model : string) (kpis : DataFrame) (uuid : nat) :
  label_index "ModelUUID" (columns kpis) = Ok uuid ->
  (exists row,
      In row (rows kpis)
      /\ value_of (columns kpis) "ModelUUID" row = CStr model) ->
  merged_kpis model kpis <> Ok None.
Proof.
  intros Huuid [row [Hin Hrow]]. unfold merged_kpis. rewrite Huuid.
  simpl rbind.
  assert (Hm : In row (filter (fun r => cell_is model (cell_at uuid r))
                         (rows kpis))).
  { apply filter_In. split; [exact Hin|]. apply cell_is_spec.
    unfold value_of in Hrow.
    now rewrite (proj1 (label_index_spec _ _ _ Huuid)) in Hrow. }
  unfold select_rows, empty. simpl.
  destruct (filter _ (rows kpis)) as [|r0 rest]; [destruct Hm|].
  destruct (label_index_spec _ _ _ Huuid) as [Hi _].
  destruct (columns kpis) as [|col cols]; [discriminate|].
  simpl negb. cbv iota.
  destruct (set_index _ _) as [ix|]; [|discriminate]. simpl rbind.
  destruct (to_json_index ix); discriminate.
Qed.

(** X12. The merge replaces: when the model has rows in the table, what is
    under [kpis] afterwards is given by the table alone, whatever the
    document had there before, or had not; so two documents merged with the
    same table have the same [kpis]. *)
Theorem update_json_replaces (model : string) (model_json : nat)
    (kpis : DataFrame) (h g : heap) (uuid r1 r2 : nat) (h1 g1 : heap) :
  label_index "ModelUUID" (columns kpis) = Ok uuid ->
  (exists row,
      In row (rows kpis)
      /\ value_of (columns kpis) "ModelUUID" row = CStr model) ->
  _update_json model model_json kpis h = Ok (r1, h1) ->
  _update_json model model_json kpis g = Ok (r2, g1) ->
  exists parsed dh dg,
    merged_kpis model kpis = Ok (Some parsed)
    /\ h1 model_json = PDict dh /\ dict_get "kpis" dh = Some parsed
    /\ g1 model_json = PDict dg /\ dict_get "kpis" dg = Some parsed.
Proof.
  intros Huuid Hrow Hh Hg.
  pose proof (merged_kpis_some model kpis uuid Huuid Hrow) as Hsome.
  rewrite update_json_split in Hh, Hg.
  destruct (merged_kpis model kpis) as [[parsed|]|]; try discriminate;
    [|congruence].
  simpl rbind in Hh, Hg. unfold setitem in Hh, Hg.
  destruct (h model_json) as [ | | | | | |dh| ]; try discriminate.
  destruct (g model_json) as [ | | | | | |dg| ]; try discriminate.
  simpl in Hh, Hg. injection Hh as <- <-. injection Hg as <- <-.
  exists parsed, (dict_set "kpis" parsed dh), (dict_set "kpis" parsed dg).
  rewrite !heap_set_same, !dict_get_set_same. auto.
Qed.

Lemma update_json_replaces_witness :
  exists parsed h1 g1,
    _update_json "m1" 7 demo_kpis demo_heap = Ok (7, h1)
    /\ _update_json "m1" 7 demo_kpis
         (heap_set demo_heap 7
            (PDict [("kpis", PDict [("2019-12", PDict [])])]))
       = Ok (7, g1)
    /\ subscript (h1 7) "kpis" = Ok parsed
    /\ subscript (g1 7) "kpis" = Ok parsed.
Proof.
  destruct (update_json_replaces "m1" 7 demo_kpis demo_heap
              (heap_set demo_heap 7
                 (PDict [("kpis", PDict [("2019-12", PDict [])])]))
              0 7 7 _ _ eq_refl
              (ex_intro _ [CStr "m1"; CStr "2023-01"; CStr "0.9"]
                 (conj (or_introl eq_refl) eq_refl))
              eq_refl eq_refl)
    as [parsed [dh [dg [_ [Hh [Hkh [Hg Hkg]]]]]]].
  eexists parsed, _, _. split; [reflexivity|]. split; [reflexivity|].
  unfold subscript. rewrite Hh, Hg, Hkh, Hkg. auto.
Defined.

(** X13. Merging the same table a second time changes nothing: the second
    merge returns, and every object of the store is as the first merge left
    it. *)
Theorem update_json_twice (model : string) (model_json : nat)
    (kpis : DataFrame) (h : heap) (r : nat) (h1 : heap) :
  _update_json model model_json kpis h = Ok (r, h1) ->
  exists h2,
    _update_json model model_json kpis h1 = Ok (r, h2)
    /\ forall other, h2 other = h1 other.
Proof.
  rewrite !update_json_split.
  destruct (merged_kpis model kpis) as [[parsed|]|]; try discriminate;
    simpl rbind.
  - unfold setitem.
    destruct (h model_json) as [ | | | | | |d| ] eqn:Hd; try discriminate.
    simpl. intros H. injection H as <- <-.
    rewrite heap_set_same. simpl. eexists. split; [reflexivity|].
    intros other. unfold heap_set.
    destruct (Nat.eqb other model_json); [|reflexivity].
    now rewrite dict_set_set.
  - intros H. injection H as <- <-. now exists h.
Qed.

Lemma update_json_twice_witness :
  exists h1 h2,
    _update_json "m1" 7 demo_kpis demo_heap = Ok (7, h1)
    /\ _update_json "m1" 7 demo_kpis h1 = Ok (7, h2)
    /\ h2 7 = h1 7.
Proof.
  eexists. 
  destruct (update_json_twice "m1" 7 demo_kpis demo_heap 7 _ eq_refl)
    as [h2 [H2 Hsame]].
  exists h2. split; [reflexivity|]. split; [exact H2 | apply Hsame].
Defined.

(** *** Every row of the model, in order *)








(** *** The object of a row *)

Lemma combine_get (col : string) (cols : list string) (row : list cell)
    (k : nat) :
  index_of col cols = Some k ->
  k < List.length row ->
  dict_get col (row_json cols row) = Some (cell_json (cell_at k row)).
Proof.
  unfold row_json, cell_at.
  revert row k; induction cols as [|c cols IH]; intros row k;
    [discriminate|].
  simpl. destruct (String.eqb col c) eqn:E.
  - intros H Hk. injection H as <-.
    destruct row as [|v row]; [simpl in Hk; lia|]. simpl. now rewrite E.
  - destruct (index_of col cols) as [j|] eqn:Ej; [|discriminate].
    intros H Hk. injection H as <-.
    destruct row as [|v row]; [simpl in Hk; lia|]. simpl. rewrite E.
    apply IH; [reflexivity | simpl in Hk; lia].
Qed.

Lemma length_remove_nth {A} (i : nat) (l : list A) :
  i < List.length l -> List.length (remove_nth i l) = List.length l - 1.
Proof.
  intros H. unfold remove_nth.
  rewrite length_app, length_firstn, length_skipn. lia.
Qed.

Lemma index_of_bound (label : string) (labels : list string) (i : nat) :
  index_of label labels = Some i -> i < List.length labels.
Proof.
  intros H. destruct (index_of_spec _ _ _ H) as [Hn _].
  apply nth_error_Some. congruence.
Qed.

Lemma index_of_differ (a b : string) (labels : list string) (i j : nat) :
  index_of a labels = Some i -> index_of b labels = Some j ->
  a <> b -> i <> j.
Proof.
  intros Ha Hb Hne ->.
  destruct (index_of_spec _ _ _ Ha) as [H1 _].
  destruct (index_of_spec _ _ _ Hb) as [H2 _]. congruence.
Qed.

(** X15. In the object that the merge makes of a row with one cell for every
    column, every column but [ModelUUID] and [TimeLabel] has the cell of the
    row, as a JSON value, and these two columns are not keys of the
    object. *)
Theorem merged_row_values (cols : list string) (row : list cell)
    (uuid tl : nat) :
  label_index "ModelUUID" cols = Ok uuid ->
  label_index "TimeLabel" (remove_nth uuid cols) = Ok tl ->
  List.length row = List.length cols ->
  let object := row_json (remove_nth tl (remove_nth uuid cols))
                  (remove_nth tl (remove_nth uuid row)) in
  (forall col,
      In col cols -> col <> "ModelUUID" -> col <> "TimeLabel" ->
      dict_get col object = Some (cell_json (value_of cols col row)))
  /\ dict_get "ModelUUID" object = None
  /\ dict_get "TimeLabel" object = None.
Proof.
  intros Huuid Htl Hlen object.
  destruct (label_index_spec _ _ _ Huuid) as [Hu Hnou].
  destruct (label_index_spec _ _ _ Htl) as [Ht Hnot].
  pose proof (index_of_bound _ _ _ Hu) as Hub.
  pose proof (index_of_bound _ _ _ Ht) as Htb.
  rewrite (length_remove_nth uuid cols Hub) in Htb.
  split; [|split].
  - intros col Hin Hnu Hnt.
    destruct (index_of_in _ _ Hin) as [j Hj].
    assert (Hju : j <> uuid) by exact (index_of_differ _ _ _ _ _ Hj Hu Hnu).
    pose proof (index_of_remove_nth _ _ uuid j Hj Hju) as Hj'.
    assert (Hjt : shifted uuid j <> tl)
      by exact (index_of_differ _ _ _ _ _ Hj' Ht Hnt).
    pose proof (index_of_remove_nth _ _ tl _ Hj' Hjt) as Hj''.
    unfold object. rewrite (combine_get col _ _ _ Hj'').
    + f_equal.
      rewrite <- (value_of_remove_nth cols col uuid j row Hj Hju).
      rewrite <- (value_of_remove_nth (remove_nth uuid cols) col tl
                    (shifted uuid j) (remove_nth uuid row) Hj' Hjt).
      unfold value_of. now rewrite Hj''.
    + pose proof (index_of_bound _ _ _ Hj'') as Hb.
      rewrite length_remove_nth in Hb
        by (rewrite length_remove_nth by exact Hub; lia).
      rewrite length_remove_nth in Hb by exact Hub.
      rewrite length_remove_nth
        by (rewrite length_remove_nth by lia; lia).
      rewrite length_remove_nth by lia. lia.
  - apply combine_get_none. intros Hc. apply in_remove_nth in Hc.
    now apply Hnou.
  - apply combine_get_none. exact Hnot.
Qed.

Lemma merged_row_values_witness :
  dict_get "AUC"
    (row_json (remove_nth 1 (remove_nth 0 (columns two_periods)))
       (remove_nth 1
          (remove_nth 0 [CStr "m1"; CStr "reg"; CStr "2023-01"; CStr "0.9"])))
  = Some (PStr "0.9").
Proof.
  destruct (merged_row_values (columns two_periods)
              [CStr "m1"; CStr "reg"; CStr "2023-01"; CStr "0.9"] 0 1
              eq_refl eq_refl eq_refl) as [H _].
  apply (H "AUC").
  - simpl. auto.
  - discriminate.
  - discriminate.
Defined.

(** *** What makes the merge fail *)

Lemma index_of_none (label : string) (labels : list string) :
  ~ In label labels -> index_of label labels = None.
Proof.
  induction labels as [|l rest IH]; intros H; [reflexivity|]. simpl.
  destruct (String.eqb label l) eqn:E.
  - apply String.eqb_eq in E. subst l. exfalso. apply H. now left.
  - rewrite IH; [reflexivity|]. intros Hin. apply H. now right.
Qed.

(** X16. The merge fails with [KeyError] on a table without a column
    [ModelUUID]; and, when the model has rows, with [KeyError] on a table
    without a column [TimeLabel], with [ValueError] when two rows of the
    model have the same time label, and with [TypeError] when the table is
    in order and the document is not a dictionary. *)
Theorem update_json_errors (model : string) (model_json : nat)
    (kpis : DataFrame) (h : heap) :
  (~ In "ModelUUID" (columns kpis) ->
     _update_json model model_json kpis h = Err (KeyError "ModelUUID"))
  /\ (forall uuid first others,
        label_index "ModelUUID" (columns kpis) = Ok uuid ->
        rows (rows_of_model model kpis) = first :: others ->
        (~ In "TimeLabel" (columns kpis) ->
           _update_json model model_json kpis h = Err (KeyError "TimeLabel"))
        /\ (forall tl,
              label_index "TimeLabel" (remove_nth uuid (columns kpis)) = Ok tl ->
              ~ NoDup (map (value_of (columns kpis) "TimeLabel")
                         (first :: others)) ->
              _update_json model model_json kpis h
              = Err (ValueError
                       "DataFrame index must be unique for orient='index'."))
        /\ (forall parsed,
              merged_kpis model kpis = Ok (Some parsed) ->
              (forall d, h model_json <> PDict d) ->
              _update_json model model_json kpis h = Err TypeError)).
Proof.
  split.
  - intros H. unfold _update_json, label_index.
    now rewrite (index_of_none _ _ H).
  - intros uuid first others Huuid Hmine.
    unfold rows_of_model, select_rows in Hmine. cbn [rows] in Hmine.
    split; [|split].
    + intros H. rewrite (update_json_eq model model_json kpis h uuid Huuid).
      rewrite Hmine. unfold set_index, drop_column, label_index.
      cbn [columns].
      rewrite (index_of_none "TimeLabel" (remove_nth uuid (columns kpis)));
        [reflexivity|].
      intros Hin. apply H. now apply (in_remove_nth uuid).
    + intros tl Htl Hdup.
      rewrite (update_json_eq model model_json kpis h uuid Huuid).
      rewrite Hmine. unfold set_index, drop_column. cbn [columns rows].
      rewrite Htl. cbn [rbind]. unfold to_json_index. cbn [icolumns irows].
      assert (H1 : nodupb cell_eqb
                     (map fst
                        (map (fun row => (cell_at tl row, remove_nth tl row))
                           (map (remove_nth uuid) (first :: others))))
                   = false).
      { destruct (nodupb cell_eqb _) eqn:E; [|reflexivity].
        exfalso. apply Hdup.
        apply (nodupb_spec cell_eqb cell_eqb_eq) in E.
        rewrite !map_map in E. erewrite map_ext; [exact E|].
        intros row. cbn [fst]. symmetry.
        now apply (time_label_shift kpis uuid Huuid). }
      now rewrite H1.
    + intros parsed Hmerged Hnot. rewrite update_json_split, Hmerged.
      cbn [rbind]. unfold setitem.
      destruct (h model_json) as [ | | | | | |d| ] eqn:Hd; try reflexivity.
      now destruct (Hnot d).
Qed.

(** Two rows of one model under one time label. *)
Lemma update_json_errors_witness :
  _update_json "m1" 7 same_period_twice demo_heap
  = Err (ValueError "DataFrame index must be unique for orient='index'.").
Proof.
  destruct (update_json_errors "m1" 7 same_period_twice demo_heap)
    as [_ H].
  destruct (H 0 [CStr "m1"; CStr "reg"; CStr "2023-01"; CStr "0.9"]
              [[CStr "m1"; CStr "reg"; CStr "2023-01"; CStr "0.8"]]
              eq_refl eq_refl) as [_ [Hdup _]].
  apply (Hdup 1 eq_refl).
  intros Hnd. simpl in Hnd. inversion Hnd as [|? ? Hnotin _]; subst.
  apply Hnotin. now left.
Defined.

(** ** More on generating the hyperparameter file *)









(** ** The batch update *)

Lemma update_json_of_str (model : string) (model_json : nat)
    (kpis : DataFrame) (h : heap) :
  update_json_of (CStr model) model_json kpis h
  = _update_json model model_json kpis h.
Proof. reflexivity. Qed.

Lemma subseq_nil_l {A} (m : list A) : subseq [] m.
Proof. induction m; constructor; assumption. Qed.

Lemma subseq_In {A} (l m : list A) (x : A) : subseq l m -> In x l -> In x m.
Proof.
  induction 1 as [|y l m _ IH|y l m _ IH]; intros Hin.
  - exact Hin.
  - right. now apply IH.
  - destruct Hin as [<- | Hin]; [now left | right; now apply IH].
Qed.

Lemma subseq_NoDup {A} (l m : list A) : subseq l m -> NoDup m -> NoDup l.
Proof.
  induction 1 as [|y l m Hs IH|y l m Hs IH]; intros Hnd.
  - constructor.
  - inversion Hnd; subst. now apply IH.
  - inversion Hnd as [|? ? Hnotin Hrest]; subst. constructor; [|now apply IH].
    intros Hin. apply Hnotin. now apply (subseq_In l m).
Qed.

Lemma cell_eqb_refl (v : cell) : cell_eqb v v = true.
Proof. now apply cell_eqb_eq. Qed.

Lemma uniq_In (v : cell) (l : list cell) : In v (uniq l) <-> In v l.
Proof.
  induction l as [|x l IH]; [reflexivity|]. simpl. split.
  - intros [-> | H]; [now left|]. right. apply IH.
    apply filter_In in H. tauto.
  - intros [-> | H]; [now left|].
    destruct (cell_eqb x v) eqn:E.
    + apply cell_eqb_eq in E. now left.
    + right. apply filter_In. split; [now apply IH | now rewrite E].
Qed.

Lemma uniq_NoDup (l : list cell) : NoDup (uniq l).
Proof.
  induction l as [|x l IH]; simpl; constructor.
  - intros H. apply filter_In in H. destruct H as [_ H].
    now rewrite cell_eqb_refl in H.
  - now apply NoDup_filter.
Qed.

Lemma cell_json_inj (a b : cell) : cell_json a = cell_json b -> a = b.
Proof. destruct a, b; simpl; intros H; congruence. Qed.

Lemma NoDup_map_cell_json (l : list cell) :
  NoDup l -> NoDup (map cell_json l).
Proof.
  induction 1 as [|x l Hnotin _ IH]; simpl; constructor; [|exact IH].
  intros Hin. apply in_map_iff in Hin. destruct Hin as [y [Hy Hin]].
  apply cell_json_inj in Hy. now subst y.
Qed.

Lemma called_uploads (t : list event) :
  upload_calls t = [] -> uploaded_models (map Called t) = [].
Proof.
  unfold upload_calls, uploaded_models.
  induction t as [|e t IH]; [reflexivity|]. simpl.
  destruct e; simpl; try exact IH. discriminate.
Qed.

Lemma called_notices (t : list event) : notices (map Called t) = [].
Proof. induction t as [|e t IH]; [reflexivity | exact IH]. Qed.

Lemma find_in_listed (c : client) (model : pyval) (fragment : string)
    (files : list ModelFile.t) :
  listed_models (map Called (trace (find_in c model fragment files))) = [].
Proof.
  induction files as [|file rest IH]; cbn [find_in]; [reflexivity|].
  destruct (containsb _ _); [|exact IH].
  unfold bind, call, ret.
  destruct (mr_get c (content_path c model file)); reflexivity.
Qed.

Lemma find_file_listed (c : client) (model : pyval) (fragment : string) :
  listed_models (map Called (trace (_find_file c model fragment))) = [model].
Proof.
  unfold _find_file, bind, call.
  destruct (mr_get_model_contents c model) as [e | files]; [reflexivity|].
  pose proof (find_in_listed c model fragment files) as H.
  destruct (find_in c model fragment files) as [t r]. simpl in *.
  unfold listed_models in *. simpl. now rewrite H.
Qed.

Lemma flat_map_snoc {A B} (f : A -> list B) (l : list A) (a : A) :
  flat_map f (l ++ [a]) = (flat_map f l ++ f a)%list.
Proof. rewrite flat_map_app. simpl. now rewrite app_nil_r. Qed.

(** The log of the loop over [models]. *)
Lemma update_models_log (svc : service) (kpis : DataFrame)
    (models : list cell) (uploads : list event)
    (log : list output) (out : batch_outcome) :
  update_models svc kpis models uploads = (log, out) ->
  subseq (uploaded_models log) (map cell_json models)
  /\ (exists k, listed_models log = firstn k (map cell_json models))
  /\ List.length (uploaded_models log) + List.length (notices log)
     <= List.length (listed_models log)
  /\ (out = Completed ->
      listed_models log = map cell_json models
      /\ List.length (uploaded_models log) + List.length (notices log)
         = List.length models).
Proof.
  revert uploads log out.
  induction models as [|model rest IH]; intros uploads log out.
  { simpl. intros H. injection H as <- <-. simpl.
    repeat split; try constructor. now exists 0. }
  cbn [update_models].
  pose proof (quiet_find_file (svc uploads) (cell_json model)
                "hyperparameters") as Hq.
  pose proof (find_file_listed (svc uploads) (cell_json model)
                "hyperparameters") as Hl.
  destruct (_find_file (svc uploads) (cell_json model) "hyperparameters")
    as [t found].
  unfold quiet in Hq. cbn [trace fst] in Hq, Hl.
  apply called_uploads in Hq. pose proof (called_notices t) as Hn.
  assert (Hname : model_name kpis model <> inl Completed).
  { unfold model_name.
    destruct (label_index "ModelUUID" (columns kpis)); [|discriminate].
    destruct (label_index "ModelName" (columns kpis)); [|discriminate].
    destruct (filter _ (rows kpis)); discriminate. }
  destruct found as [[current_params file_name] | e].
  - destruct (merged_text model current_params kpis) as [content | e].
    + destruct (mr_add_model_content (svc uploads) (cell_json model) content
                  file_name) as [e | u].
      * intros H. injection H as <- <-.
        unfold uploaded_models, listed_models, notices in *.
        rewrite !flat_map_snoc, Hq, Hl, Hn. simpl.
        split; [constructor; apply subseq_nil_l|].
        split; [now exists 1|]. split; [lia | discriminate].
      * destruct (update_models svc kpis rest _) as [log' out'] eqn:Er.
        intros H. injection H as <- <-.
        destruct (IH _ _ _ Er) as [Hs [[k Hk] [Hle Hdone]]].
        unfold uploaded_models, listed_models, notices in *.
        rewrite !flat_map_app, Hq, Hl, Hn. simpl.
        split; [now constructor|].
        split; [exists (S k); simpl; now rewrite Hk|].
        split; [lia|]. intros Hc. destruct (Hdone Hc) as [H1 H2].
        rewrite H1. split; [reflexivity | lia].
    + intros H. injection H as <- <-.
      unfold uploaded_models, listed_models, notices in *.
      rewrite Hq, Hl, Hn. simpl.
      split; [apply subseq_nil_l|].
      split; [now exists 1|]. split; [lia | discriminate].
  - destruct (model_name kpis model) as [stop | name].
    + intros H. injection H as <- <-.
      unfold uploaded_models, listed_models, notices in *.
      rewrite Hq, Hl, Hn. simpl.
      split; [apply subseq_nil_l|].
      split; [now exists 1|]. split; [lia|].
      intros ->. now destruct Hname.
    + destruct (update_models svc kpis rest uploads) as [log' out'] eqn:Er.
      intros H. injection H as <- <-.
      destruct (IH _ _ _ Er) as [Hs [[k Hk] [Hle Hdone]]].
      unfold uploaded_models, listed_models, notices in *.
      rewrite !flat_map_app, Hq, Hl, Hn. simpl.
      split; [now constructor|].
      split; [exists (S k); simpl; now rewrite Hk|].
      split; [lia|]. intros Hc. destruct (Hdone Hc) as [H1 H2].
      rewrite H1. split; [reflexivity | lia].
Qed.

Lemma get_project_kpis_only (c : client) (p : event -> bool)
    (project : pyval) (server caslib : string)
    (filter_column filter_value : option string) :
  (forall x, p (EGetProject x) = false) ->
  (forall x, p (ESessGet x) = false) ->
  at_most p 0
    (get_project_kpis c project server caslib filter_column filter_value).
Proof.
  intros Hp Hs.
  assert (Hz : forall A (m : M A), trace m = [] -> at_most p 0 m).
  { intros A m H. unfold at_most. rewrite H. simpl. lia. }
  unfold get_project_kpis. apply (at_most_bind p 0 0).
  { apply at_most_resolve. intros r. now apply at_most_call_other. }
  intros [found project_id].
  apply (at_most_bind p 0 0); [now apply at_most_call_other|].
  intros schema. destruct (negb (ok schema)).
  - apply (at_most_bind p 0 0); [now apply at_most_call_other|].
    intros named. apply (at_most_bind p 0 0); [apply at_most_lift|].
    intros name. now apply Hz.
  - apply (at_most_bind p 0 0); [apply at_most_lift|]. intros col_names.
    apply (at_most_bind p 0 0); [now apply at_most_call_other|].
    intros answer.
    destruct (frame_of_rows (json answer) col_names) as [df | e];
      [apply at_most_lift|].
    destruct e; try now apply Hz.
    destruct (truthy filter_column && truthy filter_value);
      [now apply Hz|].
    apply (at_most_bind p 0 0); [now apply at_most_call_other|].
    intros named. apply (at_most_bind p 0 0); [apply at_most_lift|].
    intros name. now apply Hz.
Qed.

Lemma get_project_kpis_lists_nothing (c : client) (project : pyval)
    (server caslib : string) (filter_column filter_value : option string) :
  filter is_listing
    (trace (get_project_kpis c project server caslib
              filter_column filter_value)) = [].
Proof.
  pose proof (get_project_kpis_only c is_listing project server caslib
                filter_column filter_value (fun _ => eq_refl)
                (fun _ => eq_refl)) as H.
  unfold at_most in H. destruct (filter _ _); [reflexivity | simpl in H; lia].
Qed.

Lemma called_listed (t : list event) :
  filter is_listing t = [] -> listed_models (map Called t) = [].
Proof.
  unfold listed_models. induction t as [|e t IH]; [reflexivity|]. simpl.
  destruct e; simpl; try exact IH. discriminate.
Qed.

Lemma unique_models_spec (kpis : DataFrame) (models : list cell) :
  unique_models kpis = Ok models ->
  NoDup models
  /\ forall m,
       In m models <->
       exists row,
         In row (rows kpis) /\ value_of (columns kpis) "ModelUUID" row = m.
Proof.
  unfold unique_models, value_of.
  destruct (index_of "ModelUUID" (columns kpis)) as [i|]; [|discriminate].
  destruct (existsb _ _); [discriminate|].
  intros H. injection H as <-. split; [apply uniq_NoDup|].
  intros m. rewrite uniq_In. unfold column. rewrite in_map_iff.
  split; intros [row [H1 H2]]; exists row; tauto.
Qed.

(** X20. [update_kpis] begins with the calls of [get_project_kpis] without a
    filter, made before any upload. When the table cannot be fetched, or has
    no column [ModelUUID], the batch ends there with that error: no file is
    listed, nothing is uploaded and nothing is printed. *)
Theorem update_kpis_fetch_first (svc : service) (project : pyval)
    (server caslib : string) :
  let fetch := get_project_kpis (svc []) project server caslib None None in
  exists rest,
    fst (update_kpis svc project server caslib)
    = (map Called (trace fetch) ++ rest)%list
    /\ (forall e,
          outcome fetch = Err e ->
          update_kpis svc project server caslib
          = (map Called (trace fetch), Raised e))
    /\ (forall kpis,
          outcome fetch = Ok kpis ->
          ~ In "ModelUUID" (columns kpis) ->
          update_kpis svc project server caslib
          = (map Called (trace fetch), Raised (KeyError "ModelUUID"))).
Proof.
  intros fetch. unfold update_kpis. fold fetch.
  destruct fetch as [t [kpis | e]]; cbn [trace outcome fst snd].
  - destruct (unique_models kpis) as [models | e] eqn:Eu.
    + destruct (update_models svc kpis models []) as [log out].
      exists log. split; [reflexivity|]. split; [discriminate|].
      intros kpis' H Hno. injection H as <-. unfold unique_models in Eu.
      rewrite (index_of_none _ _ Hno) in Eu. discriminate.
    + exists []. split; [now rewrite app_nil_r|]. split; [discriminate|].
      intros kpis' H Hno. injection H as <-. unfold unique_models in Eu.
      rewrite (index_of_none _ _ Hno) in Eu. now injection Eu as <-.
  - exists []. split; [now rewrite app_nil_r|]. split.
    + intros e' H. now injection H as <-.
    + discriminate.
Qed.

(** X21. When the table is fetched, the batch goes through the distinct
    values of [ModelUUID] in the order in which they come first: the models
    whose files it lists are the first ones of that list, up to the one at
    which it stops; the models it uploads for are among them, in that order,
    each of them once and each the model of some row; and when it completes,
    it has listed the files of every model and has one upload or one printed
    line for each. *)
Theorem update_kpis_models (svc : service) (project : pyval)
    (server caslib : string) (kpis : DataFrame) (models : list cell)
    (log : list output) (out : batch_outcome) :
  update_kpis svc project server caslib = (log, out) ->
  outcome (get_project_kpis (svc []) project server caslib None None)
  = Ok kpis ->
  unique_models kpis = Ok models ->
  subseq (uploaded_models log) (map cell_json models)
  /\ NoDup (uploaded_models log)
  /\ (forall m,
        In m (uploaded_models log) ->
        exists row,
          In row (rows kpis)
          /\ cell_json (value_of (columns kpis) "ModelUUID" row) = m)
  /\ (exists k, listed_models log = firstn k (map cell_json models))
  /\ (out = Completed ->
      listed_models log = map cell_json models
      /\ List.length (uploaded_models log) + List.length (notices log)
         = List.length models).
Proof.
  unfold update_kpis.
  pose proof (quiet_get_project_kpis (svc []) project server caslib None None)
    as Hq.
  pose proof (called_listed _
                (get_project_kpis_lists_nothing (svc []) project server
                   caslib None None)) as Hl.
  destruct (get_project_kpis (svc []) project server caslib None None)
    as [t fetched].
  unfold quiet in Hq. cbn [trace outcome fst snd] in *.
  apply called_uploads in Hq. pose proof (called_notices t) as Hn.
  intros H Hf Hu. rewrite Hf, Hu in H.
  destruct (update_models svc kpis models []) as [log' out'] eqn:Er.
  injection H as <- <-.
  destruct (update_models_log svc kpis models [] log' out' Er)
    as [Hs [[k Hk] [Hle Hdone]]].
  destruct (unique_models_spec kpis models Hu) as [Hnd Hin].
  unfold uploaded_models, listed_models, notices in *.
  rewrite !flat_map_app, Hq, Hl, Hn. cbn [app].
  split; [exact Hs|]. split.
  { apply (subseq_NoDup _ _ Hs). now apply NoDup_map_cell_json. }
  split.
  { intros m Hm. apply (subseq_In _ _ _ Hs) in Hm.
    apply in_map_iff in Hm. destruct Hm as [v [<- Hv]].
    apply Hin in Hv. destruct Hv as [row [Hrow <-]]. now exists row. }
  split; [now exists k | exact Hdone].
Qed.

Lemma update_kpis_models_witness :
  exists log,
    update_kpis batch_service (PStr demo_uuid) "cas-shared-default"
      "ModelPerformanceData" = (log, Completed)
    /\ uploaded_models log = [PStr "m1"]
    /\ listed_models log = [PStr "m1"; PStr "m2"; PStr "m3"]
    /\ List.length (uploaded_models log) + List.length (notices log) = 3.
Proof.
  eexists. split; [reflexivity|].
  split; [reflexivity|]. split; [reflexivity|].
  match goal with
  | |- Datatypes.length (uploaded_models ?l) + _ = _ =>
      destruct (update_kpis_models batch_service (PStr demo_uuid)
                  "cas-shared-default" "ModelPerformanceData"
                  (mk_frame ["ModelUUID"; "ModelName"; "TimeLabel"; "AUC"]
                     [[CStr "m1"; CStr "reg"; CStr "2023-01"; CStr "0.9"];
                      [CStr "m2"; CStr "tree"; CStr "2023-01"; CStr "0.7"];
                      [CStr "m1"; CStr "reg"; CStr "2023-02"; CNull];
                      [CStr "m3"; CStr "net"; CStr "2023-01"; CStr "0.8"]])
                  [CStr "m1"; CStr "m2"; CStr "m3"] l Completed
                  eq_refl eq_refl eq_refl)
        as [_ [_ [_ [_ H]]]]
  end.
  destruct (H eq_refl) as [_ Hcount]. exact Hcount.
Defined.

Lemma same_value_eqb (model v : cell) :
  model <> CNull -> same_value model v = cell_eqb v model.
Proof.
  intros H. destruct model as [ | s | x ]; [contradiction | |];
    destruct v; reflexivity.
Qed.

Lemma unique_models_index (kpis : DataFrame) (models : list cell) :
  unique_models kpis = Ok models ->
  exists uuid,
    label_index "ModelUUID" (columns kpis) = Ok uuid
    /\ models = uniq (column uuid kpis).
Proof.
  unfold unique_models, label_index.
  destruct (index_of "ModelUUID" (columns kpis)) as [i|]; [|discriminate].
  destruct (existsb _ _); [discriminate|].
  intros H. injection H as <-. now exists i.
Qed.

Lemma model_name_first (kpis : DataFrame) (model : cell) (uuid name : nat) :
  label_index "ModelUUID" (columns kpis) = Ok uuid ->
  label_index "ModelName" (columns kpis) = Ok name ->
  model <> CNull ->
  In model (column uuid kpis) ->
  model_name kpis model = inr (first_name kpis model).
Proof.
  intros Hu Hn Hnull Hin. unfold model_name, first_name. rewrite Hu, Hn.
  assert (Hf : filter (fun row => same_value model (cell_at uuid row))
                 (rows kpis)
               = filter (fun row =>
                           cell_eqb (value_of (columns kpis) "ModelUUID" row)
                             model) (rows kpis)).
  { apply filter_ext. intros row. rewrite (same_value_eqb _ _ Hnull).
    unfold value_of. now rewrite (proj1 (label_index_spec _ _ _ Hu)). }
  rewrite Hf. clear Hf.
  remember (filter (fun row =>
                      cell_eqb (value_of (columns kpis) "ModelUUID" row)
                        model) (rows kpis)) as mine eqn:E.
  destruct mine as [|row rest].
  - exfalso. unfold column in Hin. apply in_map_iff in Hin.
    destruct Hin as [row [Hrow Hin]].
    assert (Hr : In row (filter (fun row =>
                           cell_eqb (value_of (columns kpis) "ModelUUID" row)
                             model) (rows kpis))).
    { apply filter_In. split; [exact Hin|]. apply cell_eqb_eq.
      unfold value_of. now rewrite (proj1 (label_index_spec _ _ _ Hu)). }
    rewrite <- E in Hr. destruct Hr.
  - unfold value_of. now rewrite (proj1 (label_index_spec _ _ _ Hn)).
Qed.

Lemma update_models_no_files (svc : service) (kpis : DataFrame)
    (models : list cell) (uploads : list event) (uuid name : nat) :
  label_index "ModelUUID" (columns kpis) = Ok uuid ->
  label_index "ModelName" (columns kpis) = Ok name ->
  (forall m, In m models ->
     m <> CNull /\ In m (column uuid kpis)
     /\ exists e,
          outcome (_find_file (svc uploads) (cell_json m) "hyperparameters")
          = Err e) ->
  exists log,
    update_models svc kpis models uploads = (log, Completed)
    /\ uploaded_models log = []
    /\ notices log = map (fun m => skip_notice (first_name kpis m)) models.
Proof.
  intros Hu Hn. induction models as [|model rest IH]; intros H.
  { exists []. auto. }
  destruct (H model (or_introl eq_refl)) as [Hnull [Hin [e He]]].
  destruct IH as [log' [Hrest [Hup Hnot]]].
  { intros m Hm. apply H. now right. }
  cbn [update_models].
  pose proof (quiet_find_file (svc uploads) (cell_json model)
                "hyperparameters") as Hq.
  destruct (_find_file (svc uploads) (cell_json model) "hyperparameters")
    as [t found].
  unfold quiet in Hq. cbn [trace outcome fst snd] in *. subst found.
  rewrite (model_name_first kpis model uuid name Hu Hn Hnull Hin), Hrest.
  eexists. split; [reflexivity|].
  unfold uploaded_models, notices in *.
  rewrite !flat_map_app. cbn [flat_map upload_of notice_of app].
  fold (uploaded_models (map Called t)). fold (notices (map Called t)).
  rewrite (called_uploads t Hq), (called_notices t), Hup, Hnot.
  split; reflexivity.
Qed.

(** X22. When the locator fails for every model of the table, for whatever
    reason (no file of that name, or an error of the service), and every row
    has a model, the batch completes all the same: it uploads nothing and
    prints one line for each distinct model, in order, with the name that
    the first row of the model has under [ModelName]. *)
Theorem update_kpis_no_files (svc : service) (project : pyval)
    (server caslib : string) (t : list event) (kpis : DataFrame)
    (models : list cell) (name : nat) :
  get_project_kpis (svc []) project server caslib None None = (t, Ok kpis) ->
  unique_models kpis = Ok models ->
  label_index "ModelName" (columns kpis) = Ok name ->
  ~ In CNull models ->
  (forall m, In m models ->
     exists e,
       outcome (_find_file (svc []) (cell_json m) "hyperparameters")
       = Err e) ->
  exists log,
    update_kpis svc project server caslib = (log, Completed)
    /\ uploaded_models log = []
    /\ notices log = map (fun m => skip_notice (first_name kpis m)) models.
Proof.
  intros Hfetch Hmodels Hname Hnull Hfail.
  destruct (unique_models_index kpis models Hmodels) as [uuid [Hu Heq]].
  destruct (update_models_no_files svc kpis models [] uuid name Hu Hname)
    as [log [Hlog [Hup Hnot]]].
  { intros m Hm. split; [intros ->; contradiction|]. split.
    - rewrite Heq in Hm. exact (proj1 (uniq_In _ _) Hm).
    - now apply Hfail. }
  pose proof (quiet_get_project_kpis (svc []) project server caslib None None)
    as Hq.
  unfold update_kpis. rewrite Hfetch in *. rewrite Hmodels, Hlog.
  unfold quiet in Hq. cbn [trace fst] in Hq.
  exists (map Called t ++ log)%list. split; [reflexivity|].
  unfold uploaded_models, notices in *. rewrite !flat_map_app.
  fold (uploaded_models (map Called t)). fold (notices (map Called t)).
  rewrite (called_uploads t Hq), (called_notices t), Hup, Hnot.
  split; reflexivity.
Qed.

Lemma update_kpis_no_files_witness :
  exists log,
    update_kpis (batch_service_with (fun _ => inl "401 Unauthorized"))
      (PStr demo_uuid) "cas-shared-default" "ModelPerformanceData"
    = (log, Completed)
    /\ uploaded_models log = []
    /\ notices log
       = [skip_notice "reg"; skip_notice "tree"; skip_notice "net"].
Proof.
  apply (update_kpis_no_files
           (batch_service_with (fun _ => inl "401 Unauthorized"))
           (PStr demo_uuid) "cas-shared-default" "ModelPerformanceData"
           _ batch_table [CStr "m1"; CStr "m2"; CStr "m3"] 1
           eq_refl eq_refl eq_refl).
  - intros [H | [H | [H | []]]]; discriminate.
  - intros m [<- | [<- | [<- | []]]]; eexists; reflexivity.
Defined.

Lemma update_models_all_files (svc : service) (kpis : DataFrame)
    (doc : cell -> pyval) (name content : cell -> string)
    (models : list cell) (uploads : list event) :
  (forall m ups, In m models ->
     outcome (_find_file (svc ups) (cell_json m) "hyperparameters")
     = Ok (doc m, name m)
     /\ merged_text m (doc m) kpis = Ok (content m)
     /\ mr_add_model_content (svc ups) (cell_json m) (content m) (name m)
        = inr tt) ->
  exists log,
    update_models svc kpis models uploads = (log, Completed)
    /\ notices log = []
    /\ upload_events log
       = map (fun m => EAddModelContent (cell_json m) (content m) (name m))
           models.
Proof.
  revert uploads. induction models as [|model rest IH]; intros uploads H.
  { exists []. auto. }
  destruct (H model uploads (or_introl eq_refl)) as [Hfind [Hmerge Hadd]].
  cbn [update_models].
  pose proof (quiet_find_file (svc uploads) (cell_json model)
                "hyperparameters") as Hq.
  destruct (_find_file (svc uploads) (cell_json model) "hyperparameters")
    as [t found].
  unfold quiet in Hq. cbn [trace outcome fst snd] in *. subst found.
  rewrite Hmerge, Hadd.
  destruct (IH (uploads
                ++ [EAddModelContent (cell_json model) (content model)
                      (name model)])%list)
    as [log' [Hrest [Hnot Hup]]].
  { intros m ups Hm. apply H. now right. }
  rewrite Hrest. eexists. split; [reflexivity|].
  unfold notices, upload_events in *. rewrite !flat_map_app.
  cbn [flat_map upload_event_of notice_of app].
  fold (notices (map Called t)). rewrite (called_notices t), Hnot, Hup.
  split; [reflexivity|].
  assert (Hnone : flat_map upload_event_of (map Called t) = []).
  { unfold upload_calls in Hq. clear -Hq.
    induction t as [|e t IHt]; [reflexivity|]. simpl in *.
    destruct e; simpl in *; try (now apply IHt). discriminate. }
  now rewrite Hnone.
Qed.

(** X23. When every model of the table has a hyperparameter file, the merge
    of its rows has a JSON text and the service takes every upload, the
    batch completes without printing, with one upload for each distinct
    model, in order: the document of the model with the KPIs merged, under
    the file name it was fetched under. *)
Theorem update_kpis_all_files (svc : service) (project : pyval)
    (server caslib : string) (t : list event) (kpis : DataFrame)
    (models : list cell) (doc : cell -> pyval)
    (name content : cell -> string) :
  get_project_kpis (svc []) project server caslib None None = (t, Ok kpis) ->
  unique_models kpis = Ok models ->
  (forall m ups, In m models ->
     outcome (_find_file (svc ups) (cell_json m) "hyperparameters")
     = Ok (doc m, name m)
     /\ merged_text m (doc m) kpis = Ok (content m)
     /\ mr_add_model_content (svc ups) (cell_json m) (content m) (name m)
        = inr tt) ->
  exists log,
    update_kpis svc project server caslib = (log, Completed)
    /\ notices log = []
    /\ upload_events log
       = map (fun m => EAddModelContent (cell_json m) (content m) (name m))
           models.
Proof.
  intros Hfetch Hmodels Hall.
  destruct (update_models_all_files svc kpis doc name content models [] Hall)
    as [log [Hlog [Hnot Hup]]].
  pose proof (quiet_get_project_kpis (svc []) project server caslib None None)
    as Hq.
  unfold update_kpis. rewrite Hfetch in *. rewrite Hmodels, Hlog.
  unfold quiet in Hq. cbn [trace fst] in Hq.
  exists (map Called t ++ log)%list. split; [reflexivity|].
  unfold notices, upload_events in *. rewrite !flat_map_app.
  fold (notices (map Called t)). rewrite (called_notices t), Hnot, Hup.
  split; [reflexivity|].
  assert (Hnone : flat_map upload_event_of (map Called t) = []).
  { unfold upload_calls in Hq. clear -Hq.
    induction t as [|e t IHt]; [reflexivity|]. simpl in *.
    destruct e; simpl in *; try (now apply IHt). discriminate. }
  now rewrite Hnone.
Qed.

Lemma update_kpis_all_files_witness :
  exists log,
    update_kpis (batch_service_with (fun _ => inr demo_files))
      (PStr demo_uuid) "cas-shared-default" "ModelPerformanceData"
    = (log, Completed)
    /\ notices log = []
    /\ uploaded_models log = [PStr "m1"; PStr "m2"; PStr "m3"].
Proof.
  destruct (update_kpis_all_files
              (batch_service_with (fun _ => inr demo_files))
              (PStr demo_uuid) "cas-shared-default" "ModelPerformanceData"
              _ batch_table [CStr "m1"; CStr "m2"; CStr "m3"]
              (fun _ => demo_document)
              (fun _ => "ModelHyperparameters.json")
              (demo_content batch_table) eq_refl eq_refl)
    as [log [Hlog [Hnot Hup]]].
  - intros m ups [<- | [<- | [<- | []]]]; repeat split; reflexivity.
  - exists log. split; [exact Hlog|]. split; [exact Hnot|].
    clear Hnot Hup. vm_compute in Hlog. injection Hlog as <-.
    reflexivity.
Defined.

(** *** Where the batch stops *)

Lemma called_upload_events (t : list event) :
  upload_calls t = [] -> upload_events (map Called t) = [].
Proof.
  unfold upload_calls, upload_events.
  induction t as [|e t IH]; [reflexivity|]. simpl.
  destruct e; simpl; try exact IH. discriminate.
Qed.

(** The loop over two lists in a row is the loop over the first, then the
    loop over the second after the uploads of the first. *)
Lemma update_models_app (svc : service) (kpis : DataFrame)
    (pre rest : list cell) (uploads : list event) (log1 : list output) :
  update_models svc kpis pre uploads = (log1, Completed) ->
  update_models svc kpis (pre ++ rest)%list uploads
  = let (log2, out) :=
      update_models svc kpis rest (uploads ++ upload_events log1)%list in
    ((log1 ++ log2)%list, out).
Proof.
  revert uploads log1. induction pre as [|model pre IH]; intros uploads log1.
  { simpl. intros H. injection H as <-. simpl. rewrite app_nil_r.
    now destruct (update_models svc kpis rest uploads). }
  cbn [update_models app].
  pose proof (quiet_find_file (svc uploads) (cell_json model)
                "hyperparameters") as Hq.
  destruct (_find_file (svc uploads) (cell_json model) "hyperparameters")
    as [t found].
  unfold quiet in Hq. cbn [trace fst] in Hq.
  apply called_upload_events in Hq.
  destruct found as [[current_params file_name] | e].
  - destruct (merged_text model current_params kpis) as [content | e];
      [|discriminate].
    destruct (mr_add_model_content (svc uploads) (cell_json model) content
                file_name) as [e | u]; [discriminate|].
    destruct (update_models svc kpis pre _) as [log' out'] eqn:Er.
    intros H. injection H as <- ->.
    rewrite (IH _ _ Er). unfold upload_events in *.
    rewrite flat_map_app, Hq. cbn [flat_map upload_event_of app].
    rewrite <- app_assoc. cbn [app].
    destruct (update_models svc kpis rest _) as [log2 out2].
    now rewrite <- app_assoc.
  - assert (Hname : model_name kpis model <> inl Completed).
    { unfold model_name.
      destruct (label_index "ModelUUID" (columns kpis)); [|discriminate].
      destruct (label_index "ModelName" (columns kpis)); [|discriminate].
      destruct (filter _ (rows kpis)); discriminate. }
    destruct (model_name kpis model) as [stop | name].
    + intros H. injection H as <- ->. now destruct Hname.
    + destruct (update_models svc kpis pre uploads) as [log' out'] eqn:Er.
      intros H. injection H as <- ->.
      rewrite (IH _ _ Er). unfold upload_events in *.
      rewrite flat_map_app, Hq. cbn [flat_map upload_event_of app].
      destruct (update_models svc kpis rest _) as [log2 out2].
      now rewrite <- app_assoc.
Qed.

(** X24. An error of the merge is not caught: when the models before [m]
    are uploaded and the merge for [m] fails, the batch ends with that
    error; the files of the earlier models and of [m] have been listed, the
    earlier models are uploaded, and for the models after [m] nothing is
    listed and nothing is uploaded. *)
Theorem update_kpis_stops (svc : service) (project : pyval)
    (server caslib : string) (t : list event) (kpis : DataFrame)
    (pre post : list cell) (m : cell) (doc : cell -> pyval)
    (name content : cell -> string) (current : pyval) (file_name : string)
    (e : exn) :
  get_project_kpis (svc []) project server caslib None None = (t, Ok kpis) ->
  unique_models kpis = Ok (pre ++ m :: post)%list ->
  (forall x ups, In x pre ->
     outcome (_find_file (svc ups) (cell_json x) "hyperparameters")
     = Ok (doc x, name x)
     /\ merged_text x (doc x) kpis = Ok (content x)
     /\ mr_add_model_content (svc ups) (cell_json x) (content x) (name x)
        = inr tt) ->
  (forall ups,
     outcome (_find_file (svc ups) (cell_json m) "hyperparameters")
     = Ok (current, file_name)) ->
  merged_text m current kpis = Err e ->
  exists log,
    update_kpis svc project server caslib = (log, Raised e)
    /\ listed_models log = map cell_json (pre ++ [m])%list
    /\ upload_events log
       = map (fun x => EAddModelContent (cell_json x) (content x) (name x))
           pre.
Proof.
  intros Hfetch Hmodels Hpre Hm Hmerge.
  destruct (update_models_all_files svc kpis doc name content pre [] Hpre)
    as [log1 [Hlog1 [_ Hup1]]].
  destruct (update_models_log svc kpis pre [] log1 Completed Hlog1)
    as [_ [_ [_ Hdone]]].
  destruct (Hdone eq_refl) as [Hlisted1 _].
  pose proof (update_models_app svc kpis pre (m :: post) [] log1 Hlog1)
    as Happ.
  cbn [update_models] in Happ.
  specialize (Hm ([] ++ upload_events log1)%list).
  pose proof (quiet_find_file (svc ([] ++ upload_events log1)%list)
                (cell_json m) "hyperparameters") as Hq.
  pose proof (find_file_listed (svc ([] ++ upload_events log1)%list)
                (cell_json m) "hyperparameters") as Hl.
  destruct (_find_file (svc ([] ++ upload_events log1)%list) (cell_json m)
              "hyperparameters") as [t' found].
  unfold quiet in Hq. cbn [trace outcome fst snd] in *. subst found.
  rewrite Hmerge in Happ.
  pose proof (quiet_get_project_kpis (svc []) project server caslib None None)
    as Hq0.
  pose proof (called_listed _
                (get_project_kpis_lists_nothing (svc []) project server
                   caslib None None)) as Hl0.
  unfold update_kpis. rewrite Hfetch in *. rewrite Hmodels, Happ.
  unfold quiet in Hq0. cbn [trace fst] in Hq0, Hl0.
  eexists. split; [reflexivity|].
  unfold listed_models, upload_events in *. rewrite !flat_map_app.
  fold (upload_events (map Called t)). fold (upload_events (map Called t')).
  rewrite (called_upload_events t Hq0), (called_upload_events t' Hq).
  rewrite Hl0, Hl, Hlisted1, Hup1, map_app, app_nil_r. split; reflexivity.
Qed.

(** The second of three models has two rows for one period. *)
Lemma update_kpis_stops_witness :
  exists log,
    update_kpis twice_service (PStr demo_uuid) "cas-shared-default"
      "ModelPerformanceData"
    = (log,
       Raised (ValueError
                 "DataFrame index must be unique for orient='index'."))
    /\ listed_models log = [PStr "m1"; PStr "m2"]
    /\ uploaded_models log = [PStr "m1"].
Proof.
  destruct (update_kpis_stops twice_service (PStr demo_uuid)
              "cas-shared-default" "ModelPerformanceData"
              _ twice_table [CStr "m1"] [CStr "m3"] (CStr "m2")
              (fun _ => demo_document)
              (fun _ => "ModelHyperparameters.json")
              (demo_content twice_table) demo_document
              "ModelHyperparameters.json"
              (ValueError "DataFrame index must be unique for orient='index'.")
              eq_refl eq_refl)
    as [log [Hlog [Hlisted _]]].
  - intros x ups [<- | []]. repeat split; reflexivity.
  - intros ups. reflexivity.
  - reflexivity.
  - exists log. split; [exact Hlog|]. split; [exact Hlisted|].
    clear Hlisted. vm_compute in Hlog. injection Hlog as <-. reflexivity.
Defined.

(** ** More on the file locator *)

Lemma contains_empty (s : string) : containsb EmptyString s = true.
Proof. now destruct s. Qed.

(** X25. An empty fragment is in every name: whenever the model has a file,
    the locator with the empty fragment fetches the first file of the
    listing, and never fails with "no file". *)
Theorem find_file_empty_fragment (c : client) (model : pyval)
    (file : ModelFile.t) (rest : list ModelFile.t) :
  mr_get_model_contents c model = inr (file :: rest) ->
  _find_file c model EmptyString
  = ([EGetModelContents model; EGet (content_path c model file)],
     fetched c model file).
Proof.
  intros H. unfold _find_file, bind, call. rewrite H. cbn [find_in lower].
  rewrite contains_empty. unfold fetched, bind, call, ret.
  destruct (mr_get c (content_path c model file)); reflexivity.
Qed.

Lemma find_file_empty_fragment_witness :
  _find_file (demo_client demo_files no_session) (PStr demo_uuid) EmptyString
  = ([EGetModelContents (PStr demo_uuid);
      EGet ("models/" ++ demo_uuid ++ "/contents/f1/content")],
     Ok (demo_document, "dmcas_fitstat.json")).
Proof.
  apply (find_file_empty_fragment (demo_client demo_files no_session)
           (PStr demo_uuid) (ModelFile.mk "f1" "dmcas_fitstat.json")
           [ModelFile.mk "f2" "ModelHyperparameters.json";
            ModelFile.mk "f3" "hyperparameters_old.json"] eq_refl).
Defined.

Lemma find_in_case (c : client) (model : pyval) (f1 f2 : string)
    (files : list ModelFile.t) :
  lower f1 = lower f2 ->
  trace (find_in c model f1 files) = trace (find_in c model f2 files)
  /\ forall r,
       outcome (find_in c model f1 files) = Ok r ->
       outcome (find_in c model f2 files) = Ok r.
Proof.
  intros H. induction files as [|file rest IH]; cbn [find_in].
  - split; [reflexivity | discriminate].
  - rewrite H. destruct (containsb _ _); [|exact IH]. split; auto.
Qed.

(** X26. The case of the letters of the fragment does not count: two
    fragments that are equal up to case make the same calls, and what the
    locator returns for one it returns for the other. *)
Theorem find_file_any_case (c : client) (model : pyval) (f1 f2 : string) :
  lower f1 = lower f2 ->
  trace (_find_file c model f1) = trace (_find_file c model f2)
  /\ forall r,
       outcome (_find_file c model f1) = Ok r ->
       outcome (_find_file c model f2) = Ok r.
Proof.
  intros H. unfold _find_file, bind, call.
  destruct (mr_get_model_contents c model) as [e | files].
  - split; [reflexivity | discriminate].
  - destruct (find_in_case c model f1 f2 files H) as [Ht Ho].
    destruct (find_in c model f1 files) as [t1 r1].
    destruct (find_in c model f2 files) as [t2 r2].
    cbn [trace outcome fst snd] in *. subst t2. split; [reflexivity|].
    exact Ho.
Qed.

Lemma find_file_any_case_witness :
  outcome (_find_file (demo_client demo_files no_session) (PStr demo_uuid)
             "HYPERparameters")
  = Ok (demo_document, "ModelHyperparameters.json").
Proof.
  destruct (find_file_any_case (demo_client demo_files no_session)
              (PStr demo_uuid) "hyperparameters" "HYPERparameters" eq_refl)
    as [_ H].
  apply H. reflexivity.
Defined.
